(** * Kintari backend: document ingestion and query routing

    A shallow embedding of the parts of the Kintari backend that carry
    algorithmic content, followed by theorems about them.

    Embedding:
    - [Text]: the Python [str] operations, the two regular expressions and
      the SQL pattern match the code relies on;
    - [Py]: exceptions, JSON values and [datetime];
    - [UniversalDocument], [DocumentCollection], [Member]: the rows of
      [app/models], with the dictionary projections of a document;
    - [Session]: the database;
    - [External]: the collaborators the code calls but does not define;
    - [UniversalDocumentProcessor]: keyword extraction, the document type
      classifier and the reading of a PDF
      ([app/services/universal_document_processor.py]);
    - [GeminiService]: the text-completion gateway
      ([app/services/gemini_service.py]);
    - [UniversalDocumentService]: ingestion, listings, deletion, tag and
      category updates, statistics and collections
      ([app/services/universal_document_service.py]);
    - [UniversalDocuments]: the upload and delete routes
      ([app/routes/universal_documents.py]);
    - [Sql], [Chat]: the eight query handlers, the queries they send,
      their router, the context of a general question and the chat route
      ([app/routes/chat.py]).

    Text model.  A Python [str] is modelled by a [string] of 8-bit
    characters read as ASCII text: [lower] maps [A-Z] to [a-z] and leaves
    every other character alone, a word character is a letter, a digit or
    the underscore, and white space is the ASCII white space of
    [str.isspace].  Integers are [Z] (or [nat] for counts), and a float is
    the rational number it stands for; the arithmetic of the chat
    handlers on floats rounds as binary64 does ([Py.nearest_float]). *)

From Stdlib Require Import Ascii QArith Qabs DecimalString.
From Stdlib Require String.
From Stdlib.Strings Require Byte.
From stdpp Require Import gmap strings list fin_maps sorting.

#[local] Open Scope nat_scope.

(** ** Python string operations *)

Module Text.

Definition code (c : ascii) : N := N_of_ascii c.

Definition between (lo hi : N) (c : ascii) : bool :=
  ((lo <=? code c) && (code c <=? hi))%N.

Definition is_upper : ascii -> bool := between 65 90.
Definition is_lower : ascii -> bool := between 97 122.
Definition is_digit : ascii -> bool := between 48 57.
Definition is_alpha (c : ascii) : bool := is_upper c || is_lower c.

(** [\w]: letters, digits and the underscore. *)
Definition is_word (c : ascii) : bool :=
  is_alpha c || is_digit c || (code c =? 95)%N.

(** [str.isspace] on ASCII: TAB..CR, FS..US and the blank. *)
Definition is_space (c : ascii) : bool :=
  between 9 13 c || between 28 32 c.

Definition lower_char (c : ascii) : ascii :=
  if is_upper c then ascii_of_N (code c + 32) else c.

(** [s.lower()] *)
Fixpoint lower (s : string) : string :=
  match s with
  | EmptyString => EmptyString
  | String c s' => String (lower_char c) (lower s')
  end.

(** [s.startswith(p)] *)
Fixpoint startswith (p s : string) : bool :=
  match p, s with
  | EmptyString, _ => true
  | String _ _, EmptyString => false
  | String a p', String b s' => if Ascii.eqb a b then startswith p' s' else false
  end.

(** [needle in hay] *)
Fixpoint contains (needle hay : string) : bool :=
  startswith needle hay ||
  match hay with
  | EmptyString => false
  | String _ hay' => contains needle hay'
  end.

(** [s[:n]] for [n >= 0] *)
Fixpoint slice_to (n : N) (s : string) : string :=
  match s with
  | EmptyString => EmptyString
  | String c s' =>
      if (n =? 0)%N then EmptyString else String c (slice_to (N.pred n) s')
  end.

(** [s[n:]] for [n >= 0] *)
Fixpoint slice_from (n : nat) (s : string) : string :=
  match n, s with
  | S n', String _ s' => slice_from n' s'
  | _, _ => s
  end.

(** [s.endswith(p)] *)
Definition endswith (p s : string) : bool :=
  (String.length p <=? String.length s) &&
  String.eqb (slice_from (String.length s - String.length p) s) p.

Fixpoint lstrip (s : string) : string :=
  match s with
  | String c s' => if is_space c then lstrip s' else s
  | EmptyString => EmptyString
  end.

(** Removes trailing white space: a character is kept when something
    that is kept follows it, or when it is not white space itself. *)
Fixpoint rstrip (s : string) : string :=
  match s with
  | EmptyString => EmptyString
  | String c s' =>
      match rstrip s' with
      | EmptyString => if is_space c then EmptyString else String c EmptyString
      | r => String c r
      end
  end.

(** [s.strip()] *)
Definition strip (s : string) : string := rstrip (lstrip s).

(** [s.replace(old, new)] for a non-empty [old]: occurrences are replaced
    from left to right and do not overlap.  [skip] counts the characters
    of an occurrence already replaced that are still to be passed. *)
Fixpoint replace_from (skip : nat) (old new s : string) : string :=
  match s with
  | EmptyString => EmptyString
  | String c s' =>
      match skip with
      | S k => replace_from k old new s'
      | O =>
          if startswith old s
          then new +:+ replace_from (String.length old - 1) old new s'
          else String c (replace_from 0 old new s')
      end
  end.

Definition replace (old new s : string) : string := replace_from 0 old new s.

(** [sep.join(parts)] *)
Fixpoint join (sep : string) (parts : list string) : string :=
  match parts with
  | [] => EmptyString
  | [p] => p
  | p :: rest => p +:+ sep +:+ join sep rest
  end.

(** [str(n)] for an integer. *)
Definition str_int (n : Z) : string := NilZero.string_of_int (Z.to_int n).
Definition str_nat (n : nat) : string := str_int (Z.of_nat n).

(** *** The quoted-literal search of the handlers

    [re.search] with the pattern: one quote character (single or double),
    a group of one or more characters that are not quotes, one quote
    character.  It finds the leftmost quote that is followed by a
    non-empty run of non-quote characters and then by a quote; the result
    is group 1, the run.  The run is greedy and a shorter run would be
    followed by a non-quote, so only the maximal run can match. *)

Definition is_quote (c : ascii) : bool :=
  (code c =? 39)%N || (code c =? 34)%N.

(** The maximal run of non-quote characters at the head of [s], when a
    quote closes it. *)
Fixpoint quoted_run (s : string) : option string :=
  match s with
  | EmptyString => None
  | String c s' =>
      if is_quote c then Some EmptyString
      else String c <$> quoted_run s'
  end.

Fixpoint search_quoted (s : string) : option string :=
  match s with
  | EmptyString => None
  | String c s' =>
      if is_quote c then
        match quoted_run s' with
        | Some (String a r) => Some (String a r)
        | _ => search_quoted s'
        end
      else search_quoted s'
  end.

(** *** SQL [LIKE]

    [like p s]: the whole of [s] matches the pattern [p], where [%]
    stands for any run of characters and [_] for any one character (no
    escape character, as in SQLite). *)
Fixpoint like (p s : string) : bool :=
  match p with
  | EmptyString => match s with EmptyString => true | _ => false end
  | String a p' =>
      if (code a =? 37)%N then
        (fix any_run (s : string) : bool :=
           like p' s ||
           match s with
           | EmptyString => false
           | String _ s' => any_run s'
           end) s
      else
        match s with
        | EmptyString => false
        | String b s' =>
            ((code a =? 95)%N || Ascii.eqb a b) && like p' s'
        end
  end.

(** *** [re.findall(r"\b[a-zA-Z]{4,}\b", s)]

    A match is a maximal run of letters, at least four long, that starts
    at a word boundary (start of text or after a non-word character) and
    ends at one (end of text or before a non-word character): inside a
    run of letters there is no boundary, and next to a digit or an
    underscore there is none either.

    [prev_word] tells whether the character before the current one is a
    word character; [run] is the run of letters read so far when it
    started at a boundary, most recent letter first. *)

Definition emit (run : option (list ascii)) : list string :=
  match run with
  | Some r => if 4 <=? length r then [String.string_of_list_ascii (rev r)] else []
  | None => []
  end.

Fixpoint findall_words_from (prev_word : bool) (run : option (list ascii))
    (s : string) : list string :=
  match s with
  | EmptyString => emit run
  | String c s' =>
      if is_alpha c then
        let run' :=
          match run with
          | Some r => Some (c :: r)
          | None => if prev_word then None else Some [c]
          end in
        findall_words_from true run' s'
      else if is_word c then findall_words_from true None s'
      else emit run ++ findall_words_from false None s'
  end.

Definition findall_words (s : string) : list string :=
  findall_words_from false None s.

End Text.

(** ** Python values shared by the modules below *)

Module Py.
Import Text.

(** Exceptions.  [HTTPException] is a subclass of [Exception], so an
    [except Exception] clause catches both. *)
Inductive exn :=
| HTTPException (status_code : Z) (detail : string)
| Exception (msg : string).

(** [str(e)] *)
Definition str (e : exn) : string :=
  match e with
  | HTTPException status_code detail => str_int status_code +:+ ": " +:+ detail
  | Exception msg => msg
  end.

Definition float := Q.

(** The values a JSON column or a response dictionary holds. *)
#[warnings="-register-all"] Inductive json :=
| JNull
| JBool (b : bool)
| JInt (n : Z)
| JFloat (x : float)
| JStr (s : string)
| JList (l : list json)
| JDict (d : list (string * json)).

Definition json_opt {A} (f : A -> json) (o : option A) : json :=
  from_option f JNull o.

Definition JStrs (l : list string) : json := JList (JStr <$> l).

(** A naive [datetime]. *)
Record datetime := {
  year : nat; month : nat; day : nat;
  hour : nat; minute : nat; second : nat; microsecond : nat
}.

(** [str(n).zfill(width)] for a natural number. *)
Definition zfill (width n : nat) : string :=
  let digits := str_nat n in
  String.concat EmptyString (replicate (width - String.length digits) "0")
  +:+ digits.

(** [dt.isoformat()] *)
Definition isoformat (dt : datetime) : string :=
  zfill 4 (year dt) +:+ "-" +:+ zfill 2 (month dt) +:+ "-" +:+ zfill 2 (day dt)
  +:+ "T" +:+ zfill 2 (hour dt) +:+ ":" +:+ zfill 2 (minute dt)
  +:+ ":" +:+ zfill 2 (second dt)
  +:+ (if microsecond dt =? 0 then EmptyString
       else "." +:+ zfill 6 (microsecond dt)).

(** Truth value of an optional string: [None] and the empty string are
    false. *)
Definition truthy (o : option string) : bool :=
  match o with
  | Some (String _ _) => true
  | _ => false
  end.

Definition nl : string := String (ascii_of_N 10) EmptyString.

(** *** Floating point

    An operation on floats returns the float nearest to its exact result:
    IEEE 754 binary64, that is 53 significant bits down to the exponent
    -1022 and steps of 2^-1074 below, ties going to the even significand.
    Results are taken to lie within the range of the finite floats. *)

(** The integer nearest to a rational, ties to even. *)
Definition round_half_even (x : Q) : Z :=
  let floor := (Qnum x / Zpos (Qden x))%Z in
  let twice_rem := (2 * (Qnum x mod Zpos (Qden x)))%Z in
  if (twice_rem <? Zpos (Qden x))%Z then floor
  else if (Zpos (Qden x) <? twice_rem)%Z then (floor + 1)%Z
  else if Z.even floor then floor else (floor + 1)%Z.

(** For [x > 0], the exponent [e] with [2^e <= x < 2^(e+1)]. *)
Definition binade (x : Q) : Z :=
  let k := (Z.log2 (Qnum x) - Z.log2 (Zpos (Qden x)))%Z in
  if Qle_bool (Qpower 2 k) x then k else (k - 1)%Z.

Definition nearest_float (x : Q) : float :=
  let x := Qred x in
  if Qeq_bool x 0 then 0%Q
  else
    let e := Z.max (binade (Qabs x)) (-1022) in
    let ulp := Qpower 2 (e - 52) in
    Qred (inject_Z (round_half_even (x / ulp)) * ulp).

(** [a / b] for two integers, [b] not zero: the float nearest to the
    quotient. *)
Definition int_truediv (a b : Z) : float :=
  nearest_float (inject_Z a / inject_Z b).

(** [x * y] for two floats. *)
Definition float_mul (x y : float) : float := nearest_float (x * y).


(** [repr(s)] of a string, as [str] of a dictionary renders its keys: in
    single quotes, or in double quotes when the text holds a single quote
    and no double quote; the quote in use and the backslash are escaped,
    TAB, LF and CR are written with their letters, the other control
    characters in hexadecimal.  A character above 127 is kept as it is. *)
Definition backslash : ascii := ascii_of_N 92.
Definition single_quote : ascii := ascii_of_N 39.
Definition double_quote : ascii := ascii_of_N 34.

Definition hex_digit (n : N) : ascii :=
  if (n <? 10)%N then ascii_of_N (48 + n) else ascii_of_N (87 + n).

Definition repr_char (quote c : ascii) : string :=
  if Ascii.eqb c quote || Ascii.eqb c backslash
  then String backslash (String c EmptyString)
  else if (code c =? 9)%N then String backslash "t"
  else if (code c =? 10)%N then String backslash "n"
  else if (code c =? 13)%N then String backslash "r"
  else if (code c <? 32)%N || (code c =? 127)%N
  then String backslash
         (String "x"
            (String (hex_digit (code c / 16))
               (String (hex_digit (code c mod 16)) EmptyString)))
  else String c EmptyString.

Fixpoint repr_body (quote : ascii) (s : string) : string :=
  match s with
  | EmptyString => EmptyString
  | String c s' => repr_char quote c +:+ repr_body quote s'
  end.

Definition repr_str (s : string) : string :=
  let quote :=
    if contains (String single_quote EmptyString) s
       && negb (contains (String double_quote EmptyString) s)
    then double_quote else single_quote in
  String quote (repr_body quote s) +:+ String quote EmptyString.

End Py.

(** ** The rows of [app/models] *)

Module UniversalDocument.
Import Py.

Record t := {
  id : Z;
  filename : string;
  file_path : string;
  file_size : option float;
  document_type : string;
  category : option string;
  tags : option (list string);
  full_text : option string;
  summary : option string;
  extracted_entities : option json;
  keywords : option (list string);
  tables_data : option json;
  page_count : option Z;
  pdf_metadata : option json;
  ai_summary : option string;
  ai_insights : option json;
  embedding_vector : option string;
  processed : option bool;
  processed_at : option datetime;
  uploaded_at : option datetime;
  updated_at : option datetime;
  is_public : option bool;
  uploaded_by : option string;
  search_index : option string
}.

Definition to_dict (self : t) : gmap string json :=
  list_to_map
    [ ("id", JInt (id self));
      ("filename", JStr (filename self));
      ("file_path", JStr (file_path self));
      ("file_size", json_opt JFloat (file_size self));
      ("document_type", JStr (document_type self));
      ("category", json_opt JStr (category self));
      ("tags", json_opt JStrs (tags self));
      ("summary", json_opt JStr (summary self));
      ("page_count", json_opt JInt (page_count self));
      ("keywords", json_opt JStrs (keywords self));
      ("uploaded_at", json_opt (JStr ∘ isoformat) (uploaded_at self));
      ("processed", json_opt JBool (processed self)) ].

(** [base_dict.update({...})]: the new entries win over the old ones. *)
Definition to_dict_full (self : t) : gmap string json :=
  let base_dict := to_dict self in
  list_to_map
    [ ("full_text", json_opt JStr (full_text self));
      ("extracted_entities", json_opt (fun j => j) (extracted_entities self));
      ("tables_data", json_opt (fun j => j) (tables_data self));
      ("pdf_metadata", json_opt (fun j => j) (pdf_metadata self));
      ("ai_summary", json_opt JStr (ai_summary self));
      ("ai_insights", json_opt (fun j => j) (ai_insights self)) ]
  ∪ base_dict.

Definition set_tags (v : option (list string)) (d : t) : t :=
  {| id := id d; filename := filename d; file_path := file_path d;
     file_size := file_size d; document_type := document_type d;
     category := category d; tags := v; full_text := full_text d;
     summary := summary d; extracted_entities := extracted_entities d;
     keywords := keywords d; tables_data := tables_data d;
     page_count := page_count d; pdf_metadata := pdf_metadata d;
     ai_summary := ai_summary d; ai_insights := ai_insights d;
     embedding_vector := embedding_vector d; processed := processed d;
     processed_at := processed_at d; uploaded_at := uploaded_at d;
     updated_at := updated_at d; is_public := is_public d;
     uploaded_by := uploaded_by d; search_index := search_index d |}.

Definition set_category (v : option string) (d : t) : t :=
  {| id := id d; filename := filename d; file_path := file_path d;
     file_size := file_size d; document_type := document_type d;
     category := v; tags := tags d; full_text := full_text d;
     summary := summary d; extracted_entities := extracted_entities d;
     keywords := keywords d; tables_data := tables_data d;
     page_count := page_count d; pdf_metadata := pdf_metadata d;
     ai_summary := ai_summary d; ai_insights := ai_insights d;
     embedding_vector := embedding_vector d; processed := processed d;
     processed_at := processed_at d; uploaded_at := uploaded_at d;
     updated_at := updated_at d; is_public := is_public d;
     uploaded_by := uploaded_by d; search_index := search_index d |}.

Definition set_updated_at (v : option datetime) (d : t) : t :=
  {| id := id d; filename := filename d; file_path := file_path d;
     file_size := file_size d; document_type := document_type d;
     category := category d; tags := tags d; full_text := full_text d;
     summary := summary d; extracted_entities := extracted_entities d;
     keywords := keywords d; tables_data := tables_data d;
     page_count := page_count d; pdf_metadata := pdf_metadata d;
     ai_summary := ai_summary d; ai_insights := ai_insights d;
     embedding_vector := embedding_vector d; processed := processed d;
     processed_at := processed_at d; uploaded_at := uploaded_at d;
     updated_at := v; is_public := is_public d;
     uploaded_by := uploaded_by d; search_index := search_index d |}.

Definition set_ai (s : option string) (i : option json) (d : t) : t :=
  {| id := id d; filename := filename d; file_path := file_path d;
     file_size := file_size d; document_type := document_type d;
     category := category d; tags := tags d; full_text := full_text d;
     summary := summary d; extracted_entities := extracted_entities d;
     keywords := keywords d; tables_data := tables_data d;
     page_count := page_count d; pdf_metadata := pdf_metadata d;
     ai_summary := s; ai_insights := i;
     embedding_vector := embedding_vector d; processed := processed d;
     processed_at := processed_at d; uploaded_at := uploaded_at d;
     updated_at := updated_at d; is_public := is_public d;
     uploaded_by := uploaded_by d; search_index := search_index d |}.

End UniversalDocument.

Module DocumentCollection.
Import Py.

Record t := {
  id : Z;
  name : string;
  description : option string;
  document_ids : option (list Z);
  created_at : option datetime;
  updated_at : option datetime;
  created_by : option string;
  is_active : option bool
}.

Definition set_document_ids (ids : option (list Z)) (now : option datetime)
    (c : t) : t :=
  {| id := id c; name := name c; description := description c;
     document_ids := ids; created_at := created_at c; updated_at := now;
     created_by := created_by c; is_active := is_active c |}.

Definition to_dict (self : t) : gmap string json :=
  list_to_map
    [ ("id", JInt (id self));
      ("name", JStr (name self));
      ("description", json_opt JStr (description self));
      ("document_count",
        JInt (Z.of_nat (length (default [] (document_ids self)))));
      ("created_at", json_opt (JStr ∘ isoformat) (created_at self));
      ("is_active", json_opt JBool (is_active self)) ].

End DocumentCollection.

(** The columns of [Member] that the chat handlers read. *)
Module Member.

Record t := {
  name : option string;
  jabatan : option string;
  status_kta : option string;
  usia : option Z;
  jenis_kelamin : option string;
  phone : option string;
  email : option string;
  instagram : option string;
  nama_perusahaan : option string;
  jabatan_dlm_akta_perusahaan : option string;
  kategori_bidang_usaha : option string;
  jmlh_karyawan : option Z
}.

End Member.

(** ** The database session

    A table with an integer primary key is a finite map from the key to
    the row; the members are kept as the list of rows in the order the
    database returns them, which is what an unordered query or [first()]
    sees.  A commit is atomic and does not fail. *)

Record Session := {
  members : list Member.t;
  documents : gmap Z UniversalDocument.t;
  collections : gmap Z DocumentCollection.t
}.

Definition with_documents (docs : gmap Z UniversalDocument.t) (db : Session)
    : Session :=
  {| members := members db; documents := docs; collections := collections db |}.

Definition with_collections (cs : gmap Z DocumentCollection.t) (db : Session)
    : Session :=
  {| members := members db; documents := documents db; collections := cs |}.

(** The rows of a table as a query without [ORDER BY] returns them: in
    no particular order, each row once. *)
Definition rows {A} (table : gmap Z A) : list A := (map_to_list table).*2.

(** ** External collaborators

    What the code calls but does not define: the environment variable
    holding the API key, the constructor and the completion call of the
    generative-AI client, the PDF reader and the clock.  The entity
    extractor of the processor (ten regular expressions) is taken the same
    way: no property below depends on what it returns. *)

Module External.
Import Py.

(** A table as the PDF reader returns it: rows of optional cells. *)
Definition table := list (list (option string)).

Record Page := {
  extract_text : option string;
  extract_tables : list table
}.

Record Pdf := {
  metadata : gmap string string;
  pages : list Page
}.

Record Env := {
  (** [os.getenv] of the API key *)
  GEMINI_API_KEY : option string;
  (** [genai.Client(api_key=...)]: the exception it raises, if any *)
  genai_Client : string -> option exn;
  (** [client.models.generate_content(...)]: raises, or returns a response
      whose [text] may be [None] *)
  generate_content : string -> exn + option string;
  (** [pdfplumber.open] on the bytes of the file *)
  pdfplumber_open : list Byte.byte -> exn + Pdf;
  _extract_entities : string -> json;
  (** [datetime.utcnow()] *)
  utcnow : datetime
}.

End External.

(** ** [UniversalDocumentProcessor] *)

Module UniversalDocumentProcessor.
Import Text Py External.

Definition stopwords : list string :=
  [ "yang"; "dan"; "untuk"; "pada"; "dalam"; "dengan"; "adalah"; "dari";
    "ini"; "itu"; "akan"; "dapat"; "telah"; "atau"; "oleh"; "sebagai";
    "the"; "and"; "for"; "that"; "this"; "with"; "from"; "have"; "been";
    "will"; "their"; "which" ].

(** [word not in stopwords and len(word) > 3] *)
Definition keep (word : string) : bool :=
  negb (existsb (String.eqb word) stopwords) && (3 <? String.length word).

(** [word_freq[word] = word_freq.get(word, 0) + 1] on a dictionary that
    keeps its keys in insertion order: an existing key keeps its place, a
    new key goes last. *)
Fixpoint bump (word : string) (word_freq : list (string * nat))
    : list (string * nat) :=
  match word_freq with
  | [] => [(word, 1)]
  | (k, v) :: rest =>
      if String.eqb k word then (k, v + 1) :: rest
      else (k, v) :: bump word rest
  end.

Definition count_words (words : list string) : list (string * nat) :=
  fold_left (fun word_freq word =>
               if keep word then bump word word_freq else word_freq)
            words [].

(** [sorted(items, key=lambda x: x[1], reverse=True)]: a stable sort, so
    items with equal counts keep the order they had. *)
Fixpoint insert_desc (x : string * nat) (l : list (string * nat))
    : list (string * nat) :=
  match l with
  | [] => [x]
  | y :: l' => if x.2 <? y.2 then y :: insert_desc x l' else x :: l
  end.

Definition sorted_desc (l : list (string * nat)) : list (string * nat) :=
  foldr insert_desc [] l.

(** [l[:n]] for any integer [n]: a negative [n] counts from the end. *)
Definition list_slice_to {A} (n : Z) (l : list A) : list A :=
  if (0 <=? n)%Z then take (Z.to_nat n) l
  else take (length l - Z.to_nat (- n)) l.

Definition _extract_keywords (text : string) (top_n : Z) : list string :=
  let words := findall_words (lower text) in
  let word_freq := count_words words in
  let sorted_words := sorted_desc word_freq in
  (list_slice_to top_n sorted_words).*1.

Definition any_in (words : list string) (s : string) : bool :=
  existsb (fun word => contains word s) words.

Definition detect_document_type (filename text : string) : string :=
  let filename_lower := lower filename in
  let text_lower := lower text in
  if contains "po" filename_lower
     || contains "peraturan organisasi" (slice_to 1000%N text_lower)
  then "HIPMI_PO"
  else if contains "ad" filename_lower
          || contains "anggaran dasar" (slice_to 1000%N text_lower)
  then "HIPMI_AD"
  else if contains "art" filename_lower
          || contains "anggaran rumah tangga" (slice_to 1000%N text_lower)
  then "HIPMI_ART"
  else if contains "sk" filename_lower
          || contains "surat keputusan" (slice_to 1000%N text_lower)
  then "HIPMI_SK"
  else if any_in ["kontrak"; "perjanjian"; "contract"] filename_lower
  then "CONTRACT"
  else if any_in ["laporan"; "report"] filename_lower then "REPORT"
  else if contains "proposal" filename_lower then "PROPOSAL"
  else if any_in ["presentasi"; "presentation"; "slide"] filename_lower
  then "PRESENTATION"
  else if any_in ["peraturan"; "regulation"; "kebijakan"] filename_lower
  then "REGULATION"
  else if any_in ["manual"; "panduan"; "guide"] filename_lower then "MANUAL"
  else
    let content_check := slice_to 2000%N text_lower in
    if contains "hipmi" content_check then "HIPMI_DOCUMENT"
    else if contains "kontrak" content_check
            || contains "perjanjian" content_check
    then "CONTRACT"
    else if contains "laporan" content_check then "REPORT"
    else "OTHER".

(** The result dictionary of [extract_document_content]. *)
Record Extracted := {
  x_full_text : string;
  x_page_count : Z;
  x_metadata : json;
  x_summary : string;
  x_extracted_entities : json;
  x_tables : list json;
  x_keywords : list string
}.

Definition pdf_header : list Byte.byte := String.list_byte_of_string "%PDF-".

Fixpoint bytes_startswith (p b : list Byte.byte) : bool :=
  match p, b with
  | [], _ => true
  | _ :: _, [] => false
  | x :: p', y :: b' => Byte.eqb x y && bytes_startswith p' b'
  end.

Fixpoint bytes_eqb (a b : list Byte.byte) : bool :=
  match a, b with
  | [], [] => true
  | x :: a', y :: b' => Byte.eqb x y && bytes_eqb a' b'
  | _, _ => false
  end.

Definition metadata_get (m : gmap string string) (key : string) : json :=
  JStr (default EmptyString (m !! key)).

(** The tables of one page, each tagged with the page number. *)
Definition page_tables (page_num : nat) (page : Page) : list json :=
  (fun tbl : table =>
     JDict [ ("page", JInt (Z.of_nat page_num));
             ("data", JList ((fun row => JList (json_opt JStr <$> row)) <$> tbl));
             ("rows", JInt (Z.of_nat (length tbl)));
             ("cols", JInt (Z.of_nat (from_option length 0 (head tbl)))) ])
  <$> extract_tables page.

Fixpoint all_tables (page_num : nat) (pages : list Page) : list json :=
  match pages with
  | [] => []
  | page :: rest => page_tables page_num page ++ all_tables (S page_num) rest
  end.

(** [if text: full_text.append(text)] *)
Definition page_texts (pages : list Page) : list string :=
  omap (fun page => match extract_text page with
                    | Some (String c s) => Some (String c s)
                    | _ => None
                    end) pages.

Definition extract_document_content (env : Env) (fs : gmap string (list Byte.byte))
    (file_path : string) : exn + Extracted :=
  let body : exn + Extracted :=
    match fs !! file_path with
    | None => inl (Exception "No such file or directory")
    | Some contents =>
        let header := take 5 contents in
        if negb (bytes_eqb header pdf_header) then
          inl (Exception "Invalid PDF file. File does not have PDF header. Please upload a valid PDF document.")
        else
          match pdfplumber_open env contents with
          | inl e => inl e
          | inr pdf =>
              let full_text := join (nl +:+ nl) (page_texts (pages pdf)) in
              inr {| x_full_text := full_text;
                     x_page_count := Z.of_nat (length (pages pdf));
                     x_metadata :=
                       JDict [ ("title", metadata_get (metadata pdf) "Title");
                               ("author", metadata_get (metadata pdf) "Author");
                               ("subject", metadata_get (metadata pdf) "Subject");
                               ("creator", metadata_get (metadata pdf) "Creator");
                               ("producer", metadata_get (metadata pdf) "Producer");
                               ("creation_date",
                                 metadata_get (metadata pdf) "CreationDate") ];
                     x_summary :=
                       if 500 <? String.length full_text
                       then slice_to 500%N full_text +:+ "..."
                       else full_text;
                     x_extracted_entities := _extract_entities env full_text;
                     x_tables := all_tables 1 (pages pdf);
                     x_keywords := _extract_keywords full_text 20 |}
          end
    end in
  match body with
  | inl e => inl (Exception ("Error processing PDF: " +:+ str e))
  | inr result => inr result
  end.

(** The dictionaries [get_document_category_info] returns; an icon is the
    text the source has between the quotes, as its UTF-8 bytes. *)
Module CategoryInfo.
Record t := {
  name : string;
  description : string;
  icon : string
}.
End CategoryInfo.

Definition categories : list (string * CategoryInfo.t) :=
  [
    ("HIPMI_PO",
      {| CategoryInfo.name := "Peraturan Organisasi HIPMI";
         CategoryInfo.description := "Dokumen peraturan organisasi internal";
         CategoryInfo.icon := "ğŸ“‹" |});
    ("HIPMI_AD",
      {| CategoryInfo.name := "Anggaran Dasar HIPMI";
         CategoryInfo.description := "Dokumen anggaran dasar organisasi";
         CategoryInfo.icon := "ğŸ“œ" |});
    ("HIPMI_ART",
      {| CategoryInfo.name := "Anggaran Rumah Tangga HIPMI";
         CategoryInfo.description := "Dokumen anggaran rumah tangga organisasi";
         CategoryInfo.icon := "ğŸ›ï¸" |});
    ("HIPMI_SK",
      {| CategoryInfo.name := "Surat Keputusan HIPMI";
         CategoryInfo.description := "Dokumen surat keputusan organisasi";
         CategoryInfo.icon := "âœ…" |});
    ("HIPMI_DOCUMENT",
      {| CategoryInfo.name := "Dokumen HIPMI";
         CategoryInfo.description := "Dokumen umum HIPMI";
         CategoryInfo.icon := "ğŸ“„" |});
    ("CONTRACT",
      {| CategoryInfo.name := "Kontrak/Perjanjian";
         CategoryInfo.description := "Dokumen kontrak atau perjanjian";
         CategoryInfo.icon := "ğŸ“" |});
    ("REPORT",
      {| CategoryInfo.name := "Laporan";
         CategoryInfo.description := "Dokumen laporan";
         CategoryInfo.icon := "ğŸ“Š" |});
    ("PROPOSAL",
      {| CategoryInfo.name := "Proposal";
         CategoryInfo.description := "Dokumen proposal";
         CategoryInfo.icon := "ğŸ’¼" |});
    ("PRESENTATION",
      {| CategoryInfo.name := "Presentasi";
         CategoryInfo.description := "Slide presentasi";
         CategoryInfo.icon := "ğŸ“½ï¸" |});
    ("REGULATION",
      {| CategoryInfo.name := "Peraturan";
         CategoryInfo.description := "Dokumen peraturan";
         CategoryInfo.icon := "âš–ï¸" |});
    ("MANUAL",
      {| CategoryInfo.name := "Manual/Panduan";
         CategoryInfo.description := "Dokumen manual atau panduan";
         CategoryInfo.icon := "ğŸ“–" |});
    ("OTHER",
      {| CategoryInfo.name := "Dokumen Lainnya";
         CategoryInfo.description := "Dokumen umum lainnya";
         CategoryInfo.icon := "ğŸ“‘" |}) ].

Fixpoint categories_get (table : list (string * CategoryInfo.t))
    (doc_type : string) (fallback : CategoryInfo.t) : CategoryInfo.t :=
  match table with
  | [] => fallback
  | (k, v) :: rest =>
      if String.eqb k doc_type then v else categories_get rest doc_type fallback
  end.

Definition get_document_category_info (doc_type : string) : CategoryInfo.t :=
  categories_get categories doc_type
    {| CategoryInfo.name := "Unknown";
       CategoryInfo.description := "Unknown document type";
       CategoryInfo.icon := "â“" |}.

End UniversalDocumentProcessor.

(** ** [GeminiService] *)

Module GeminiService.
Import Text Py External.

Record t := {
  api_key : option string;
  (** whether [self.client] is set *)
  client : bool
}.

(** [GeminiService()]: the key comes from the environment; the client is
    built only when the key is set, and building it may raise. *)
Definition init (env : Env) : exn + t :=
  let api_key := GEMINI_API_KEY env in
  match api_key with
  | Some (String c k) =>
      match genai_Client env (String c k) with
      | Some e => inl e
      | None => inr {| api_key := api_key; client := true |}
      end
  | _ => inr {| api_key := api_key; client := false |}
  end.

Definition _call_api (self : t) (env : Env) (prompt : string) : exn + string :=
  if negb (client self) then
    inl (Exception "Gemini API client not initialized. Check GEMINI_API_KEY.")
  else
    let body : exn + string :=
      match generate_content env prompt with
      | inl e => inl e
      | inr None => inl (Exception "Gemini API returned empty response")
      | inr (Some text) => inr text
      end in
    match body with
    | inl e => inl (Exception ("Gemini API call failed: " +:+ str e))
    | inr text => inr text
    end.

Definition summarize_prompt (text : string) (max_length : Z) : string :=
  "Buatkan ringkasan singkat (" +:+ str_int max_length
  +:+ " karakter) dari teks berikut:" +:+ nl +:+ nl +:+ text
  +:+ nl +:+ nl +:+ "Ringkasan:".

(** Never raises: a failure of the call comes back as the text of the
    answer. *)
Definition summarize_text (self : t) (env : Env) (text : string)
    (max_length : Z) : string :=
  if negb (truthy (api_key self)) then "API Key not configured"
  else
    match _call_api self env (summarize_prompt text max_length) with
    | inr answer => answer
    | inl e => "Error: " +:+ str e
    end.

Definition answer_prompt (question context : string) : string :=
  "Berdasarkan konteks berikut, jawab pertanyaan:" +:+ nl +:+ nl
  +:+ "KONTEKS:" +:+ nl +:+ context +:+ nl +:+ nl
  +:+ "PERTANYAAN:" +:+ nl +:+ question +:+ nl +:+ nl +:+ "JAWABAN:".

Definition answer_question (self : t) (env : Env) (question context : string)
    : string :=
  if negb (truthy (api_key self)) then "API Key not configured"
  else
    match _call_api self env (answer_prompt question context) with
    | inr answer => answer
    | inl e => "Error: " +:+ str e
    end.

Definition key_info_prompt (text : string) : string :=
  "Ekstrak info kunci dari dokumen: Nama organisasi, Tanggal berdiri, Asas, Tujuan, Struktur (jika ada)."
  +:+ nl +:+ "        " +:+ nl
  +:+ "Dokumen:" +:+ nl +:+ slice_to 2000%N text +:+ nl +:+ nl
  +:+ "Format JSON.".

(** The result is a dictionary with the one key [info] or [error]. *)
Definition extract_key_info (self : t) (env : Env) (text : string)
    : string * string :=
  if negb (truthy (api_key self)) then ("error", "API Key not configured")
  else
    match _call_api self env (key_info_prompt text) with
    | inr answer => ("info", answer)
    | inl e => ("error", str e)
    end.

End GeminiService.

(** The order in which [list(set(ids))] enumerates a set of integers is
    not fixed by the language; all that is known is that every element
    comes out once. *)
Class SetOrder := {
  list_of_set : list Z -> list Z;
  list_of_set_perm : forall l, list_of_set l ≡ₚ remove_dups l
}.

(** What the code leaves to the database engine.  [ORDER BY uploaded_at
    DESC] returns the rows it is given, latest upload first, and the
    engine decides where rows of equal or missing upload time go: all
    that is used of it below is that it returns the same rows.
    [column.contains(q)] is a [LIKE] whose case rule is the engine's. *)
Class Engine := {
  order_by_uploaded_at_desc :
    list UniversalDocument.t -> list UniversalDocument.t;
  order_by_uploaded_at_desc_perm :
    forall l, order_by_uploaded_at_desc l ≡ₚ l;
  column_contains : option string -> string -> bool
}.

(** ** [UniversalDocumentService] *)

Module UniversalDocumentService.
Import Text Py External UniversalDocumentProcessor.

Definition insights_prompt (document_type full_text : string) : string :=
  nl +:+ "Analyze this document briefly and extract key information:" +:+ nl
  +:+ "Document Type: " +:+ document_type +:+ nl
  +:+ "Content: " +:+ slice_to 8000%N full_text +:+ nl
  +:+ nl
  +:+ "Provide a brief analysis covering:" +:+ nl
  +:+ "1. Main topics (2-3 points)" +:+ nl
  +:+ "2. Key findings (2-3 points)" +:+ nl
  +:+ "3. Important entities (people, organizations, dates)" +:+ nl.

(** The row built from the extracted data, before any AI enrichment.
    Columns that are not given take their declared default. *)
Definition new_document (env : Env) (new_id : Z) (file_path filename : string)
    (file_size : float) (category : option string)
    (tags : option (list string)) (uploaded_by : option string)
    (extracted_data : Extracted)
    : UniversalDocument.t :=
  let document_type :=
    detect_document_type filename (x_full_text extracted_data) in
  let search_index :=
    filename +:+ " " +:+ slice_to 5000%N (x_full_text extracted_data) in
  {| UniversalDocument.id := new_id;
     UniversalDocument.filename := filename;
     UniversalDocument.file_path := file_path;
     UniversalDocument.file_size := Some file_size;
     UniversalDocument.document_type := document_type;
     UniversalDocument.category := category;
     UniversalDocument.tags :=
       Some (match tags with Some (t :: ts) => t :: ts | _ => [] end);
     UniversalDocument.full_text := Some (x_full_text extracted_data);
     UniversalDocument.summary := Some (x_summary extracted_data);
     UniversalDocument.extracted_entities :=
       Some (x_extracted_entities extracted_data);
     UniversalDocument.keywords := Some (x_keywords extracted_data);
     UniversalDocument.tables_data := Some (JList (x_tables extracted_data));
     UniversalDocument.page_count := Some (x_page_count extracted_data);
     UniversalDocument.pdf_metadata := Some (x_metadata extracted_data);
     UniversalDocument.ai_summary := None;
     UniversalDocument.ai_insights := None;
     UniversalDocument.embedding_vector := None;
     UniversalDocument.processed := Some true;
     UniversalDocument.processed_at := Some (utcnow env);
     UniversalDocument.uploaded_at := Some (utcnow env);
     UniversalDocument.updated_at := Some (utcnow env);
     UniversalDocument.is_public := Some true;
     UniversalDocument.uploaded_by := uploaded_by;
     UniversalDocument.search_index := Some search_index |}.

(** The enrichment step, entered once the document is committed.  Its
    [try] block can only be left early by the construction of the
    service; [summarize_text] does not raise.  The result is the session
    and the document as the caller sees them afterwards. *)
Definition enrich (env : Env) (db : Session) (document : UniversalDocument.t)
    (full_text : string) : Session * UniversalDocument.t :=
  match GeminiService.init env with
  | inl _ => (db, document)
  | inr gemini =>
      let ai_summary :=
        GeminiService.summarize_text gemini env (slice_to 15000%N full_text) 500 in
      let ai_insights_text :=
        GeminiService.summarize_text gemini env
          (insights_prompt (UniversalDocument.document_type document) full_text)
          500 in
      let document' :=
        UniversalDocument.set_updated_at (Some (utcnow env))
          (UniversalDocument.set_ai (Some ai_summary)
             (Some (JDict [("analysis", JStr ai_insights_text)])) document) in
      (with_documents
         (<[UniversalDocument.id document := document']> (documents db)) db,
       document')
  end.

Definition process_and_save_document (env : Env)
    (fs : gmap string (list Byte.byte)) (db : Session)
    (file_path filename : string) (file_size : float)
    (category : option string) (tags : option (list string))
    (uploaded_by : option string) (generate_ai_summary : bool)
    : Session * (exn + UniversalDocument.t) :=
  match extract_document_content env fs file_path with
  | inl e => (db, inl e)
  | inr extracted_data =>
      let new_id := fresh (dom (documents db)) in
      let document :=
        new_document env new_id file_path filename file_size category tags
          uploaded_by extracted_data in
      let db1 := with_documents (<[new_id := document]> (documents db)) db in
      if generate_ai_summary
         && negb (String.eqb (x_full_text extracted_data) EmptyString)
      then
        let '(db2, document') :=
          enrich env db1 document (x_full_text extracted_data) in
        (db2, inr document')
      else (db1, inr document)
  end.

Definition get_document_by_id (db : Session) (document_id : Z)
    : option UniversalDocument.t :=
  documents db !! document_id.

Definition update_document_tags (env : Env) (db : Session) (document_id : Z)
    (tags : list string) : Session * option UniversalDocument.t :=
  match get_document_by_id db document_id with
  | Some document =>
      let document' :=
        UniversalDocument.set_updated_at (Some (utcnow env))
          (UniversalDocument.set_tags (Some tags) document) in
      (with_documents (<[document_id := document']> (documents db)) db,
       Some document')
  | None => (db, None)
  end.

Definition update_document_category (env : Env) (db : Session)
    (document_id : Z) (category : string)
    : Session * option UniversalDocument.t :=
  match get_document_by_id db document_id with
  | Some document =>
      let document' :=
        UniversalDocument.set_updated_at (Some (utcnow env))
          (UniversalDocument.set_category (Some category) document) in
      (with_documents (<[document_id := document']> (documents db)) db,
       Some document')
  | None => (db, None)
  end.

Definition add_documents_to_collection `{SetOrder} (env : Env) (db : Session)
    (collection_id : Z) (document_ids : list Z)
    : Session * option DocumentCollection.t :=
  match collections db !! collection_id with
  | Some collection =>
      let current_ids := default [] (DocumentCollection.document_ids collection) in
      let updated_ids := list_of_set (current_ids ++ document_ids) in
      let collection' :=
        DocumentCollection.set_document_ids (Some updated_ids)
          (Some (utcnow env)) collection in
      (with_collections (<[collection_id := collection']> (collections db)) db,
       Some collection')
  | None => (db, None)
  end.

(** The file of the document stays where it is: the session is all this
    function is given. *)
Definition delete_document (db : Session) (document_id : Z) : Session * bool :=
  match get_document_by_id db document_id with
  | Some document =>
      (with_documents (delete document_id (documents db)) db, true)
  | None => (db, false)
  end.

(** [document.document_type or fallback] *)
Definition type_or (fallback : string) (document : UniversalDocument.t)
    : string :=
  match UniversalDocument.document_type document with
  | EmptyString => fallback
  | t => t
  end.

(** [func.sum(file_size)]: the rows without a size do not count. *)
Definition sum_sizes (docs : list UniversalDocument.t) : option float :=
  match omap UniversalDocument.file_size docs with
  | [] => None
  | sizes => Some (foldr Qplus 0%Q sizes)
  end.

(** [round(x, 2)] on the exact value, half to even. *)
Definition round2 (x : float) : float :=
  let num := (Qnum x * 100)%Z in
  let den := Zpos (Qden x) in
  let floor := (num / den)%Z in
  let twice_rem := (2 * (num mod den))%Z in
  let cents :=
    if (twice_rem <? den)%Z then floor
    else if (den <? twice_rem)%Z then (floor + 1)%Z
    else if Z.even floor then floor else (floor + 1)%Z in
  (cents # 100)%Q.

Record Stats := {
  total_documents : nat;
  processed_documents : nat;
  unprocessed_documents : Z;
  documents_by_type : list (string * nat);
  total_storage_bytes : float;
  total_storage_mb : float
}.

Definition get_document_stats (db : Session) : Stats :=
  let all_docs := rows (documents db) in
  let total_docs := length all_docs in
  let processed_docs :=
    length (List.filter
              (fun d => bool_decide (UniversalDocument.processed d = Some true))
              all_docs) in
  let types_count :=
    fold_left (fun types_count doc => bump (type_or "UNKNOWN" doc) types_count)
              all_docs [] in
  let total_size := default 0%Q (sum_sizes all_docs) in
  {| total_documents := total_docs;
     processed_documents := processed_docs;
     unprocessed_documents := (Z.of_nat total_docs - Z.of_nat processed_docs)%Z;
     documents_by_type := types_count;
     total_storage_bytes := total_size;
     total_storage_mb := round2 (total_size / (1024 * 1024))%Q |}.

Definition create_collection (env : Env) (db : Session)
    (name description : string) (document_ids : option (list Z))
    : Session * DocumentCollection.t :=
  let new_id := fresh (dom (collections db)) in
  let collection :=
    {| DocumentCollection.id := new_id;
       DocumentCollection.name := name;
       DocumentCollection.description := Some description;
       DocumentCollection.document_ids :=
         Some (match document_ids with Some (i :: ids) => i :: ids | _ => [] end);
       DocumentCollection.created_at := Some (utcnow env);
       DocumentCollection.updated_at := Some (utcnow env);
       DocumentCollection.created_by := None;
       DocumentCollection.is_active := Some true |} in
  (with_collections (<[new_id := collection]> (collections db)) db, collection).

Definition get_all_collections (db : Session) : list DocumentCollection.t :=
  List.filter
    (fun c => bool_decide (DocumentCollection.is_active c = Some true))
    (rows (collections db)).

(** The ids of a collection that belong to no document are passed over. *)
Definition get_documents_in_collection (db : Session) (collection_id : Z)
    : list UniversalDocument.t :=
  match collections db !! collection_id with
  | None => []
  | Some collection =>
      match DocumentCollection.document_ids collection with
      | None | Some [] => []
      | Some doc_ids =>
          List.filter
            (fun d => bool_decide (UniversalDocument.id d ∈ doc_ids))
            (rows (documents db))
      end
  end.

(** [skip] and [limit] are natural numbers.  A filter that is [None] or
    the empty string is not applied; [NULL] never satisfies one. *)
Definition get_all_documents `{Engine} (db : Session) (skip limit : nat)
    (document_type category search_query : option string)
    : list UniversalDocument.t :=
  let query := rows (documents db) in
  let query :=
    if truthy document_type then
      List.filter
        (fun d => bool_decide
                    (Some (UniversalDocument.document_type d) = document_type))
        query
    else query in
  let query :=
    if truthy category then
      List.filter
        (fun d => bool_decide (UniversalDocument.category d = category)) query
    else query in
  let query :=
    if truthy search_query then
      List.filter
        (fun d => column_contains (UniversalDocument.search_index d)
                    (default EmptyString search_query))
        query
    else query in
  take limit (drop skip (order_by_uploaded_at_desc query)).

Definition get_documents_by_type `{Engine} (db : Session)
    (document_type : string) : list UniversalDocument.t :=
  order_by_uploaded_at_desc
    (List.filter
       (fun d => String.eqb (UniversalDocument.document_type d) document_type)
       (rows (documents db))).

End UniversalDocumentService.

(** ** The upload route *)

Module UniversalDocuments.
Import Text Py External UniversalDocumentProcessor.

(** What an upload can change: the files on disk and the database. *)
Record World := {
  fs : gmap string (list Byte.byte);
  db : Session
}.

(** [s.split(",")] *)
Fixpoint split_comma (s : string) : list string :=
  match s with
  | EmptyString => [EmptyString]
  | String c s' =>
      if (code c =? 44)%N then EmptyString :: split_comma s'
      else
        match split_comma s' with
        | p :: ps => String c p :: ps
        | [] => [String c EmptyString]
        end
  end.

(** The body of the [try] block; [filename] is known to be set.  The
    upload directory is taken to exist: creating it is not modelled. *)
Definition upload_body (env : Env) (w : World) (filename : string)
    (contents : list Byte.byte) (category tags : option string)
    (generate_ai_summary : bool) : World * (exn + UniversalDocument.t) :=
  let file_path := "uploads/" +:+ filename in
  if length contents <? 1024 then
    (w, inl (HTTPException 400
      "Invalid PDF file. File is too small (minimum 1KB required). Please upload a valid PDF document."))
  else if negb (bytes_startswith pdf_header contents) then
    (w, inl (HTTPException 400
      "Invalid PDF file. File does not have valid PDF header. Please upload a valid PDF document."))
  else
    let fs' := <[file_path := contents]> (fs w) in
    let file_size : float := inject_Z (Z.of_nat (length contents)) in
    let tags_list :=
      if truthy tags then strip <$> split_comma (default EmptyString tags)
      else [] in
    let '(db', result) :=
      UniversalDocumentService.process_and_save_document env fs' (db w)
        file_path filename file_size category (Some tags_list) None
        generate_ai_summary in
    ({| fs := fs'; db := db' |}, result).

(** The response of a successful upload is a projection of the stored
    document, which stands for it here. *)
Definition upload_any_document (env : Env) (w : World)
    (filename : option string) (contents : list Byte.byte)
    (category tags : option string) (generate_ai_summary : bool)
    : World * (exn + UniversalDocument.t) :=
  match filename with
  | None => (w, inl (HTTPException 400 "Only PDF files are allowed"))
  | Some filename =>
      if negb (endswith ".pdf" (lower filename)) then
        (w, inl (HTTPException 400 "Only PDF files are allowed"))
      else
        match upload_body env w filename contents category tags
                generate_ai_summary with
        | (w', inl e) =>
            (w', inl (HTTPException 500
                        ("Error processing document: " +:+ str e)))
        | (w', inr document) => (w', inr document)
        end
  end.

(** The route [DELETE /{document_id}]. *)
Definition delete_document (w : World) (document_id : Z) : World * (exn + unit) :=
  match UniversalDocumentService.delete_document (db w) document_id with
  | (db', true) => ({| fs := fs w; db := db' |}, inr tt)
  | (db', false) =>
      ({| fs := fs w; db := db' |}, inl (HTTPException 404 "Document not found"))
  end.

End UniversalDocuments.

(** ** The queries the chat handlers send to the database

    [NULL] never satisfies a comparison.  The engine does not fix the
    order of the groups of a [GROUP BY], nor the order of rows with equal
    sort keys; here groups come in the order of their first row and the
    sort by count is stable. *)

Module Sql.
Import Text Py UniversalDocumentProcessor.

(** [func.lower(column).like(f"%{needle.lower()}%")] *)
Definition lower_like (column : option string) (needle : string) : bool :=
  match column with
  | Some v => like ("%" +:+ lower needle +:+ "%") (lower v)
  | None => false
  end.

(** [column == value] *)
Definition equals (column : option string) (value : string) : bool :=
  match column with
  | Some v => String.eqb v value
  | None => false
  end.

(** [query(column, count(id)).filter(column.isnot(None)).group_by(column)] *)
Definition group_count (column : list (option string)) : list (string * nat) :=
  fold_left (fun groups key => bump key groups) (omap (fun v => v) column) [].

(** [.order_by(count(id).desc())] *)
Definition order_by_count_desc (groups : list (string * nat))
    : list (string * nat) :=
  sorted_desc groups.

(** [func.sum(column)]: [NULL] when no row has a value. *)
Definition sum (column : list (option Z)) : option Z :=
  match omap (fun v => v) column with
  | [] => None
  | values => Some (foldr Z.add 0%Z values)
  end.

End Sql.

(** ** [app/routes/chat.py]: the query handlers and their router

    A percentage is computed in floating point, as the code does; its
    one-decimal rendering is the decimal nearest to the exact value of
    the float, a tie going to the even digit. *)

Module Chat.
Import Text Py.

Record reply := {
  type : string;
  answer : string;
  data : json
}.

Definition JNat (n : nat) : json := JInt (Z.of_nat n).

(** [x or 'Tidak tersedia'] for a text column and for an integer one. *)
Definition or_na (o : option string) : string :=
  if truthy o then default EmptyString o else "Tidak tersedia".

Definition or_na_int (o : option Z) : string :=
  match o with
  | Some n => if (n =? 0)%Z then "Tidak tersedia" else str_int n
  | None => "Tidak tersedia"
  end.

(** [f"{x:.1f}"] for a non-negative float [x]. *)
Definition format_1f (x : float) : string :=
  let num := (Qnum x * 10)%Z in
  let den := Zpos (Qden x) in
  let floor := (num / den)%Z in
  let twice_rem := (2 * (num mod den))%Z in
  let tenths :=
    if (twice_rem <? den)%Z then floor
    else if (den <? twice_rem)%Z then (floor + 1)%Z
    else if Z.even floor then floor else (floor + 1)%Z in
  str_int (tenths / 10) +:+ "." +:+ str_int (tenths mod 10).

(** The digits of a natural number in groups of three, from the right. *)
Fixpoint group_digits (fuel : nat) (n : Z) : string :=
  match fuel with
  | O => str_int n
  | S fuel' =>
      if (n <? 1000)%Z then str_int n
      else group_digits fuel' (n / 1000) +:+ ","
           +:+ zfill 3 (Z.to_nat (n mod 1000))
  end.

(** [f"{n:,}"] *)
Definition format_commas (n : Z) : string :=
  let digits := group_digits (Z.to_nat (Z.log2 (Z.abs n))) (Z.abs n) in
  if (n <? 0)%Z then "-" +:+ digits else digits.

Definition count_rows (f : Member.t -> bool) (db : Session) : nat :=
  length (List.filter f (members db)).

(** [query(Member).filter(lower(name).like(...)).first()] *)
Definition first_by_name (name : string) (db : Session) : option Member.t :=
  head (List.filter (fun m => Sql.lower_like (Member.name m) name) (members db)).

Definition breakdown_lines (result : list (string * nat)) : string :=
  join nl ((fun r => "- " +:+ r.1 +:+ ": " +:+ str_nat r.2 +:+ " orang")
           <$> result).

Definition counts_dict (result : list (string * nat)) : json :=
  JDict ((fun r => (r.1, JNat r.2)) <$> result).

(** Handler 1 *)
Definition handle_jabatan_query (query_lower : string) (db : Session)
    : option reply :=
  if negb (contains "berapa" query_lower
           && (contains "jabatan" query_lower || contains "ketua" query_lower
               || contains "sekum" query_lower || contains "bendum" query_lower))
  then None
  else
    match search_quoted query_lower with
    | Some jabatan_name =>
        let count :=
          count_rows (fun m => Sql.lower_like (Member.jabatan m) jabatan_name) db in
        Some {| type := "specific_query";
                answer := "Jumlah pengurus dengan jabatan '" +:+ jabatan_name
                          +:+ "': **" +:+ str_nat count +:+ " orang**";
                data := JDict [("jabatan", JStr jabatan_name);
                               ("count", JNat count)] |}
    | None =>
        if contains "per jabatan" query_lower
           || contains "jumlah pengurus per jabatan" query_lower
        then
          match Sql.order_by_count_desc
                  (Sql.group_count (Member.jabatan <$> members db)) with
          | [] => None
          | result =>
              Some {| type := "specific_query";
                      answer := "**Jumlah Pengurus per Jabatan:**" +:+ nl
                                +:+ breakdown_lines result;
                      data := JDict [("jabatan_counts", counts_dict result)] |}
          end
        else None
    end.

(** The second half of handler 2: a count for a quoted category. *)
Definition bidang_count (query_lower : string) (db : Session) : option reply :=
  if contains "berapa" query_lower then
    match search_quoted query_lower with
    | Some bidang_name =>
        let count :=
          count_rows (fun m =>
            Sql.lower_like (Member.kategori_bidang_usaha m) bidang_name) db in
        Some {| type := "specific_query";
                answer := "Jumlah pengurus di bidang '" +:+ bidang_name
                          +:+ "': **" +:+ str_nat count +:+ " orang**";
                data := JDict [("bidang_usaha", JStr bidang_name);
                               ("count", JNat count)] |}
    | None => None
    end
  else None.

(** Handler 2 *)
Definition handle_bidang_usaha_query (query_lower : string) (db : Session)
    : option reply :=
  if negb (contains "bidang usaha" query_lower)
     && negb (contains "kategori bisnis" query_lower)
  then None
  else
    let most_popular :=
      if contains "paling banyak" query_lower || contains "terbanyak" query_lower
      then head (Sql.order_by_count_desc
                   (Sql.group_count (Member.kategori_bidang_usaha <$> members db)))
      else None in
    match most_popular with
    | Some result =>
        Some {| type := "specific_query";
                answer := "Bidang usaha terbanyak di kepengurusan: **"
                          +:+ result.1 +:+ "** (" +:+ str_nat result.2
                          +:+ " pengurus)";
                data := JDict [("bidang_usaha", JStr result.1);
                               ("count", JNat result.2)] |}
    | None => bidang_count query_lower db
    end.

(** Handler 3; it searches the quoted literal in the query as typed. *)
Definition handle_kta_query (query_lower query : string) (db : Session)
    : option reply :=
  if negb (contains "kta" query_lower) then None
  else
    match search_quoted query with
    | Some status_name =>
        let count :=
          count_rows (fun m => Sql.lower_like (Member.status_kta m) status_name) db in
        Some {| type := "specific_query";
                answer := "Jumlah pengurus dengan status KTA '" +:+ status_name
                          +:+ "': **" +:+ str_nat count +:+ " orang**";
                data := JDict [("status_kta", JStr status_name);
                               ("count", JNat count)] |}
    | None =>
        if contains "tampilkan status kta" query_lower then
          match Sql.group_count (Member.status_kta <$> members db) with
          | [] => None
          | result =>
              Some {| type := "specific_query";
                      answer := "**Status KTA Semua Pengurus:**" +:+ nl
                                +:+ breakdown_lines result;
                      data := JDict [("status_counts", counts_dict result)] |}
          end
        else None
    end.

(** [count / total * 100]: a division of integers, then a product of
    floats. *)
Definition percentage (count total : nat) : float :=
  float_mul (int_truediv (Z.of_nat count) (Z.of_nat total)) 100%Q.

(** Handler 4 *)
Definition handle_gender_query (query_lower : string) (db : Session)
    : option reply :=
  if contains "rasio" query_lower
     && (contains "pria" query_lower || contains "wanita" query_lower
         || contains "gender" query_lower)
  then
    let male_count :=
      count_rows (fun m => Sql.equals (Member.jenis_kelamin m) "Male") db in
    let female_count :=
      count_rows (fun m => Sql.equals (Member.jenis_kelamin m) "Female") db in
    let total := male_count + female_count in
    if 0 <? total then
      let male_pct := percentage male_count total in
      let female_pct := percentage female_count total in
      Some {| type := "specific_query";
              answer := "**Rasio Gender Pengurus:**" +:+ nl
                        +:+ "- Pria: " +:+ str_nat male_count +:+ " orang ("
                        +:+ format_1f male_pct +:+ "%)" +:+ nl
                        +:+ "- Wanita: " +:+ str_nat female_count +:+ " orang ("
                        +:+ format_1f female_pct +:+ "%)";
              data := JDict [("male", JNat male_count);
                             ("female", JNat female_count);
                             ("male_pct", JFloat male_pct);
                             ("female_pct", JFloat female_pct)] |}
    else None
  else None.

Definition filler_words : list string :=
  [ "cari"; "info"; "lengkap"; "siapa"; "jabatannya"; "apa"; "sebagai";
    "perusahaannya"; "umurnya"; "kontaknya" ].

(** The name a query of handler 5 asks about: the quoted literal, or what
    is left once the filler words are blanked out, when that is longer
    than two characters. *)
Definition extract_name (query_lower : string) : option string :=
  match search_quoted query_lower with
  | Some name => Some name
  | None =>
      let potential_name :=
        strip (fold_left (fun q word => replace word " " q)
                         filler_words query_lower) in
      if 2 <? String.length potential_name then Some potential_name else None
  end.

Definition profile_block (member : Member.t) : string :=
  "**Informasi Lengkap Pengurus:**" +:+ nl
  +:+ "- Nama: " +:+ default "None" (Member.name member) +:+ nl
  +:+ "- Jabatan: " +:+ or_na (Member.jabatan member) +:+ nl
  +:+ "- Status KTA: " +:+ or_na (Member.status_kta member) +:+ nl
  +:+ "- Usia: " +:+ or_na_int (Member.usia member) +:+ nl
  +:+ "- Jenis Kelamin: " +:+ or_na (Member.jenis_kelamin member) +:+ nl
  +:+ "- WhatsApp: " +:+ or_na (Member.phone member) +:+ nl
  +:+ "- Email: " +:+ or_na (Member.email member) +:+ nl
  +:+ "- Instagram: " +:+ or_na (Member.instagram member) +:+ nl
  +:+ "- Perusahaan: " +:+ or_na (Member.nama_perusahaan member) +:+ nl
  +:+ "- Jabatan di Perusahaan: "
  +:+ or_na (Member.jabatan_dlm_akta_perusahaan member) +:+ nl
  +:+ "- Bidang Usaha: " +:+ or_na (Member.kategori_bidang_usaha member) +:+ nl
  +:+ "- Jumlah Karyawan: " +:+ or_na_int (Member.jmlh_karyawan member) +:+ nl.

Definition profile_data (member : Member.t) : json :=
  JDict [ ("name", json_opt JStr (Member.name member));
          ("jabatan", json_opt JStr (Member.jabatan member));
          ("status_kta", json_opt JStr (Member.status_kta member));
          ("usia", json_opt JInt (Member.usia member));
          ("jenis_kelamin", json_opt JStr (Member.jenis_kelamin member));
          ("whatsapp", json_opt JStr (Member.phone member));
          ("email", json_opt JStr (Member.email member));
          ("instagram", json_opt JStr (Member.instagram member));
          ("nama_perusahaan", json_opt JStr (Member.nama_perusahaan member));
          ("kategori_bidang_usaha",
            json_opt JStr (Member.kategori_bidang_usaha member));
          ("jmlh_karyawan", json_opt JInt (Member.jmlh_karyawan member)) ].

(** Handler 5 *)
Definition handle_detail_pengurus_query (query_lower : string) (db : Session)
    : option reply :=
  if negb (contains "cari" query_lower || contains "info" query_lower
           || contains "siapa" query_lower || contains "jabatannya" query_lower)
  then None
  else
    match extract_name query_lower with
    | Some name =>
        match first_by_name name db with
        | Some member =>
            Some {| type := "specific_query";
                    answer := profile_block member;
                    data := profile_data member |}
        | None => None
        end
    | None => None
    end.

(** Handler 6 *)
Definition handle_kontak_query (query_lower : string) (db : Session)
    : option reply :=
  if negb (contains "nomor" query_lower || contains "wa" query_lower
           || contains "whatsapp" query_lower || contains "email" query_lower
           || contains "kontak" query_lower)
  then None
  else
    match search_quoted query_lower with
    | Some name =>
        match first_by_name name db with
        | Some member =>
            Some {| type := "specific_query";
                    answer := "**Kontak " +:+ default "None" (Member.name member)
                              +:+ ":**" +:+ nl
                              +:+ "- WhatsApp: " +:+ or_na (Member.phone member)
                              +:+ nl
                              +:+ "- Email: " +:+ or_na (Member.email member);
                    data := JDict [("name", json_opt JStr (Member.name member));
                                   ("whatsapp", json_opt JStr (Member.phone member));
                                   ("email", json_opt JStr (Member.email member))] |}
        | None => None
        end
    | None => None
    end.

(** Handler 7 *)
Definition handle_perusahaan_query (query_lower : string) (db : Session)
    : option reply :=
  if negb (contains "perusahaan" query_lower && contains "nama" query_lower)
  then None
  else
    match search_quoted query_lower with
    | Some name =>
        match first_by_name name db with
        | Some member =>
            Some {| type := "specific_query";
                    answer := "**Perusahaan " +:+ default "None" (Member.name member)
                              +:+ ":**" +:+ nl
                              +:+ "- Nama Perusahaan: "
                              +:+ or_na (Member.nama_perusahaan member) +:+ nl
                              +:+ "- Jabatan: "
                              +:+ or_na (Member.jabatan_dlm_akta_perusahaan member)
                              +:+ nl
                              +:+ "- Bidang Usaha: "
                              +:+ or_na (Member.kategori_bidang_usaha member);
                    data := JDict
                      [("name", json_opt JStr (Member.name member));
                       ("nama_perusahaan",
                         json_opt JStr (Member.nama_perusahaan member));
                       ("jabatan_perusahaan",
                         json_opt JStr (Member.jabatan_dlm_akta_perusahaan member));
                       ("bidang_usaha",
                         json_opt JStr (Member.kategori_bidang_usaha member))] |}
        | None => None
        end
    | None => None
    end.

(** Handler 8 *)
Definition handle_total_karyawan_query (query_lower : string) (db : Session)
    : option reply :=
  if contains "total" query_lower && contains "karyawan" query_lower then
    let total_karyawan :=
      default 0%Z (Sql.sum (Member.jmlh_karyawan <$> members db)) in
    let pengurus_count :=
      count_rows (fun m => bool_decide (is_Some (Member.jmlh_karyawan m))) db in
    Some {| type := "specific_query";
            answer := "**Total Jumlah Karyawan:**" +:+ nl
                      +:+ "- Total karyawan dari semua perusahaan pengurus: **"
                      +:+ format_commas total_karyawan +:+ " karyawan**" +:+ nl
                      +:+ "- Dari " +:+ str_nat pengurus_count
                      +:+ " pengurus yang memiliki data karyawan";
            data := JDict [("total_karyawan", JInt total_karyawan);
                           ("pengurus_with_data", JNat pengurus_count)] |}
  else None.

(** [for handler in handlers: result = handler(query_lower, db);
    if result: return result].  Every reply is a non-empty dictionary, so
    a reply is always true. *)
Fixpoint first_result (handlers : list (string -> Session -> option reply))
    (query_lower : string) (db : Session) : option reply :=
  match handlers with
  | [] => None
  | handler :: rest =>
      match handler query_lower db with
      | Some result => Some result
      | None => first_result rest query_lower db
      end
  end.

Definition handlers (query : string)
    : list (string -> Session -> option reply) :=
  [ handle_jabatan_query;
    (fun q db => handle_bidang_usaha_query q db);
    (fun q db => handle_kta_query q query db);
    handle_gender_query;
    handle_detail_pengurus_query;
    handle_kontak_query;
    handle_perusahaan_query;
    handle_total_karyawan_query ].

Definition detect_specific_query (query : string) (db : Session)
    : option reply :=
  let query_lower := lower query in
  first_result (handlers query) query_lower db.

(** *** The context of a general question *)

Definition dq : string := String double_quote EmptyString.
Definition chr (n : N) : string := String (ascii_of_N n) EmptyString.

(** [x or fallback] *)
Definition or_else (fallback : string) (o : option string) : string :=
  if truthy o then default EmptyString o else fallback.

(** [counts.get(key, 0)] *)
Fixpoint get_count (key : string) (counts : list (string * nat)) : nat :=
  match counts with
  | [] => 0
  | (k, v) :: rest => if String.eqb k key then v else get_count key rest
  end.

(** [str(counts)] for a dictionary from texts to counts. *)
Definition repr_counts (counts : list (string * nat)) : string :=
  "{"
  +:+ join ", " ((fun kv => repr_str kv.1 +:+ ": " +:+ str_nat kv.2) <$> counts)
  +:+ "}".

(** The dictionary that counts the values of [key] over [l], a key
    entering it at its first occurrence. *)
Definition count_by {A} (key : A -> string) (l : list A)
    (start : list (string * nat)) : list (string * nat) :=
  fold_left (fun counts x => UniversalDocumentProcessor.bump (key x) counts)
            l start.

(** One line of the roster; a member without a name has none. *)
Definition member_info (m : Member.t) : option string :=
  if truthy (Member.name m) then
    Some ("- " +:+ default EmptyString (Member.name m)
          +:+ (if truthy (Member.jabatan m)
               then " (Jabatan: " +:+ default EmptyString (Member.jabatan m)
                    +:+ ")"
               else EmptyString)
          +:+ (if truthy (Member.nama_perusahaan m)
               then ", Perusahaan: "
                    +:+ default EmptyString (Member.nama_perusahaan m)
               else EmptyString)
          +:+ (if truthy (Member.kategori_bidang_usaha m)
               then ", Bidang: "
                    +:+ default EmptyString (Member.kategori_bidang_usaha m)
               else EmptyString))
  else None.

Definition analytics_context (members : list Member.t)
    (documents : list UniversalDocument.t) : string :=
  let total := length members in
  let jabatan :=
    count_by (fun m => or_else "Tidak Diketahui" (Member.jabatan m)) members [] in
  let bidang_usaha :=
    count_by (fun m => or_else "Tidak Diketahui" (Member.kategori_bidang_usaha m))
             members [] in
  let status_kta :=
    count_by (fun m => or_else "Tidak Diketahui" (Member.status_kta m))
             members [] in
  let gender :=
    count_by (fun m => default EmptyString (Member.jenis_kelamin m))
             (List.filter (fun m => truthy (Member.jenis_kelamin m)) members)
             [("Male", 0); ("Female", 0)] in
  let total_karyawan :=
    fold_left (fun total_karyawan m =>
                 match Member.jmlh_karyawan m with
                 | Some n =>
                     if (n =? 0)%Z then total_karyawan
                     else (total_karyawan + n)%Z
                 | None => total_karyawan
                 end)
              members 0%Z in
  let members_list := omap member_info members in
  let docs_total := length documents in
  let types :=
    count_by (UniversalDocumentService.type_or "Unknown") documents [] in
  let categories :=
    count_by (fun doc => or_else "Tidak Dikategorikan"
                           (UniversalDocument.category doc))
             documents [] in
  let more :=
    if 50 <? length members_list then
      "... (dan " +:+ str_int (Z.of_nat (length members_list) - 50)
      +:+ " pengurus lainnya)"
    else EmptyString in
  "=== DATA PENGURUS HIPMI ===" +:+ nl +:+ nl +:+ "STATISTIK PENGURUS:"
  +:+ nl +:+ "- Total Pengurus: " +:+ str_nat total +:+ nl
  +:+ "- Total Karyawan (semua perusahaan): "
  +:+ format_commas total_karyawan +:+ nl +:+ "- Gender: "
  +:+ str_nat (get_count "Male" gender) +:+ " Pria, "
  +:+ str_nat (get_count "Female" gender) +:+ " Wanita" +:+ nl
  +:+ "- Distribusi Jabatan: " +:+ repr_counts jabatan +:+ nl
  +:+ "- Distribusi Bidang Usaha: " +:+ repr_counts bidang_usaha +:+ nl
  +:+ "- Status KTA: " +:+ repr_counts status_kta +:+ nl +:+ nl
  +:+ "DAFTAR PENGURUS:" +:+ nl +:+ join nl (take 50 members_list) +:+ "  "
  +:+ nl +:+ more +:+ nl +:+ nl +:+ "DOKUMEN HIPMI:" +:+ nl
  +:+ "- Total Dokumen: " +:+ str_nat docs_total +:+ nl
  +:+ "- Tipe Dokumen: " +:+ repr_counts types +:+ nl +:+ "- Kategori: "
  +:+ repr_counts categories +:+ nl +:+ nl
  +:+ "===========================" +:+ nl.

(** *** [re.search] of the rule number in a file name

    The pattern: the letters [po], at most one character among the
    underscore, the hyphen and white space, then a group of one or more
    digits.  The separator is no digit, so when one follows [po] the
    digits must come after it.  The result is group 1 of the leftmost
    match, the maximal run of digits. *)

Definition is_po_sep (c : ascii) : bool :=
  (code c =? 95)%N || (code c =? 45)%N || is_space c.

Fixpoint digit_run (s : string) : string :=
  match s with
  | String c s' => if is_digit c then String c (digit_run s') else EmptyString
  | EmptyString => EmptyString
  end.

Definition po_number_at (s : string) : option string :=
  if startswith "po" s then
    let rest := slice_from 2 s in
    let after :=
      match rest with
      | String c r => if is_po_sep c then r else rest
      | EmptyString => rest
      end in
    match digit_run after with
    | EmptyString => None
    | digits => Some digits
    end
  else None.

Fixpoint search_po_number (s : string) : option string :=
  match po_number_at s with
  | Some digits => Some digits
  | None =>
      match s with
      | String _ s' => search_po_number s'
      | EmptyString => None
      end
  end.

(** The heading a document gets in the context. *)
Definition doc_category (doc : UniversalDocument.t) : string :=
  let filename_lower := lower (UniversalDocument.filename doc) in
  if contains "sejarah" filename_lower then "Sejarah HIPMI"
  else if contains "visimisi" filename_lower || contains "visi" filename_lower
  then "Visi & Misi"
  else if contains "motto" filename_lower then "Motto HIPMI"
  else if String.eqb filename_lower "ad.pdf"
          || contains "anggaran dasar" filename_lower
  then "Anggaran Dasar (AD)"
  else if String.eqb filename_lower "art.pdf"
          || contains "anggaran rumah tangga" filename_lower
  then "Anggaran Rumah Tangga (ART)"
  else if contains "po" filename_lower then
    match search_po_number filename_lower with
    | Some po_num => "Peraturan Organisasi (PO" +:+ po_num +:+ ")"
    | None => "Peraturan Organisasi (PO)"
    end
  else UniversalDocumentService.type_or "Dokumen" doc.

(** The part of a document in the context; a document without text has
    none. *)
Definition context_part (doc : UniversalDocument.t) : option string :=
  if truthy (UniversalDocument.full_text doc) then
    Some ("[" +:+ doc_category doc +:+ ": " +:+ UniversalDocument.filename doc
          +:+ "]" +:+ nl
          +:+ slice_to 3000%N (default EmptyString (UniversalDocument.full_text doc))
          +:+ nl)
  else None.

(** Returns the context, the number of members and the number of
    documents. *)
Definition build_ai_context `{Engine} (db : Session) : string * nat * nat :=
  let members := members db in
  let documents := rows (documents db) in
  let context_parts :=
    analytics_context members documents
    :: omap context_part
         (UniversalDocumentService.get_all_documents db 0 10 None None None) in
  let context := join (nl +:+ nl +:+ "---" +:+ nl +:+ nl) context_parts in
  let context :=
    if (25000 <? N.of_nat (String.length context))%N
    then slice_to 25000%N context +:+ nl +:+ nl +:+ "[Context truncated...]"
    else context in
  (context, length members, length documents).

(** *** The chat route *)

Record ChatQuerySchema := {
  query : string;
  context : option string
}.

Definition enhanced_query (query : string) : string :=
  "Berdasarkan data HIPMI (pengurus, dokumen organisasi, dan peraturan) yang tersedia, jawab pertanyaan berikut:"
  +:+ nl +:+ nl +:+ "Pertanyaan: " +:+ query +:+ nl +:+ nl +:+ "Instruksi:"
  +:+ nl
  +:+ "- Gunakan DAFTAR PENGURUS untuk pertanyaan tentang nama, jabatan, perusahaan pengurus tertentu"
  +:+ nl +:+ "- Contoh: " +:+ dq +:+ "Ibrahim jabatannya apa?" +:+ dq
  +:+ " " +:+ chr 195 +:+ chr 162 +:+ chr 226 +:+ chr 128 +:+ chr 160
  +:+ chr 226 +:+ chr 128 +:+ chr 153 +:+ " cari di daftar pengurus nama "
  +:+ dq +:+ "Ibrahim" +:+ dq +:+ nl
  +:+ "- Gunakan data statistik untuk pertanyaan tentang angka/jumlah"
  +:+ nl
  +:+ "- Gunakan isi dokumen untuk pertanyaan tentang peraturan, sejarah, visi/misi, dll"
  +:+ nl +:+ "- Jika informasi tidak tersedia, katakan " +:+ dq
  +:+ "Saya tidak memiliki informasi tersebut dalam database" +:+ dq +:+ nl
  +:+ "- Sebutkan sumber data jika memungkinkan (nama pengurus/file/dokumen)"
  +:+ nl +:+ "- Jawab dalam Bahasa Indonesia yang profesional dan jelas"
  +:+ nl
  +:+ "- Untuk pertanyaan tentang PO (Peraturan Organisasi), sebutkan nomor PO-nya"
  +:+ nl
  +:+ "- Untuk nama pengurus, gunakan nama lengkap yang ada di daftar"
  +:+ nl.

(** [POST /api/chat/query].  The response is the dictionary the route
    returns, its keys in the order of the source. *)
Definition chat_query `{Engine} (env : External.Env)
    (request : ChatQuerySchema) (db : Session) : exn + list (string * json) :=
  let body : exn + list (string * json) :=
    match detect_specific_query (query request) db with
    | Some specific_result =>
        inr [ ("status", JStr "success");
              ("query", JStr (query request));
              ("response", JStr (answer specific_result));
              ("source", JStr "Direct Database Query");
              ("query_type", JStr "specific");
              ("data", data specific_result) ]
    | None =>
        let '(context, members_count, docs_count) :=
          if truthy (context request)
          then (default EmptyString (context request), 0, 0)
          else build_ai_context db in
        match GeminiService.init env with
        | inl e => inl e
        | inr gemini =>
            let response :=
              GeminiService.answer_question gemini env
                (enhanced_query (query request)) context in
            inr [ ("status", JStr "success");
                  ("query", JStr (query request));
                  ("response", JStr response);
                  ("source", JStr "HIPMI Knowledge Base + AI Analytics");
                  ("query_type", JStr "general");
                  ("members_count", JNat members_count);
                  ("documents_count", JNat docs_count);
                  ("context_size", JNat (String.length context)) ]
        end
    end in
  match body with
  | inl e => inl (HTTPException 500 ("Chat query failed: " +:+ str e))
  | inr response => inr response
  end.

End Chat.

(** * Vocabulary of the statements *)

(** ** Keyword ranking *)

Module KeywordSpec.
Import Text UniversalDocumentProcessor.

(** The words the frequency count sees, in the order of the text. *)
Definition tokens (text : string) : list string :=
  List.filter keep (findall_words (lower text)).

Definition alphabetic (w : string) : bool :=
  forallb is_alpha (String.list_ascii_of_string w).

Definition occurrences (w : string) (ws : list string) : nat :=
  length (List.filter (String.eqb w) ws).

(** Position of the first occurrence of [w] in [ws]. *)
Fixpoint first_index (w : string) (ws : list string) : nat :=
  match ws with
  | [] => 0
  | x :: ws' => if String.eqb x w then 0 else S (first_index w ws')
  end.

(** [a] is ranked before [b]: it occurs more often, or as often and
    earlier. *)
Definition ranks_before (ws : list string) (a b : string) : Prop :=
  occurrences b ws < occurrences a ws
  \/ (occurrences a ws = occurrences b ws
      /\ first_index a ws < first_index b ws).

(** The order a stable sort by decreasing count produces from the order
    [R0] its input was in. *)
Definition by_count_then (R0 : relation (string * nat)) (a b : string * nat)
    : Prop :=
  b.2 < a.2 \/ (a.2 = b.2 /\ R0 a b).

(** The distinct words of [ws] in the order of their first occurrence. *)
Definition add_key (keys : list string) (w : string) : list string :=
  if bool_decide (w ∈ keys) then keys else keys ++ [w].

Definition seen (ws : list string) : list string := fold_left add_key ws [].

(** The whole ranking, of which the keywords are the first [top_n]. *)
Definition ranking (text : string) : list string :=
  (sorted_desc (count_words (findall_words (lower text)))).*1.

(** *** The counted words, read off the text

    The words of a text are the pieces into which its characters that
    are no word characters (no letter, digit or underscore) cut it, in
    the order of the text; [split_words] keeps the empty pieces.  A word
    is counted when it is alphabetic, has at least four characters and is
    no stop word: a word that holds a digit or an underscore is not
    counted, and neither are its parts. *)

Fixpoint split_words (s : string) : list string :=
  match s with
  | EmptyString => [EmptyString]
  | String c s' =>
      if is_word c then
        match split_words s' with
        | p :: ps => String c p :: ps
        | [] => [String c EmptyString]
        end
      else EmptyString :: split_words s'
  end.

Definition counted (w : string) : bool :=
  alphabetic w && (4 <=? String.length w)
  && negb (bool_decide (w ∈ stopwords)).

Definition counted_words (text : string) : list string :=
  List.filter counted (split_words (lower text)).

(** The runs of letters of a text: the pieces into which its characters
    that are no letters cut it. *)
Fixpoint split_letters (s : string) : list string :=
  match s with
  | EmptyString => [EmptyString]
  | String c s' =>
      if is_alpha c then
        match split_letters s' with
        | p :: ps => String c p :: ps
        | [] => [String c EmptyString]
        end
      else EmptyString :: split_letters s'
  end.

Definition no_digit_or_underscore (s : string) : bool :=
  forallb (fun c => negb (is_digit c || (code c =? 95)%N))
          (String.list_ascii_of_string s).

End KeywordSpec.

(** ** Query triggers *)

Module QuerySpec.
Import Text Chat.

Definition trigger_1 (q : string) : bool :=
  contains "berapa" q
  && (contains "jabatan" q || contains "ketua" q || contains "sekum" q
      || contains "bendum" q).

Definition trigger_2 (q : string) : bool :=
  contains "bidang usaha" q || contains "kategori bisnis" q.

Definition trigger_4 (q : string) : bool :=
  contains "rasio" q
  && (contains "pria" q || contains "wanita" q || contains "gender" q).

(** When handler 1, once triggered, has something to say: the query
    quotes a role, or asks for the breakdown and some member has a role. *)
Definition handler_1_replies (q : string) (db : Session) : Prop :=
  is_Some (search_quoted q)
  \/ (contains "per jabatan" q || contains "jumlah pengurus per jabatan" q = true
      /\ exists m, m ∈ members db /\ is_Some (Member.jabatan m)).

End QuerySpec.

(** ** Frame of the tag and category updates *)

Module FrameSpec.
Import UniversalDocument.

(** Every column but [tags], [category] and [updated_at] agrees. *)
Definition same_content (d d' : UniversalDocument.t) : Prop :=
  id d' = id d /\ filename d' = filename d /\ file_path d' = file_path d
  /\ file_size d' = file_size d /\ document_type d' = document_type d
  /\ full_text d' = full_text d /\ summary d' = summary d
  /\ extracted_entities d' = extracted_entities d
  /\ keywords d' = keywords d /\ tables_data d' = tables_data d
  /\ page_count d' = page_count d /\ pdf_metadata d' = pdf_metadata d
  /\ ai_summary d' = ai_summary d /\ ai_insights d' = ai_insights d
  /\ embedding_vector d' = embedding_vector d /\ processed d' = processed d
  /\ processed_at d' = processed_at d /\ uploaded_at d' = uploaded_at d
  /\ is_public d' = is_public d /\ uploaded_by d' = uploaded_by d
  /\ search_index d' = search_index d.

(** The other rows, and the other tables, of the session agree. *)
Definition same_elsewhere (document_id : Z) (db db' : Session) : Prop :=
  members db' = members db /\ collections db' = collections db
  /\ forall j, j ≠ document_id -> documents db' !! j = documents db !! j.

End FrameSpec.

(** ** Document types *)

Module TypeSpec.

(** The tags the classifier returns. *)
Definition document_types : list string :=
  [ "HIPMI_PO"; "HIPMI_AD"; "HIPMI_ART"; "HIPMI_SK"; "HIPMI_DOCUMENT";
    "CONTRACT"; "REPORT"; "PRESENTATION"; "REGULATION"; "MANUAL"; "OTHER" ].

End TypeSpec.

(** ** Lower-case text *)

Module CaseSpec.
Import Text.

Definition no_upper (s : string) : bool :=
  forallb (fun c => negb (is_upper c)) (String.list_ascii_of_string s).

End CaseSpec.

(** ** The documents table *)

Module StoreSpec.

(** Every row of the documents table is stored under its own [id]. *)
Definition keyed (db : Session) : Prop :=
  forall k d, documents db !! k = Some d -> UniversalDocument.id d = k.

(** Nothing that was stored is changed or lost. *)
Definition keeps_rows (db db' : Session) : Prop :=
  members db' = members db /\ collections db' = collections db
  /\ forall k d, documents db !! k = Some d -> documents db' !! k = Some d.

End StoreSpec.

(** ** Dictionaries of counts *)

Module CountSpec.

Definition sum_counts (l : list (string * nat)) : nat :=
  foldr (fun kv total => kv.2 + total) 0 l.

End CountSpec.

(** ** Uploads *)

Module UploadSpec.
Import Text UniversalDocumentProcessor.

(** The name passes the extension check of the upload route. *)
Definition accepted_name (filename : option string) : bool :=
  match filename with
  | Some f => endswith ".pdf" (lower f)
  | None => false
  end.

(** An upload the route accepts: a plain file name (no directory part)
    that ends in [.pdf], and at least 1024 bytes that begin with the PDF
    header.  The file of such an upload is written right under the upload
    directory. *)
Definition valid_upload (filename : string) (contents : list Byte.byte)
    : Prop :=
  endswith ".pdf" (lower filename) = true /\
  contains "/" filename = false /\
  1024 <= length contents /\
  bytes_startswith pdf_header contents = true.

End UploadSpec.

(** ** [LIKE] patterns *)

Module LikeSpec.
Import Text.

(** No character of [s] is a wildcard of [LIKE]. *)
Definition wildcard_free (s : string) : bool :=
  forallb (fun c => negb ((code c =? 37)%N || (code c =? 95)%N))
          (String.list_ascii_of_string s).

End LikeSpec.

(** ** Trigger words *)

Module TriggerSpec.

(** Every handler looks for one of these in the lower-cased query before
    it does anything else. *)
Definition trigger_words : list string :=
  [ "berapa"; "bidang usaha"; "kategori bisnis"; "kta"; "rasio";
    "cari"; "info"; "siapa"; "jabatannya";
    "nomor"; "wa"; "whatsapp"; "email"; "kontak";
    "perusahaan"; "total" ].

End TriggerSpec.

(** ** Replies of the handlers *)

Module ReplySpec.
Import Py Chat.

(** The first key of the data of a reply tells which handler answered. *)
Definition reply_key (r : reply) : option string :=
  match data r with
  | JDict ((k, _) :: _) => Some k
  | _ => None
  end.

End ReplySpec.

(** ** Concrete inputs *)

Module Examples.
Import Text Py External UniversalDocumentProcessor.

Definition at_noon : datetime :=
  {| year := 2025; month := 1; day := 15;
     hour := 12; minute := 0; second := 0; microsecond := 0 |}.

Definition one_page_pdf : Pdf :=
  {| metadata := ∅;
     pages := [ {| extract_text := Some "Laporan tahunan";
                   extract_tables := [] |} ] |}.

(** A configured gateway whose every call fails. *)
Definition env_gateway_down : Env :=
  {| GEMINI_API_KEY := Some "key";
     genai_Client := fun _ => None;
     generate_content := fun _ => inl (Exception "timeout");
     pdfplumber_open := fun _ => inr one_page_pdf;
     _extract_entities := fun _ => JDict [];
     utcnow := at_noon |}.

Definition empty_db : Session :=
  {| members := []; documents := ∅; collections := ∅ |}.

Definition stored_pdf : gmap string (list Byte.byte) :=
  {[ "uploads/a.pdf" := pdf_header ]}.

Definition budi : Member.t :=
  {| Member.name := Some "Budi Santoso";
     Member.jabatan := Some "Ketua Bidang Ekonomi";
     Member.status_kta := Some "KTA Fisik";
     Member.usia := Some 34%Z;
     Member.jenis_kelamin := Some "Male";
     Member.phone := Some "0812345678";
     Member.email := Some "budi@example.id";
     Member.instagram := None;
     Member.nama_perusahaan := Some "PT Maju";
     Member.jabatan_dlm_akta_perusahaan := Some "Direktur";
     Member.kategori_bidang_usaha := Some "Kuliner";
     Member.jmlh_karyawan := Some 12%Z |}.

Definition db_budi : Session :=
  {| members := [budi]; documents := ∅; collections := ∅ |}.

(** 23 men and 57 women. *)
Definition of_gender (jenis_kelamin : string) : Member.t :=
  {| Member.name := None;
     Member.jabatan := None;
     Member.status_kta := None;
     Member.usia := None;
     Member.jenis_kelamin := Some jenis_kelamin;
     Member.phone := None;
     Member.email := None;
     Member.instagram := None;
     Member.nama_perusahaan := None;
     Member.jabatan_dlm_akta_perusahaan := None;
     Member.kategori_bidang_usaha := None;
     Member.jmlh_karyawan := None |}.

Definition db_23_57 : Session :=
  {| members := replicate 23 (of_gender "Male")
                ++ replicate 57 (of_gender "Female");
     documents := ∅; collections := ∅ |}.

(** A query that satisfies the triggers of handlers 1 and 2. *)
Definition both_triggers_query : string := "berapa ketua bidang usaha terbanyak".

Definition draft : UniversalDocument.t :=
  {| UniversalDocument.id := 7%Z;
     UniversalDocument.filename := "laporan.pdf";
     UniversalDocument.file_path := "uploads/laporan.pdf";
     UniversalDocument.file_size := Some 2048%Q;
     UniversalDocument.document_type := "HIPMI_PO";
     UniversalDocument.category := None;
     UniversalDocument.tags := Some [];
     UniversalDocument.full_text := Some "Laporan tahunan";
     UniversalDocument.summary := Some "Laporan tahunan";
     UniversalDocument.extracted_entities := Some (JDict []);
     UniversalDocument.keywords := Some ["laporan"; "tahunan"];
     UniversalDocument.tables_data := Some (JList []);
     UniversalDocument.page_count := Some 1%Z;
     UniversalDocument.pdf_metadata := Some (JDict []);
     UniversalDocument.ai_summary := None;
     UniversalDocument.ai_insights := None;
     UniversalDocument.embedding_vector := None;
     UniversalDocument.processed := Some true;
     UniversalDocument.processed_at := Some at_noon;
     UniversalDocument.uploaded_at := Some at_noon;
     UniversalDocument.updated_at := Some at_noon;
     UniversalDocument.is_public := Some true;
     UniversalDocument.uploaded_by := None;
     UniversalDocument.search_index := Some "laporan.pdf Laporan tahunan" |}.

Definition db_draft : Session :=
  {| members := []; documents := {[ 7%Z := draft ]}; collections := ∅ |}.

Definition shelf : DocumentCollection.t :=
  {| DocumentCollection.id := 1%Z;
     DocumentCollection.name := "HIPMI 2024";
     DocumentCollection.description := None;
     DocumentCollection.document_ids := Some [3; 1; 2]%Z;
     DocumentCollection.created_at := Some at_noon;
     DocumentCollection.updated_at := Some at_noon;
     DocumentCollection.created_by := None;
     DocumentCollection.is_active := Some true |}.

Definition db_shelf : Session :=
  {| members := []; documents := ∅; collections := {[ 1%Z := shelf ]} |}.

(** An enumeration of sets in ascending order. *)
Definition ascending : SetOrder :=
  {| list_of_set := fun l => merge_sort Z.le (remove_dups l);
     list_of_set_perm := fun l => merge_sort_Permutation Z.le (remove_dups l) |}.


(** A PDF of exactly one kilobyte. *)
Definition kilobyte_pdf : list Byte.byte :=
  pdf_header ++ replicate 1019 Byte.x20.

(** The PDF reader rejects every file. *)
Definition env_reader_down : Env :=
  {| GEMINI_API_KEY := None;
     genai_Client := fun _ => None;
     generate_content := fun _ => inl (Exception "timeout");
     pdfplumber_open := fun _ => inl (Exception "No /Root object");
     _extract_entities := fun _ => JDict [];
     utcnow := at_noon |}.

(** A scan: two pages, neither with text. *)
Definition scanned_pdf : Pdf :=
  {| metadata := ∅;
     pages := [ {| extract_text := None; extract_tables := [] |};
                {| extract_text := Some EmptyString; extract_tables := [] |} ] |}.

Definition env_scanned : Env :=
  {| GEMINI_API_KEY := Some "key";
     genai_Client := fun _ => None;
     generate_content := fun _ => inl (Exception "timeout");
     pdfplumber_open := fun _ => inr scanned_pdf;
     _extract_entities := fun _ => JDict [];
     utcnow := at_noon |}.

(** The constructor of the gateway client raises. *)
Definition env_no_client : Env :=
  {| GEMINI_API_KEY := Some "key";
     genai_Client := fun _ => Some (Exception "invalid key");
     generate_content := fun _ => inl (Exception "timeout");
     pdfplumber_open := fun _ => inr one_page_pdf;
     _extract_entities := fun _ => JDict [];
     utcnow := at_noon |}.

Definition db_draft_on_shelf : Session :=
  {| members := [];
     documents := {[ 7%Z := draft ]};
     collections :=
       {[ 1%Z := DocumentCollection.set_document_ids (Some [7; 9]%Z)
                   (Some at_noon) shelf ]} |}.

(** An engine that sorts by upload time, latest first, a row without
    upload time counting as the oldest, and matches [LIKE] without regard
    to case. *)
Definition datetime_fields (dt : datetime) : list nat :=
  [year dt; month dt; day dt; hour dt; minute dt; second dt; microsecond dt].

Fixpoint earlier (a b : list nat) : bool :=
  match a, b with
  | x :: a', y :: b' => (x <? y) || ((x =? y) && earlier a' b')
  | _, _ => false
  end.

Definition not_older (a b : UniversalDocument.t) : bool :=
  match UniversalDocument.uploaded_at a, UniversalDocument.uploaded_at b with
  | Some x, Some y => negb (earlier (datetime_fields x) (datetime_fields y))
  | None, Some _ => false
  | _, None => true
  end.

Definition newest_first : Engine :=
  {| order_by_uploaded_at_desc := merge_sort (fun a b => Is_true (not_older a b));
     order_by_uploaded_at_desc_perm :=
       merge_sort_Permutation (fun a b => Is_true (not_older a b));
     column_contains := Sql.lower_like |}.

End Examples.

(** * Properties *)

Import Text Py External UniversalDocumentProcessor.
Import KeywordSpec QuerySpec FrameSpec Examples.

(** ** Strings *)

Lemma eqb_decide (a b : string) : String.eqb a b = bool_decide (a = b).
Proof.
  destruct (String.eqb_spec a b) as [->|Hne].
  - by rewrite bool_decide_eq_true_2.
  - by rewrite bool_decide_eq_false_2.
Qed.

Lemma startswith_app (p q s : string) :
  startswith (p +:+ q) s = true -> startswith p s = true.
Proof.
  revert s. induction p as [|a p IH]; intros s H; [by destruct s|].
  destruct s as [|b s]; simpl in *; [done|].
  destruct (Ascii.eqb a b); [by apply IH|done].
Qed.

(** A text that contains a phrase contains every prefix of the phrase. *)
Lemma contains_app (p q s : string) :
  contains (p +:+ q) s = true -> contains p s = true.
Proof.
  induction s as [|c s IH]; simpl; intros H.
  - apply orb_true_iff in H as [H|H]; [|done].
    apply startswith_app in H. by rewrite H.
  - apply orb_true_iff in H as [H|H].
    + apply startswith_app in H. by rewrite H.
    + rewrite (IH H). apply orb_true_r.
Qed.

(** ** The type classifier *)

(** C3, as amended.  A file name whose lower-cased form contains
    [ad.pdf] is classified HIPMI_PO when the PO rule fires (the name
    contains [po], or the first 1000 characters of the lower-cased content
    contain [peraturan organisasi]) and HIPMI_AD otherwise, whatever else
    the content holds.  The rules of PO, AD, ART and SK each test the name
    and the content together, so the content test of PO comes before the
    name test of AD. *)
Theorem ad_pdf_classification (filename text : string) :
  contains "ad.pdf" (lower filename) = true ->
  detect_document_type filename text =
    if contains "po" (lower filename)
       || contains "peraturan organisasi" (slice_to 1000%N (lower text))
    then "HIPMI_PO" else "HIPMI_AD".
Proof.
  intros H. apply (contains_app "ad" ".pdf") in H.
  unfold detect_document_type. cbv zeta. rewrite H. simpl orb.
  reflexivity.
Qed.

Lemma ad_pdf_classification_witness :
  contains "ad.pdf" (lower "Draft-AD.pdf") = true /\
  detect_document_type "Draft-AD.pdf" "anggaran rumah tangga hipmi" = "HIPMI_AD".
Proof.
  split; [reflexivity|].
  rewrite (ad_pdf_classification "Draft-AD.pdf" "anggaran rumah tangga hipmi");
    reflexivity.
Defined.

(** C3, as stated, fails: the file [ad.pdf] whose content mentions
    [peraturan organisasi] is classified HIPMI_PO. *)
Lemma ad_pdf_not_always_AD :
  contains "ad.pdf" (lower "ad.pdf") = true /\
  detect_document_type "ad.pdf" "peraturan organisasi" = "HIPMI_PO" /\
  detect_document_type "ad.pdf" "peraturan organisasi" <> "HIPMI_AD".
Proof. vm_compute. by repeat split. Qed.

(** ** The keyword extractor *)

Section Tokens.

Lemma emit_alphabetic (run : option (list ascii)) :
  (forall r, run = Some r -> forallb is_alpha r = true) ->
  Forall (fun w => alphabetic w = true) (emit run).
Proof.
  intros Hrun. destruct run as [r|]; unfold emit; [|constructor].
  destruct (4 <=? length r); constructor; [|constructor].
  unfold alphabetic. rewrite String.list_ascii_of_string_of_list_ascii.
  apply forallb_forall. intros c Hc. apply in_rev in Hc.
  by eapply forallb_forall in Hc; [|apply (Hrun r)].
Qed.

Lemma findall_alphabetic (prev_word : bool) (run : option (list ascii))
    (s : string) :
  (forall r, run = Some r -> forallb is_alpha r = true) ->
  Forall (fun w => alphabetic w = true) (findall_words_from prev_word run s).
Proof.
  revert prev_word run. induction s as [|c s IH]; intros prev_word run Hrun.
  - by apply emit_alphabetic.
  - simpl. destruct (is_alpha c) eqn:Hc.
    + apply IH. intros r. destruct run as [r0|].
      * intros [= <-]. simpl. by rewrite Hc, (Hrun r0).
      * destruct prev_word; [done|]. intros [= <-]. simpl. by rewrite Hc.
    + destruct (is_word c).
      * by apply IH.
      * apply Forall_app. split; [by apply emit_alphabetic|by apply IH].
Qed.

(** Every counted word is made of letters, has at least four of them and
    is not a stop word. *)
Lemma tokens_shape (text : string) :
  Forall (fun w => alphabetic w = true /\ 4 <= String.length w
                   /\ w ∉ stopwords) (tokens text).
Proof.
  apply Forall_forall. intros w Hw. apply list_elem_of_In in Hw.
  apply filter_In in Hw as [Hw Hkeep].
  unfold keep in Hkeep. apply andb_true_iff in Hkeep as [Hstop Hlen].
  split_and!.
  - assert (Forall (fun w => alphabetic w = true)
              (findall_words (lower text))) as Ha
      by (by apply findall_alphabetic).
    apply (proj1 (Forall_forall _ _) Ha). by apply list_elem_of_In.
  - apply Nat.ltb_lt in Hlen. lia.
  - intros Hin. apply negb_true_iff in Hstop.
    apply list_elem_of_In in Hin.
    assert (existsb (String.eqb w) stopwords = true) as Hex; [|congruence].
    apply existsb_exists. exists w. by rewrite String.eqb_refl.
Qed.

End Tokens.

Section Tally.

Lemma occurrences_snoc k p w :
  occurrences k (p ++ [w]) = occurrences k p + (if bool_decide (k = w) then 1 else 0).
Proof.
  unfold occurrences. rewrite List.filter_app, length_app. simpl.
  rewrite eqb_decide. by case_bool_decide.
Qed.

Lemma first_index_lt k p : k ∈ p -> first_index k p < length p.
Proof.
  induction p as [|x p IH]; [by intros ?%elem_of_nil|].
  intros Hk. simpl. rewrite eqb_decide. case_bool_decide; [lia|].
  apply elem_of_cons in Hk as [->|Hk]; [done|]. specialize (IH Hk). lia.
Qed.

Lemma first_index_app_l k p q : k ∈ p -> first_index k (p ++ q) = first_index k p.
Proof.
  induction p as [|x p IH]; [by intros ?%elem_of_nil|].
  intros Hk. simpl. rewrite eqb_decide. case_bool_decide; [done|].
  apply elem_of_cons in Hk as [->|Hk]; [done|]. by rewrite IH.
Qed.

Lemma first_index_fresh k p : k ∉ p -> first_index k (p ++ [k]) = length p.
Proof.
  induction p as [|x p IH]; intros Hk; simpl.
  - by rewrite String.eqb_refl.
  - rewrite eqb_decide. apply not_elem_of_cons in Hk as [Hne Hk].
    rewrite bool_decide_eq_false_2 by done. by rewrite IH.
Qed.

Lemma seen_snoc p w : seen (p ++ [w]) = add_key (seen p) w.
Proof. unfold seen. by rewrite fold_left_app. Qed.

Lemma elem_of_seen p k : k ∈ seen p <-> k ∈ p.
Proof.
  induction p as [|w p IH] using rev_ind; [done|].
  rewrite seen_snoc. unfold add_key. rewrite elem_of_app, list_elem_of_singleton.
  case_bool_decide as Hw.
  - rewrite IH. split; [tauto|]. intros [?| ->]; [done|by apply IH].
  - rewrite elem_of_app, list_elem_of_singleton, IH. tauto.
Qed.

Lemma NoDup_seen p : NoDup (seen p).
Proof.
  induction p as [|w p IH] using rev_ind; [constructor|].
  rewrite seen_snoc. unfold add_key. case_bool_decide; [done|].
  apply NoDup_app. split_and!; [done| |apply NoDup_singleton].
  by intros x Hx ->%list_elem_of_singleton.
Qed.

Lemma StronglySorted_weaken {A} (R R' : relation A) (l : list A) :
  (forall a b, a ∈ l -> b ∈ l -> R a b -> R' a b) ->
  StronglySorted R l -> StronglySorted R' l.
Proof.
  intros HR Hl. induction Hl as [|x l Hl IH Hx]; constructor.
  - apply IH. intros a b Ha Hb. apply HR; by right.
  - apply Forall_forall. intros y Hy. apply HR; [by left|by right|].
    by eapply Forall_forall in Hx.
Qed.

Lemma seen_by_first_index p :
  StronglySorted (fun a b => first_index a p < first_index b p) (seen p).
Proof.
  induction p as [|w p IH] using rev_ind; [constructor|].
  rewrite seen_snoc. unfold add_key. case_bool_decide as Hw.
  - eapply StronglySorted_weaken; [|exact IH].
    intros a b Ha Hb. rewrite elem_of_seen in Ha, Hb. simpl.
    by rewrite !first_index_app_l by done.
  - apply StronglySorted_app_2.
    + intros a b Ha Hb. rewrite elem_of_seen in Ha.
      apply list_elem_of_singleton in Hb. subst b.
      rewrite first_index_app_l by done.
      rewrite first_index_fresh by (by rewrite <-elem_of_seen).
      by apply first_index_lt.
    + eapply StronglySorted_weaken; [|exact IH].
      intros a b Ha Hb. rewrite elem_of_seen in Ha, Hb. simpl.
      by rewrite !first_index_app_l by done.
    + repeat constructor.
Qed.

Lemma bump_tallied (g g' : string -> nat) (w : string) (keys : list string) :
  NoDup keys ->
  (forall k, g' k = g k + (if bool_decide (k = w) then 1 else 0)) ->
  (w ∉ keys -> g w = 0) ->
  bump w ((fun k => (k, g k)) <$> keys) = (fun k => (k, g' k)) <$> add_key keys w.
Proof.
  intros Hnd Hg Hw. unfold add_key. induction keys as [|k keys IH]; csimpl.
  - rewrite (Hg w), Hw by apply not_elem_of_nil.
    by rewrite bool_decide_eq_true_2.
  - apply NoDup_cons in Hnd as [Hk Hnd]. rewrite eqb_decide.
    destruct (decide (k = w)) as [->|Hkw];
      [rewrite bool_decide_eq_true_2 by done
      |rewrite bool_decide_eq_false_2 by done].
    + rewrite bool_decide_eq_true_2 by left. csimpl.
      rewrite (Hg w), bool_decide_eq_true_2 by done. f_equal.
      apply list_fmap_ext. intros i x Hx. rewrite (Hg x).
      rewrite bool_decide_eq_false_2; [by rewrite Nat.add_0_r|].
      intros ->. apply Hk. by eapply list_elem_of_lookup_2.
    + rewrite IH; [|done|].
      * case_bool_decide as Hin.
        -- rewrite bool_decide_eq_true_2 by (by right). csimpl.
           by rewrite (Hg k), bool_decide_eq_false_2, Nat.add_0_r.
        -- rewrite bool_decide_eq_false_2 by (by intros [?|?]%elem_of_cons).
           csimpl. by rewrite (Hg k), bool_decide_eq_false_2, Nat.add_0_r.
      * intros Hin. apply Hw. by intros [?|?]%elem_of_cons.
Qed.

Lemma occurrences_absent k p : k ∉ p -> occurrences k p = 0.
Proof.
  induction p as [|x p IH]; [done|]. intros [Hne Hk]%not_elem_of_cons.
  unfold occurrences in *. simpl. rewrite eqb_decide.
  rewrite bool_decide_eq_false_2 by done. by apply IH.
Qed.

Lemma tally_spec (p : list string) :
  fold_left (fun word_freq word => bump word word_freq) p []
  = (fun k => (k, occurrences k p)) <$> seen p.
Proof.
  induction p as [|w p IH] using rev_ind; [done|].
  rewrite fold_left_app, seen_snoc. simpl. rewrite IH.
  apply bump_tallied.
  - apply NoDup_seen.
  - intros k. apply occurrences_snoc.
  - intros Hw. apply occurrences_absent. by rewrite <-elem_of_seen.
Qed.

Lemma count_words_tokens_from (words : list string) (acc : list (string * nat)) :
  fold_left (fun word_freq word =>
               if keep word then bump word word_freq else word_freq) words acc
  = fold_left (fun word_freq word => bump word word_freq)
      (List.filter keep words) acc.
Proof.
  revert acc. induction words as [|w words IH]; intros acc; [done|].
  simpl. destruct (keep w); simpl; apply IH.
Qed.

End Tally.

Section StableSort.
Context (R0 : relation (string * nat)).

Lemma insert_desc_perm x l : insert_desc x l ≡ₚ x :: l.
Proof.
  induction l as [|y l IH]; simpl; [done|].
  destruct (x.2 <? y.2); [|done]. rewrite IH. apply Permutation_swap.
Qed.

Lemma sorted_desc_perm l : sorted_desc l ≡ₚ l.
Proof.
  induction l as [|x l IH]; simpl; [done|].
  by rewrite insert_desc_perm, IH.
Qed.

Lemma insert_desc_sorted x s :
  StronglySorted (by_count_then R0) s ->
  Forall (R0 x) s ->
  StronglySorted (by_count_then R0) (insert_desc x s).
Proof.
  intros Hs Hx. induction Hs as [|y s Hs IH Hy]; simpl.
  - repeat constructor.
  - apply Forall_cons in Hx as [Hxy Hx].
    destruct (x.2 <? y.2) eqn:Hlt.
    + apply Nat.ltb_lt in Hlt. constructor; [by apply IH|].
      rewrite insert_desc_perm. constructor; [by left|done].
    + apply Nat.ltb_ge in Hlt. constructor; [by constructor|].
      constructor.
      * destruct (decide (x.2 = y.2)); [by right|left; lia].
      * apply Forall_forall. intros z Hz.
        pose proof (proj1 (Forall_forall _ _) Hy z Hz) as Hyz.
        pose proof (proj1 (Forall_forall _ _) Hx z Hz) as Hxz.
        destruct Hyz as [?|[? _]]; destruct (decide (x.2 = z.2));
          (by right) || (left; lia).
Qed.

Lemma sorted_desc_sorted l :
  StronglySorted R0 l -> StronglySorted (by_count_then R0) (sorted_desc l).
Proof.
  induction 1 as [|x l Hl IH Hx]; simpl; [constructor|].
  apply insert_desc_sorted; [done|]. by rewrite sorted_desc_perm.
Qed.
End StableSort.

Lemma StronglySorted_fmap_elem_of {A B} (f : A -> B) (R : relation A)
    (R' : relation B) (l : list A) :
  (forall a b, a ∈ l -> b ∈ l -> R a b -> R' (f a) (f b)) ->
  StronglySorted R l -> StronglySorted R' (f <$> l).
Proof.
  intros HR Hl. induction Hl as [|x l Hl IH Hx]; csimpl; constructor.
  - apply IH. intros a b Ha Hb. apply HR; by right.
  - apply Forall_fmap, Forall_forall. intros y Hy. apply HR; [by left|by right|].
    by eapply Forall_forall in Hx.
Qed.

Lemma seen_perm (ws : list string) : seen ws ≡ₚ remove_dups ws.
Proof.
  apply NoDup_Permutation; [apply NoDup_seen|apply NoDup_remove_dups|].
  intros k. by rewrite elem_of_seen, elem_of_remove_dups.
Qed.

Lemma fst_tally (g : string -> nat) (l : list string) :
  ((fun k => (k, g k)) <$> l).*1 = l.
Proof. induction l as [|k l IH]; csimpl; [done|by rewrite IH]. Qed.

Lemma ranking_perm text : ranking text ≡ₚ remove_dups (tokens text).
Proof.
  unfold ranking, count_words. rewrite count_words_tokens_from, tally_spec.
  fold (tokens text). by rewrite sorted_desc_perm, fst_tally, seen_perm.
Qed.

Lemma ranking_sorted text :
  StronglySorted (ranks_before (tokens text)) (ranking text).
Proof.
  unfold ranking, count_words. rewrite count_words_tokens_from, tally_spec.
  fold (tokens text). set (ws := tokens text).
  eapply StronglySorted_fmap_elem_of;
    [|apply (sorted_desc_sorted
               (fun a b => first_index a.1 ws < first_index b.1 ws))].
  - intros a b Ha Hb. rewrite sorted_desc_perm in Ha, Hb.
    apply list_elem_of_fmap in Ha as (ka & -> & _).
    apply list_elem_of_fmap in Hb as (kb & -> & _).
    unfold KeywordSpec.by_count_then, ranks_before. simpl. tauto.
  - eapply StronglySorted_fmap; [|apply seen_by_first_index]. done.
Qed.

(** C7.  For a count [top_n >= 0] the extractor returns at most [top_n]
    words; they are the first [top_n] of a ranking of the distinct counted
    words (letters only, at least four of them, no stop word) in which a
    word comes before another exactly when it occurs more often in the
    text, or as often and first occurs earlier; and the result is
    determined by the text: two texts with the same counted words give the
    same keywords. *)
Theorem keywords_ranked (text : string) (top_n : Z) :
  (0 <= top_n)%Z ->
  (Z.of_nat (length (_extract_keywords text top_n)) <= top_n)%Z /\
  Forall (fun w => alphabetic w = true /\ 4 <= String.length w
                   /\ w ∉ stopwords) (tokens text) /\
  exists rest,
    _extract_keywords text top_n ++ rest ≡ₚ remove_dups (tokens text) /\
    StronglySorted (ranks_before (tokens text))
      (_extract_keywords text top_n ++ rest) /\
    _extract_keywords text top_n
      = take (Z.to_nat top_n) (_extract_keywords text top_n ++ rest) /\
    forall text', tokens text' = tokens text ->
      _extract_keywords text' top_n = _extract_keywords text top_n.
Proof.
  intros Hn.
  assert (Hkw : forall t,
    _extract_keywords t top_n = take (Z.to_nat top_n) (ranking t)).
  { intros t. unfold _extract_keywords, ranking, list_slice_to. cbv zeta.
    rewrite (proj2 (Z.leb_le 0 top_n) Hn). apply fmap_take. }
  split; [rewrite Hkw, length_take; lia|].
  split; [apply tokens_shape|].
  exists (drop (Z.to_nat top_n) (ranking text)).
  rewrite !Hkw, take_drop. split_and!.
  - apply ranking_perm.
  - apply ranking_sorted.
  - done.
  - intros text' Htok. rewrite Hkw. f_equal.
    apply (StronglySorted_unique_strong (ranks_before (tokens text))).
    + intros a b _ _. unfold ranks_before. lia.
    + rewrite <-Htok. apply ranking_sorted.
    + apply ranking_sorted.
    + by rewrite !ranking_perm, Htok.
Qed.

Lemma keywords_ranked_witness :
  (0 <= 2)%Z /\
  (Z.of_nat (length (_extract_keywords "Rapat anggota: anggota memilih ketua" 2))
   <= 2)%Z.
Proof.
  split; [lia|].
  apply (keywords_ranked "Rapat anggota: anggota memilih ketua" 2). lia.
Defined.

Example keywords_tie_break :
  _extract_keywords "Rapat anggota, rapat anggota; ketua memilih ketua." 2
  = ["rapat"; "anggota"].
Proof. reflexivity. Qed.

(** ** The dictionary projections of a document *)

Lemma to_dict_without_full_keys (d : UniversalDocument.t) (k : string) :
  k ∈ ["full_text"; "extracted_entities"; "tables_data"; "pdf_metadata";
       "ai_summary"; "ai_insights"] ->
  UniversalDocument.to_dict d !! k = None.
Proof.
  intros Hk. repeat (apply elem_of_cons in Hk as [->|Hk]); try reflexivity.
  by apply elem_of_nil in Hk.
Qed.

(** C8.  [to_dict] has no key [full_text]; [to_dict_full] has it, bound to
    the full text; and [to_dict] is included in [to_dict_full]: every key
    of the first is a key of the second with the same value. *)
Theorem to_dict_projections (d : UniversalDocument.t) :
  UniversalDocument.to_dict d !! "full_text" = None /\
  UniversalDocument.to_dict_full d !! "full_text"
    = Some (json_opt JStr (UniversalDocument.full_text d)) /\
  UniversalDocument.to_dict d ⊆ UniversalDocument.to_dict_full d.
Proof.
  split; [reflexivity|]. split; [reflexivity|].
  unfold UniversalDocument.to_dict_full. cbv zeta.
  apply map_union_subseteq_r.
  apply map_disjoint_spec. intros k v w Hv Hw.
  apply elem_of_list_to_map_2 in Hv.
  assert (Hk : k ∈ ["full_text"; "extracted_entities"; "tables_data";
                    "pdf_metadata"; "ai_summary"; "ai_insights"]).
  { repeat (apply elem_of_cons in Hv as [Hv|Hv];
            [inversion Hv; subst; set_solver|]).
    by apply elem_of_nil in Hv. }
  rewrite (to_dict_without_full_keys d k Hk) in Hw. discriminate.
Qed.

Example to_dict_shared_key :
  UniversalDocument.to_dict draft !! "summary" = Some (JStr "Laporan tahunan") /\
  UniversalDocument.to_dict_full draft !! "summary"
    = Some (JStr "Laporan tahunan").
Proof. split; reflexivity. Qed.

(** ** Tag and category updates *)

Section Frame.
Import UniversalDocumentService.
Variables (env : Env) (db : Session) (document_id : Z).
Variable d : UniversalDocument.t.
Hypothesis found : get_document_by_id db document_id = Some d.

Lemma with_documents_elsewhere (d' : UniversalDocument.t) :
  same_elsewhere document_id db
    (with_documents (<[document_id := d']> (documents db)) db).
Proof.
  split_and!; [done..|]. intros j Hj. simpl. by rewrite lookup_insert_ne.
Qed.

(** C9.  On an existing document, [update_document_tags] stores the new
    tags and the time of the update, [update_document_category] the new
    category and the time of the update; every other column of the row
    (search index, full text, summary, type, keywords, entities, processed
    and the rest), every other row and every other table is as before. *)
Theorem updates_touch_one_field (tags : list string) (category : string) :
  (exists db' d',
     update_document_tags env db document_id tags = (db', Some d') /\
     documents db' !! document_id = Some d' /\
     UniversalDocument.tags d' = Some tags /\
     UniversalDocument.updated_at d' = Some (utcnow env) /\
     UniversalDocument.category d' = UniversalDocument.category d /\
     same_content d d' /\ same_elsewhere document_id db db') /\
  (exists db' d',
     update_document_category env db document_id category = (db', Some d') /\
     documents db' !! document_id = Some d' /\
     UniversalDocument.category d' = Some category /\
     UniversalDocument.updated_at d' = Some (utcnow env) /\
     UniversalDocument.tags d' = UniversalDocument.tags d /\
     same_content d d' /\ same_elsewhere document_id db db').
Proof.
  unfold update_document_tags, update_document_category. rewrite found.
  split; eexists _, _; (split; [reflexivity|]);
    (split; [simpl; apply lookup_insert_eq|]);
    (split_and!; [done..| |apply with_documents_elsewhere]);
    by repeat split.
Qed.

End Frame.

Lemma updates_touch_one_field_witness :
  UniversalDocumentService.get_document_by_id db_draft 7 = Some draft /\
  exists db' d',
    UniversalDocumentService.update_document_tags env_gateway_down db_draft 7
      ["arsip"] = (db', Some d') /\
    UniversalDocument.search_index d' = Some "laporan.pdf Laporan tahunan".
Proof.
  split; [reflexivity|].
  destruct (updates_touch_one_field env_gateway_down db_draft 7 draft eq_refl
              ["arsip"] "umum")
    as [(db' & d' & Hrun & _ & _ & _ & _ & Hsame & _) _].
  exists db', d'. split; [exact Hrun|].
  destruct Hsame as (_&_&_&_&_&_&_&_&_&_&_&_&_&_&_&_&_&_&_&_& Hidx).
  exact Hidx.
Defined.

(** ** Upload *)

Section Upload.
Import UniversalDocumentService UniversalDocuments.

(** An upload that is too small or has no PDF header is answered with an
    HTTP error and leaves the files and the database as they were. *)
Lemma upload_invalid_leaves_world (env : Env) (w : World)
    (filename : option string) (contents : list Byte.byte)
    (category tags : option string) (generate_ai_summary : bool) :
  length contents < 1024 \/ bytes_startswith pdf_header contents = false ->
  exists status_code detail,
    upload_any_document env w filename contents category tags
      generate_ai_summary
    = (w, inl (HTTPException status_code detail)).
Proof.
  intros H. unfold upload_any_document.
  destruct filename as [filename|]; [|by eauto].
  destruct (negb _); [by eauto|].
  unfold upload_body. cbv zeta.
  destruct (length contents <? 1024) eqn:Hlen; [by eauto|].
  destruct H as [H|H]; [apply Nat.ltb_ge in Hlen; lia|].
  rewrite H. simpl. by eauto.
Qed.

(** With a name that ends in [.pdf], the status of that error is 500: the
    400 raised by the size and header checks is raised inside the [try]
    block, whose handler catches every [Exception] and raises 500. *)
Lemma upload_invalid_pdf_is_500 (env : Env) (w : World) (filename : string)
    (contents : list Byte.byte) (category tags : option string)
    (generate_ai_summary : bool) :
  endswith ".pdf" (lower filename) = true ->
  length contents < 1024 \/ bytes_startswith pdf_header contents = false ->
  exists detail,
    upload_any_document env w (Some filename) contents category tags
      generate_ai_summary
    = (w, inl (HTTPException 500 detail)).
Proof.
  intros Hpdf H. unfold upload_any_document. rewrite Hpdf. simpl negb. cbv iota.
  unfold upload_body. cbv zeta.
  destruct (length contents <? 1024) eqn:Hlen; [by eauto|].
  destruct H as [H|H]; [apply Nat.ltb_ge in Hlen; lia|].
  rewrite H. simpl. by eauto.
Qed.

(** C1 at an empty file named [a.pdf]: nothing is stored, and the caller
    gets status 500 with the text of the 400 inside the detail. *)
Theorem upload_small_file_surfaces_500 (env : Env) (w : World) :
  upload_any_document env w (Some "a.pdf") [] None None false
  = (w, inl (HTTPException 500
       "Error processing document: 400: Invalid PDF file. File is too small (minimum 1KB required). Please upload a valid PDF document.")).
Proof. reflexivity. Qed.

(** The extension check is outside the [try] block and does answer 400. *)
Example upload_wrong_extension_is_400 (env : Env) (w : World) :
  upload_any_document env w (Some "a.txt") [] None None false
  = (w, inl (HTTPException 400 "Only PDF files are allowed")).
Proof. reflexivity. Qed.

End Upload.

(** ** Enrichment *)

Section Enrichment.
Import UniversalDocumentService.

(** When every call of the gateway fails, [summarize_text] still returns
    a text: the notice of the missing key or the message of the error. *)
Lemma summarize_text_on_failure (gemini : GeminiService.t) (env : Env)
    (text : string) (max_length : Z) :
  (forall prompt, exists e, generate_content env prompt = inl e) ->
  GeminiService.summarize_text gemini env text max_length
    = "API Key not configured"
  \/ exists e, GeminiService.summarize_text gemini env text max_length
               = "Error: " +:+ str e.
Proof.
  intros Hdown. unfold GeminiService.summarize_text.
  destruct (negb (truthy _)); [by left|right].
  unfold GeminiService._call_api. destruct (negb _); [by eexists|].
  destruct (Hdown (GeminiService.summarize_prompt text max_length)) as [e ->].
  by eexists.
Qed.

(** C2, as amended.  Once the PDF is read, ingestion returns the document,
    stored with [processed = true], whatever the enrichment does.  The AI
    fields are absent when enrichment is not asked for, when the text is
    empty, or when building the service raises (the exception is
    swallowed); otherwise both are set to what [summarize_text] returns,
    which for a failed call is the text of the error. *)
Theorem enrichment_is_best_effort (env : Env)
    (fs : gmap string (list Byte.byte)) (db : Session)
    (file_path filename : string) (file_size : float)
    (category : option string) (tags : option (list string))
    (uploaded_by : option string) (generate_ai_summary : bool)
    (x : Extracted) :
  extract_document_content env fs file_path = inr x ->
  exists db' d,
    process_and_save_document env fs db file_path filename file_size category
      tags uploaded_by generate_ai_summary = (db', inr d) /\
    documents db' !! UniversalDocument.id d = Some d /\
    UniversalDocument.processed d = Some true /\
    match (if generate_ai_summary
              && negb (String.eqb (x_full_text x) EmptyString)
           then Some (GeminiService.init env) else None) with
    | Some (inr gemini) =>
        UniversalDocument.ai_summary d
          = Some (GeminiService.summarize_text gemini env
                    (slice_to 15000%N (x_full_text x)) 500) /\
        UniversalDocument.ai_insights d
          = Some (JDict [("analysis",
                JStr (GeminiService.summarize_text gemini env
                        (insights_prompt (UniversalDocument.document_type d)
                           (x_full_text x)) 500))]) /\
        ((forall prompt, exists e, generate_content env prompt = inl e) ->
         UniversalDocument.ai_summary d = Some "API Key not configured"
         \/ exists e,
              UniversalDocument.ai_summary d = Some ("Error: " +:+ str e))
    | _ =>
        UniversalDocument.ai_summary d = None /\
        UniversalDocument.ai_insights d = None
    end.
Proof.
  intros Hx. unfold process_and_save_document. rewrite Hx. cbv zeta.
  destruct (generate_ai_summary && _).
  - unfold enrich. destruct (GeminiService.init env) as [e|gemini].
    + eexists _, _. split; [reflexivity|]. simpl.
      by rewrite lookup_insert_eq.
    + eexists _, _. split; [reflexivity|]. simpl.
      rewrite lookup_insert_eq. split_and!; [done..|].
      intros Hdown.
      destruct (summarize_text_on_failure gemini env
                  (slice_to 15000%N (x_full_text x)) 500 Hdown)
        as [->|[e ->]]; [by left|right; by eexists].
  - eexists _, _. split; [reflexivity|]. simpl. by rewrite lookup_insert_eq.
Qed.

Lemma enrichment_is_best_effort_witness :
  exists x db' d,
    extract_document_content env_gateway_down stored_pdf "uploads/a.pdf"
      = inr x /\
    process_and_save_document env_gateway_down stored_pdf empty_db
      "uploads/a.pdf" "a.pdf" 5%Q None None None false = (db', inr d) /\
    UniversalDocument.processed d = Some true /\
    UniversalDocument.ai_summary d = None.
Proof.
  eexists.
  edestruct (enrichment_is_best_effort env_gateway_down stored_pdf empty_db
               "uploads/a.pdf" "a.pdf" 5%Q None None None false)
    as (db' & d & Hrun & _ & Hprocessed & Hai & _);
    [vm_compute; reflexivity|].
  exists db', d. split; [vm_compute; reflexivity|]. by split_and!.
Defined.

(** C2, as stated, fails: with a configured gateway whose calls all fail,
    the AI fields are set all the same, to the text of the error. *)
Lemma error_text_stored_as_summary :
  (forall prompt, exists e, generate_content env_gateway_down prompt = inl e) /\
  exists db' d,
    process_and_save_document env_gateway_down stored_pdf empty_db
      "uploads/a.pdf" "a.pdf" 5%Q None None None true = (db', inr d) /\
    UniversalDocument.ai_summary d
      = Some "Error: Gemini API call failed: timeout" /\
    UniversalDocument.ai_insights d
      = Some (JDict [("analysis",
                      JStr "Error: Gemini API call failed: timeout")]).
Proof.
  split; [by eauto|].
  eexists _, _. split; [vm_compute; reflexivity|]. split; reflexivity.
Qed.

End Enrichment.

(** ** Collections *)

Section Collections.
Import UniversalDocumentService.

(** C10.  Whatever the order in which a set is enumerated, after
    [add_documents_to_collection] on an existing collection the stored
    ids have no duplicates and are, as a set, the ids stored before
    together with the ids added.  The order of the ids stored before is
    not kept in general: under the ascending enumeration the stored list
    3, 1, 2 comes back as 1, 2, 3. *)
Theorem collection_ids_after_add :
  (forall (order : SetOrder) (env : Env) (db : Session) (collection_id : Z)
          (document_ids : list Z) (c : DocumentCollection.t),
     collections db !! collection_id = Some c ->
     exists db' c' ids',
       add_documents_to_collection env db collection_id document_ids
         = (db', Some c') /\
       collections db' !! collection_id = Some c' /\
       DocumentCollection.document_ids c' = Some ids' /\
       NoDup ids' /\
       forall i, i ∈ ids' <->
                 i ∈ default [] (DocumentCollection.document_ids c)
                 \/ i ∈ document_ids) /\
  (exists (order : SetOrder),
     forall (env : Env) (db : Session) (collection_id : Z)
            (c : DocumentCollection.t),
       collections db !! collection_id = Some c ->
       DocumentCollection.document_ids c = Some [3; 1; 2]%Z ->
       exists db' c',
         add_documents_to_collection env db collection_id [] = (db', Some c') /\
         DocumentCollection.document_ids c' = Some [1; 2; 3]%Z).
Proof.
  split.
  - intros order env db collection_id document_ids c Hc.
    unfold add_documents_to_collection. rewrite Hc. cbv zeta.
    eexists _, _, _. split; [reflexivity|].
    split; [simpl; apply lookup_insert_eq|]. split; [reflexivity|].
    split.
    + rewrite list_of_set_perm. apply NoDup_remove_dups.
    + intros i.
      by rewrite list_of_set_perm, elem_of_remove_dups, elem_of_app.
  - exists ascending. intros env db collection_id c Hc Hids.
    unfold add_documents_to_collection. rewrite Hc. cbv zeta.
    eexists _, _. split; [reflexivity|]. simpl. by rewrite Hids.
Qed.

Lemma collection_ids_after_add_witness :
  collections db_shelf !! 1%Z = Some shelf /\
  exists db' c' ids',
    @add_documents_to_collection ascending env_gateway_down db_shelf 1 [2; 5]%Z
      = (db', Some c') /\
    DocumentCollection.document_ids c' = Some ids' /\
    NoDup ids' /\ (5%Z ∈ ids').
Proof.
  split; [reflexivity|].
  destruct (proj1 collection_ids_after_add ascending env_gateway_down db_shelf
              1%Z [2; 5]%Z shelf eq_refl)
    as (db' & c' & ids' & Hrun & _ & Hids & Hnodup & Hin).
  exists db', c', ids'. split_and!; [done..|].
  apply Hin. right. repeat constructor.
Defined.

End Collections.

(** ** The query router *)

Section Router.
Import Chat.

(** A handler that declines is recognised by evaluation alone. *)
Ltac declines h := replace h with (@None reply) by reflexivity.

Lemma first_result_app
    (before after : list (string -> Session -> option reply))
    (q : string) (db : Session) :
  Forall (fun h => h q db = None) before ->
  first_result (before ++ after) q db = first_result after q db.
Proof. induction 1 as [|h before Hh _ IH]; simpl; [done|by rewrite Hh]. Qed.

Lemma seen_nil (p : list string) : seen p = [] <-> p = [].
Proof.
  split; [|by intros ->]. destruct p as [|w p]; [done|]. intros Hnil.
  assert (w ∈ seen (w :: p)) as Hw by (apply elem_of_seen; left).
  rewrite Hnil in Hw. by apply elem_of_nil in Hw.
Qed.

(** A breakdown by a column is empty exactly when no row has a value. *)
Lemma group_count_nil (column : list (option string)) :
  Sql.group_count column = [] <-> Forall (fun v => v = None) column.
Proof.
  unfold Sql.group_count. rewrite tally_spec.
  transitivity (omap (fun v : option string => v) column = []).
  - split; [|by intros ->]. intros H%fmap_nil_inv. by apply seen_nil.
  - induction column as [|[v|] column IH]; csimpl.
    + split; [constructor|done].
    + split; [done|]. by intros [? _]%Forall_cons.
    + rewrite IH. split; [by constructor|]. by intros [_ ?]%Forall_cons.
Qed.

Lemma order_by_count_desc_nil (groups : list (string * nat)) :
  Sql.order_by_count_desc groups = [] <-> groups = [].
Proof.
  unfold Sql.order_by_count_desc. split; [|by intros ->].
  intros Hnil. apply Permutation_nil.
  by rewrite <-(sorted_desc_perm groups), Hnil.
Qed.

Lemma jabatan_breakdown_nil (db : Session) :
  Sql.order_by_count_desc (Sql.group_count (Member.jabatan <$> members db)) = []
  <-> ~ exists m, m ∈ members db /\ is_Some (Member.jabatan m).
Proof.
  rewrite order_by_count_desc_nil, group_count_nil, Forall_fmap, Forall_forall.
  split.
  - intros Hall (m & Hm & [v Hv]). specialize (Hall m Hm). simpl in Hall.
    congruence.
  - intros Hnone m Hm. simpl. destruct (Member.jabatan m) eqn:Hj; [|done].
    exfalso. apply Hnone. exists m. by rewrite Hj.
Qed.

Lemma jabatan_breakdown_cons (db : Session) :
  Sql.order_by_count_desc (Sql.group_count (Member.jabatan <$> members db)) <> []
  -> exists m, m ∈ members db /\ is_Some (Member.jabatan m).
Proof.
  rewrite order_by_count_desc_nil, group_count_nil, Forall_fmap.
  intros Hsome%not_Forall_Exists; [|intros m; simpl; apply _].
  apply Exists_exists in Hsome as (m & Hm & Hj). exists m. split; [done|].
  simpl in Hj. by destruct (Member.jabatan m).
Qed.

(** Handler 1, once triggered, answers exactly when [handler_1_replies]. *)
Lemma handler_1_reply_iff (q : string) (db : Session) :
  trigger_1 q = true ->
  is_Some (handle_jabatan_query q db) <-> handler_1_replies q db.
Proof.
  intros Ht. unfold handle_jabatan_query, handler_1_replies.
  fold (trigger_1 q). rewrite Ht. simpl negb. cbv iota.
  destruct (search_quoted q) as [name|].
  { split; [by left|by eauto]. }
  destruct (contains "per jabatan" q
            || contains "jumlah pengurus per jabatan" q).
  - pose proof (jabatan_breakdown_nil db) as Hnil.
    pose proof (jabatan_breakdown_cons db) as Hcons.
    destruct (Sql.order_by_count_desc _) as [|r rs].
    + split; [by intros [? ?]|].
      intros [[? ?]|[_ Hm]]; [done|]. by apply Hnil in Hm.
    + split; [|by eauto]. intros _. right. split; [done|by apply Hcons].
  - split; [by intros [? ?]|]. intros [[? ?]|[? _]]; done.
Qed.

(** C4, as amended.  For a query that satisfies the triggers of handlers
    1 and 2, the router returns the reply of handler 1 when handler 1 has
    one (the query quotes a role, or asks for the breakdown per role and
    some member has a role); when handler 1 is triggered but has no reply,
    evaluation goes on and the reply of handler 2, if it has one, is
    returned.  In general the router returns the reply of the first
    handler that has one. *)
Theorem both_triggers_routing (query : string) (db : Session) :
  trigger_1 (lower query) = true ->
  trigger_2 (lower query) = true ->
  (handler_1_replies (lower query) db ->
   is_Some (handle_jabatan_query (lower query) db) /\
   detect_specific_query query db = handle_jabatan_query (lower query) db) /\
  (~ handler_1_replies (lower query) db ->
   handle_jabatan_query (lower query) db = None /\
   forall r, handle_bidang_usaha_query (lower query) db = Some r ->
     detect_specific_query query db = Some r) /\
  (forall before h after r,
     Forall (fun h' => h' (lower query) db = None) before ->
     h (lower query) db = Some r ->
     first_result (before ++ h :: after) (lower query) db = Some r).
Proof.
  intros Ht1 _. pose proof (handler_1_reply_iff (lower query) db Ht1) as Hiff.
  split_and!.
  - intros Hr. apply Hiff in Hr as [r Hr]. split; [by eauto|].
    unfold detect_specific_query. simpl. by rewrite Hr.
  - intros Hno.
    assert (handle_jabatan_query (lower query) db = None) as H1.
    { destruct (handle_jabatan_query (lower query) db) eqn:E; [|done].
      exfalso. apply Hno, Hiff. by eauto. }
    split; [done|]. intros r H2.
    unfold detect_specific_query. simpl. by rewrite H1, H2.
  - intros before h after r Hb Hh. rewrite first_result_app by done.
    simpl. by rewrite Hh.
Qed.

Lemma both_triggers_routing_witness :
  trigger_1 (lower both_triggers_query) = true /\
  trigger_2 (lower both_triggers_query) = true /\
  ~ handler_1_replies (lower both_triggers_query) db_budi /\
  detect_specific_query both_triggers_query db_budi
    = handle_bidang_usaha_query (lower both_triggers_query) db_budi.
Proof.
  assert (~ handler_1_replies (lower both_triggers_query) db_budi) as Hno.
  { intros [[? H]|[H _]]; vm_compute in H; discriminate. }
  split_and!; [reflexivity|reflexivity|exact Hno|].
  destruct (proj1 (proj2 (both_triggers_routing both_triggers_query db_budi
                            eq_refl eq_refl)) Hno) as [_ H2].
  apply H2. reflexivity.
Defined.

(** C4, as stated, fails: this query satisfies both triggers, handler 1
    has no reply to it, and the router returns the reply of handler 2. *)
Lemma handler_1_can_decline :
  trigger_1 (lower both_triggers_query) = true /\
  trigger_2 (lower both_triggers_query) = true /\
  handle_jabatan_query (lower both_triggers_query) db_budi = None /\
  detect_specific_query both_triggers_query db_budi
    = handle_bidang_usaha_query (lower both_triggers_query) db_budi /\
  detect_specific_query both_triggers_query db_budi
    = Some {| type := "specific_query";
              answer := "Bidang usaha terbanyak di kepengurusan: **Kuliner** (1 pengurus)";
              data := JDict [("bidang_usaha", JStr "Kuliner");
                             ("count", JInt 1)] |}.
Proof. vm_compute. by repeat split. Qed.

(** C5, as amended.  For the query [Siapa Budi?] handler 5 fires, and the
    name it extracts is [budi?]: the question mark is no filler word and
    stays.  No name contains it unless it has a question mark itself, and
    then the router finds nothing.  For [Siapa Budi], without the mark,
    the name is [budi] and the router returns the full profile of the
    first member whose name contains it, here Budi Santoso. *)
Theorem siapa_budi (db : Session) :
  extract_name (lower "Siapa Budi?") = Some "budi?" /\
  (first_by_name "budi?" db = None ->
   detect_specific_query "Siapa Budi?" db = None) /\
  extract_name (lower "Siapa Budi") = Some "budi" /\
  (forall member, first_by_name "budi" db = Some member ->
   detect_specific_query "Siapa Budi" db
     = Some {| type := "specific_query"; answer := profile_block member;
               data := profile_data member |}) /\
  first_by_name "budi" db_budi = Some budi.
Proof.
  split_and!; try reflexivity.
  - intros H. unfold detect_specific_query.
    change (lower "Siapa Budi?") with "siapa budi?".
    unfold handlers, first_result.
    declines (handle_jabatan_query "siapa budi?" db).
    declines (handle_bidang_usaha_query "siapa budi?" db).
    declines (handle_kta_query "siapa budi?" "Siapa Budi?" db).
    declines (handle_gender_query "siapa budi?" db).
    declines (handle_kontak_query "siapa budi?" db).
    declines (handle_perusahaan_query "siapa budi?" db).
    declines (handle_total_karyawan_query "siapa budi?" db).
    unfold handle_detail_pengurus_query.
    change (extract_name "siapa budi?") with (Some "budi?").
    change (negb _) with false. cbv iota. by rewrite H.
  - intros member H. unfold detect_specific_query.
    change (lower "Siapa Budi") with "siapa budi".
    unfold handlers, first_result.
    declines (handle_jabatan_query "siapa budi" db).
    declines (handle_bidang_usaha_query "siapa budi" db).
    declines (handle_kta_query "siapa budi" "Siapa Budi" db).
    declines (handle_gender_query "siapa budi" db).
    unfold handle_detail_pengurus_query.
    change (extract_name "siapa budi") with (Some "budi").
    change (negb _) with false. cbv iota. by rewrite H.
Qed.

Lemma siapa_budi_witness :
  first_by_name "budi" db_budi = Some budi /\
  first_by_name "budi?" db_budi = None /\
  detect_specific_query "Siapa Budi?" db_budi = None /\
  detect_specific_query "Siapa Budi" db_budi
    = Some {| type := "specific_query"; answer := profile_block budi;
              data := profile_data budi |}.
Proof.
  destruct (siapa_budi db_budi) as (_ & Hmark & _ & Hplain & _).
  split_and!; [reflexivity|reflexivity|by apply Hmark|by apply Hplain].
Defined.

(** C5, as stated, fails: with Budi Santoso among the members, the
    extracted name is [budi?] and the router has no answer. *)
Lemma siapa_budi_question_mark :
  extract_name (lower "Siapa Budi?") = Some "budi?" /\
  extract_name (lower "Siapa Budi?") <> Some "budi" /\
  handle_detail_pengurus_query (lower "Siapa Budi?") db_budi = None /\
  detect_specific_query "Siapa Budi?" db_budi = None.
Proof. vm_compute. by repeat split. Qed.

Lemma nearest_float_proper (x y : Q) :
  (x == y)%Q -> nearest_float x = nearest_float y.
Proof. intros H. unfold nearest_float. by rewrite (Qred_complete x y H). Qed.

Lemma percentage_of_all (count : nat) :
  0 < count -> percentage count count = 100%Q.
Proof.
  intros Hpos. unfold percentage, int_truediv.
  rewrite (nearest_float_proper _ 1).
  - reflexivity.
  - apply Qmult_inv_r. unfold Qeq, inject_Z. simpl. lia.
Qed.

Lemma percentage_of_none (total : nat) : percentage 0 total = 0%Q.
Proof.
  unfold percentage, int_truediv.
  rewrite (nearest_float_proper _ 0); [reflexivity|].
  unfold Qdiv. apply Qmult_0_l.
Qed.

(** C6, as amended.  For a query that satisfies the trigger of handler 4
    the handler has no answer at all when no member is male or female.
    When at least one is, it answers with the two counts and the two
    percentages: the text shows each count and its percentage with one
    decimal, the data hold the counts and the percentages.  A percentage
    is the float [count / total * 100]; it is 100 and 0 when all the
    members counted are of one gender. *)
Theorem gender_answer (query_lower : string) (db : Session) :
  trigger_4 query_lower = true ->
  let male :=
    count_rows (fun m => Sql.equals (Member.jenis_kelamin m) "Male") db in
  let female :=
    count_rows (fun m => Sql.equals (Member.jenis_kelamin m) "Female") db in
  let male_pct := float_mul (int_truediv (Z.of_nat male)
                               (Z.of_nat (male + female))) 100%Q in
  let female_pct := float_mul (int_truediv (Z.of_nat female)
                                 (Z.of_nat (male + female))) 100%Q in
  (male + female = 0 -> handle_gender_query query_lower db = None) /\
  (0 < male + female ->
   handle_gender_query query_lower db
   = Some {| type := "specific_query";
             answer := "**Rasio Gender Pengurus:**" +:+ nl
                       +:+ "- Pria: " +:+ str_nat male +:+ " orang ("
                       +:+ format_1f male_pct +:+ "%)" +:+ nl
                       +:+ "- Wanita: " +:+ str_nat female +:+ " orang ("
                       +:+ format_1f female_pct +:+ "%)";
             data := JDict
               [("male", JNat male); ("female", JNat female);
                ("male_pct", JFloat male_pct);
                ("female_pct", JFloat female_pct)] |}) /\
  (0 < male -> female = 0 -> male_pct = 100%Q /\ female_pct = 0%Q) /\
  (male = 0 -> 0 < female -> male_pct = 0%Q /\ female_pct = 100%Q).
Proof.
  intros Ht male female male_pct female_pct. unfold handle_gender_query.
  fold (trigger_4 query_lower). rewrite Ht. fold male female.
  split; [intros ->; reflexivity|].
  split; [intros Hpos; apply Nat.ltb_lt in Hpos; by rewrite Hpos|].
  subst male_pct female_pct. fold (percentage male (male + female)).
  fold (percentage female (male + female)). split.
  - intros Hpos ->. rewrite Nat.add_0_r.
    split; [by apply percentage_of_all|apply percentage_of_none].
  - intros -> Hpos. rewrite Nat.add_0_l.
    split; [apply percentage_of_none|by apply percentage_of_all].
Qed.

Lemma gender_answer_witness :
  trigger_4 (lower "Rasio gender pengurus") = true /\
  handle_gender_query (lower "Rasio gender pengurus") db_23_57
  = Some {| type := "specific_query";
            answer := "**Rasio Gender Pengurus:**" +:+ nl
                      +:+ "- Pria: 23 orang (28.7%)" +:+ nl
                      +:+ "- Wanita: 57 orang (71.2%)";
            data := JDict
              [("male", JInt 23); ("female", JInt 57);
               ("male_pct",
                 JFloat (8092405580431359 # 281474976710656));
               ("female_pct", JFloat (285 # 4))] |}.
Proof.
  split; [reflexivity|].
  destruct (gender_answer (lower "Rasio gender pengurus") db_23_57 eq_refl)
    as (_ & Hpos & _).
  rewrite Hpos; [vm_compute; reflexivity|].
  apply Nat.ltb_lt. vm_compute. reflexivity.
Defined.

(** C6, as stated, fails: with no member the handler has no answer, and
    neither has the router. *)
Lemma gender_zero_total_no_answer :
  trigger_4 (lower "rasio gender") = true /\
  handle_gender_query (lower "rasio gender") empty_db = None /\
  detect_specific_query "rasio gender" empty_db = None.
Proof. vm_compute. by repeat split. Qed.

End Router.

(** * Further properties

    What the code shows beyond the statements above: the classifier and
    the keyword extractor, the reading of a PDF, the documents table and
    the collections, the upload and delete routes, the gateway, and the
    chat route with its context. *)

Import TypeSpec CaseSpec StoreSpec CountSpec UploadSpec LikeSpec TriggerSpec
  ReplySpec.

(** ** The classifier *)

Section Classifier.

Lemma startswith_contains (q s : string) :
  startswith q s = true -> contains q s = true.
Proof. intros H. destruct s; simpl in *; by rewrite H. Qed.

Lemma contains_tail (q : string) (c : ascii) (s : string) :
  contains q s = true -> contains q (String c s) = true.
Proof. intros H. simpl. rewrite H. apply orb_true_r. Qed.

Lemma startswith_app_r (p q s : string) :
  startswith (p +:+ q) s = true -> contains q s = true.
Proof.
  revert s. induction p as [|a p IH]; intros s H.
  - by apply startswith_contains.
  - destruct s as [|b s]; simpl in H; [done|].
    destruct (Ascii.eqb a b); [|done]. by apply contains_tail, IH.
Qed.

(** A text that contains a phrase contains every suffix of the phrase. *)
Lemma contains_app_r (p q s : string) :
  contains (p +:+ q) s = true -> contains q s = true.
Proof.
  induction s as [|c s IH]; intros H.
  - simpl in H. apply orb_true_iff in H as [H|H]; [|done].
    by apply startswith_app_r in H.
  - change (contains (p +:+ q) (String c s))
      with (startswith (p +:+ q) (String c s) || contains (p +:+ q) s) in H.
    apply orb_true_iff in H as [H|H].
    + by apply startswith_app_r in H.
    + by apply contains_tail, IH.
Qed.

Lemma contains_infix (p q r s : string) :
  contains (p +:+ q +:+ r) s = true -> contains q s = true.
Proof. intros H%contains_app_r. by apply contains_app in H. Qed.

Lemma po_in_names (s : string) :
  contains "report" s = true \/ contains "laporan" s = true
  \/ contains "proposal" s = true ->
  contains "po" s = true.
Proof.
  intros [H|[H|H]].
  - by apply (contains_infix "re" "po" "rt").
  - by apply (contains_infix "la" "po" "ran").
  - by apply (contains_infix "pro" "po" "sal").
Qed.

(** X1.  A file whose name contains "report", "laporan" or "proposal" (in
    any case) is classified HIPMI_PO whatever its content: each of these
    words contains "po", and the PO rule is tested first. *)
Theorem po_shadows_report_and_proposal (filename text : string) :
  contains "report" (lower filename) = true
  \/ contains "laporan" (lower filename) = true
  \/ contains "proposal" (lower filename) = true ->
  detect_document_type filename text = "HIPMI_PO".
Proof.
  intros H%po_in_names. unfold detect_document_type. cbv zeta.
  by rewrite H.
Qed.

Lemma po_shadows_report_and_proposal_witness :
  contains "report" (lower "Annual_Report.pdf") = true /\
  detect_document_type "Annual_Report.pdf" "Ringkasan keuangan" = "HIPMI_PO".
Proof.
  split; [reflexivity|].
  apply (po_shadows_report_and_proposal "Annual_Report.pdf" "Ringkasan keuangan").
  left. reflexivity.
Defined.

(** X2.  The classifier returns one of eleven tags, never PROPOSAL (its
    rule cannot fire, the PO rule comes first), and the tag it returns
    always has an entry in the table of category information. *)
Theorem detect_document_type_closed (filename text : string) :
  detect_document_type filename text ∈ document_types
  /\ detect_document_type filename text <> "PROPOSAL"
  /\ CategoryInfo.name
       (get_document_category_info (detect_document_type filename text))
     <> "Unknown".
Proof.
  assert (detect_document_type filename text ∈ document_types) as Hin.
  { unfold detect_document_type, document_types. cbv zeta.
    destruct (contains "po" (lower filename)) eqn:Hpo; [simpl; set_solver|].
    assert (contains "proposal" (lower filename) = false) as ->.
    { destruct (contains "proposal" (lower filename)) eqn:Hp; [|done].
      rewrite po_in_names in Hpo; [done|by auto]. }
    rewrite orb_false_l.
    repeat match goal with
           | |- context [if ?b then _ else _] => destruct b
           end; set_solver. }
  split; [done|].
  unfold document_types in Hin.
  repeat (apply elem_of_cons in Hin as [->|Hin]); try (by split);
    by apply elem_of_nil in Hin.
Qed.

Lemma lower_char_idem (c : ascii) : lower_char (lower_char c) = lower_char c.
Proof. destruct c as [[] [] [] [] [] [] [] []]; reflexivity. Qed.

Lemma lower_idem (s : string) : lower (lower s) = lower s.
Proof. induction s as [|c s IH]; simpl; [done|]. by rewrite lower_char_idem, IH. Qed.

Lemma lower_slice_to (n : N) (s : string) :
  lower (slice_to n s) = slice_to n (lower s).
Proof.
  revert n. induction s as [|c s IH]; intros n; simpl; [done|].
  destruct (n =? 0)%N; simpl; [done|]. by rewrite IH.
Qed.

Lemma slice_to_slice_to (n m : N) (s : string) :
  (n <= m)%N -> slice_to n (slice_to m s) = slice_to n s.
Proof.
  revert n m. induction s as [|c s IH]; intros n m Hnm; simpl; [done|].
  destruct (N.eqb_spec m 0) as [->|Hm].
  - assert (n = 0%N) as -> by lia. done.
  - simpl. destruct (N.eqb_spec n 0) as [->|Hn]; [done|].
    rewrite IH; [done|lia].
Qed.

(** X3.  The classifier reads the file name and the first 2,000
    characters of the text, both without regard to case: two inputs that
    agree on these get the same tag. *)
Theorem detect_document_type_reads_a_prefix (filename filename' text text' : string) :
  lower filename = lower filename' ->
  lower (slice_to 2000%N text) = lower (slice_to 2000%N text') ->
  detect_document_type filename text = detect_document_type filename' text'.
Proof.
  intros Hname Htext. unfold detect_document_type. cbv zeta.
  rewrite !lower_slice_to in Htext.
  rewrite <-(slice_to_slice_to 1000 2000 (lower text)) by done.
  rewrite <-(slice_to_slice_to 1000 2000 (lower text')) by done.
  by rewrite Hname, Htext.
Qed.

Lemma detect_document_type_reads_a_prefix_witness :
  detect_document_type "Surat-Edaran.PDF" "LAPORAN kegiatan"
  = detect_document_type "surat-edaran.pdf" "laporan KEGIATAN".
Proof.
  apply (detect_document_type_reads_a_prefix "Surat-Edaran.PDF"
           "surat-edaran.pdf" "LAPORAN kegiatan" "laporan KEGIATAN");
    reflexivity.
Defined.

End Classifier.

(** ** The keywords *)

Section Keywords.

Lemma lower_char_not_upper (c : ascii) : is_upper (lower_char c) = false.
Proof. destruct c as [[] [] [] [] [] [] [] []]; reflexivity. Qed.

Lemma lower_char_fixed (c : ascii) : is_upper c = false -> lower_char c = c.
Proof. unfold lower_char. by intros ->. Qed.

Lemma no_upper_lower (s : string) : no_upper (lower s) = true.
Proof.
  unfold no_upper. induction s as [|c s IH]; simpl; [done|].
  by rewrite lower_char_not_upper, IH.
Qed.

Lemma no_upper_fixed (s : string) : no_upper s = true -> lower s = s.
Proof.
  unfold no_upper. induction s as [|c s IH]; simpl; [done|].
  intros [Hc Hs]%andb_true_iff. apply negb_true_iff in Hc.
  by rewrite lower_char_fixed, IH.
Qed.

Lemma emit_no_upper (run : option (list ascii)) :
  (forall r, run = Some r -> forallb (fun c => negb (is_upper c)) r = true) ->
  Forall (fun w => no_upper w = true) (emit run).
Proof.
  intros Hrun. destruct run as [r|]; unfold emit; [|constructor].
  destruct (4 <=? length r); constructor; [|constructor].
  unfold no_upper. rewrite String.list_ascii_of_string_of_list_ascii.
  apply forallb_forall. intros c Hc. apply in_rev in Hc.
  by eapply forallb_forall in Hc; [|apply (Hrun r)].
Qed.

Lemma findall_no_upper (prev_word : bool) (run : option (list ascii))
    (s : string) :
  no_upper s = true ->
  (forall r, run = Some r -> forallb (fun c => negb (is_upper c)) r = true) ->
  Forall (fun w => no_upper w = true) (findall_words_from prev_word run s).
Proof.
  revert prev_word run. induction s as [|c s IH]; intros prev_word run Hs Hrun.
  - by apply emit_no_upper.
  - unfold no_upper in Hs. simpl in Hs.
    apply andb_true_iff in Hs as [Hc Hs]. simpl.
    destruct (is_alpha c).
    + apply IH; [done|]. intros r. destruct run as [r0|].
      * intros [= <-]. simpl. by rewrite Hc, (Hrun r0).
      * destruct prev_word; [done|]. intros [= <-]. simpl. by rewrite Hc.
    + destruct (is_word c).
      * by apply IH.
      * apply Forall_app. split; [by apply emit_no_upper|by apply IH].
Qed.

Lemma ranking_NoDup (text : string) : NoDup (ranking text).
Proof. rewrite ranking_perm. apply NoDup_remove_dups. Qed.

Lemma keywords_sublist (text : string) (top_n : Z) :
  exists n, _extract_keywords text top_n = take n (ranking text).
Proof.
  unfold _extract_keywords, ranking, list_slice_to. cbv zeta.
  destruct (0 <=? top_n)%Z; eexists; apply fmap_take.
Qed.

Lemma keywords_prefix (text : string) (top_n : Z) :
  (0 <= top_n)%Z ->
  _extract_keywords text top_n = take (Z.to_nat top_n) (ranking text).
Proof.
  intros Hn. unfold _extract_keywords, ranking, list_slice_to. cbv zeta.
  rewrite (proj2 (Z.leb_le 0 top_n) Hn). apply fmap_take.
Qed.

(** X4.  For every text and every [top_n], negative ones included, no
    keyword is returned twice, every keyword is one of the counted words
    of the text and is in lower case, and a text without counted words
    has no keywords. *)
Theorem keywords_distinct_lowercase (text : string) (top_n : Z) :
  NoDup (_extract_keywords text top_n) /\
  Forall (fun w => w ∈ tokens text /\ lower w = w)
         (_extract_keywords text top_n) /\
  (tokens text = [] -> _extract_keywords text top_n = []).
Proof.
  destruct (keywords_sublist text top_n) as [n ->]. split_and!.
  - eapply sublist_NoDup; [apply ranking_NoDup|apply sublist_take].
  - apply Forall_take, Forall_forall. intros w Hw.
    rewrite ranking_perm, elem_of_remove_dups in Hw. split; [done|].
    apply no_upper_fixed.
    apply list_elem_of_In, filter_In in Hw as [Hw _].
    assert (Forall (fun w => no_upper w = true) (findall_words (lower text)))
      as Hall by (apply findall_no_upper; [apply no_upper_lower|done]).
    apply (proj1 (Forall_forall _ _) Hall). by apply list_elem_of_In.
  - intros Hnil.
    assert (ranking text = []) as ->; [|by rewrite take_nil].
    apply Permutation_nil. by rewrite ranking_perm, Hnil.
Qed.

Lemma keywords_distinct_lowercase_witness :
  tokens "dan itu 2024" = [] /\ _extract_keywords "dan itu 2024" (-3) = [].
Proof.
  split; [reflexivity|].
  apply (keywords_distinct_lowercase "dan itu 2024" (-3)). reflexivity.
Defined.

End Keywords.

(** ** Reading a PDF *)

Section Extraction.

Lemma length_append (a b : string) :
  String.length (a +:+ b) = String.length a + String.length b.
Proof. induction a as [|c a IH]; simpl; [done|]. by rewrite IH. Qed.

Lemma length_slice_to (n : N) (s : string) :
  String.length (slice_to n s) = N.to_nat n `min` String.length s.
Proof.
  revert n. induction s as [|c s IH]; intros n; simpl; [lia|].
  destruct (N.eqb_spec n 0) as [->|Hn]; simpl; [done|].
  rewrite IH. lia.
Qed.

Lemma bytes_eqb_refl (a : list Byte.byte) : bytes_eqb a a = true.
Proof.
  induction a as [|x a IH]; simpl; [done|].
  rewrite IH, andb_true_r. by destruct x.
Qed.

Lemma byte_eqb_eq (x y : Byte.byte) : Byte.eqb x y = true -> x = y.
Proof. intros H. by apply Byte.byte_dec_bl. Qed.

Lemma take_of_startswith (p b : list Byte.byte) :
  bytes_startswith p b = true -> take (length p) b = p.
Proof.
  revert b. induction p as [|x p IH]; intros b H; simpl; [done|].
  destruct b as [|y b]; simpl in H; [done|].
  apply andb_true_iff in H as [Hxy H]. apply byte_eqb_eq in Hxy as ->.
  simpl. by rewrite IH.
Qed.

Lemma header_of_startswith (contents : list Byte.byte) :
  bytes_startswith pdf_header contents = true ->
  bytes_eqb (take 5 contents) pdf_header = true.
Proof.
  intros H. rewrite (take_of_startswith pdf_header contents H : take 5 _ = _).
  apply bytes_eqb_refl.
Qed.

(** What a successful reading of a PDF was computed from. *)
Lemma extract_success_inv (env : Env) (fs : gmap string (list Byte.byte))
    (file_path : string) (x : Extracted) :
  extract_document_content env fs file_path = inr x ->
  exists contents pdf,
    fs !! file_path = Some contents /\
    bytes_eqb (take 5 contents) pdf_header = true /\
    pdfplumber_open env contents = inr pdf /\
    x_full_text x = join (nl +:+ nl) (page_texts (pages pdf)) /\
    x_page_count x = Z.of_nat (length (pages pdf)) /\
    x_summary x = (if 500 <? String.length (x_full_text x)
                   then slice_to 500%N (x_full_text x) +:+ "..."
                   else x_full_text x) /\
    x_keywords x = _extract_keywords (x_full_text x) 20.
Proof.
  unfold extract_document_content. cbv zeta.
  destruct (fs !! file_path) as [contents|]; [|discriminate].
  destruct (bytes_eqb (take 5 contents) pdf_header) eqn:Hhead;
    [|discriminate]. simpl negb. cbv iota.
  destruct (pdfplumber_open env contents) as [e|pdf] eqn:Hpdf; [discriminate|].
  intros [= <-]. exists contents, pdf. by repeat split.
Qed.

(** X5.  Whenever a PDF is read, the summary is the full text when that
    has at most 500 characters and its first 500 characters followed by
    three dots otherwise, so never more than 503 characters; there are at
    most 20 keywords, all distinct; and a PDF without text has an empty
    summary and no keywords. *)
Theorem extracted_shape (env : Env) (fs : gmap string (list Byte.byte))
    (file_path : string) (x : Extracted) :
  extract_document_content env fs file_path = inr x ->
  String.length (x_summary x) <= 503 /\
  (String.length (x_full_text x) <= 500 -> x_summary x = x_full_text x) /\
  (500 < String.length (x_full_text x) ->
   x_summary x = slice_to 500%N (x_full_text x) +:+ "..."
   /\ String.length (x_summary x) = 503) /\
  length (x_keywords x) <= 20 /\
  NoDup (x_keywords x) /\
  (x_full_text x = EmptyString ->
   x_summary x = EmptyString /\ x_keywords x = []).
Proof.
  intros (contents & pdf & _ & _ & _ & _ & _ & Hsum & Hkw)%extract_success_inv.
  rewrite Hsum, Hkw. clear Hsum Hkw. set (full := x_full_text x).
  assert (String.length (slice_to 500%N full +:+ "...")
          = 500 `min` String.length full + 3) as Hlen.
  { rewrite length_append, length_slice_to. simpl. lia. }
  split_and!.
  - destruct (500 <? String.length full) eqn:H.
    + rewrite Hlen. lia.
    + apply Nat.ltb_ge in H. lia.
  - intros H. by rewrite (proj2 (Nat.ltb_ge _ _)).
  - intros H. rewrite (proj2 (Nat.ltb_lt _ _)) by done. split; [done|].
    rewrite Hlen. lia.
  - rewrite (keywords_prefix full 20) by lia. rewrite length_take. lia.
  - destruct (keywords_sublist full 20) as [n ->].
    eapply sublist_NoDup; [apply ranking_NoDup|apply sublist_take].
  - intros ->. by split.
Qed.

Lemma extracted_shape_witness :
  exists x,
    extract_document_content env_gateway_down stored_pdf "uploads/a.pdf"
      = inr x /\
    String.length (x_summary x) <= 503 /\ NoDup (x_keywords x).
Proof.
  eexists. split; [vm_compute; reflexivity|].
  edestruct (extracted_shape env_gateway_down stored_pdf "uploads/a.pdf")
    as (Hlen & _ & _ & _ & Hnodup & _); [vm_compute; reflexivity|].
  split; [exact Hlen|exact Hnodup].
Defined.

(** X6.  Every failure of the reading is an [Exception] whose message
    starts with "Error processing PDF: ", and it has one of three causes:
    the file is not there, its bytes do not begin with the PDF header, or
    the PDF reader raised, in which case the message ends with the text of
    that exception. *)
Theorem extract_failure_wrapped (env : Env) (fs : gmap string (list Byte.byte))
    (file_path : string) (e : exn) :
  extract_document_content env fs file_path = inl e ->
  (exists msg, e = Exception ("Error processing PDF: " +:+ msg)) /\
  (fs !! file_path = None
   \/ (exists contents, fs !! file_path = Some contents
         /\ bytes_startswith pdf_header contents = false)
   \/ (exists contents e0, fs !! file_path = Some contents
         /\ pdfplumber_open env contents = inl e0
         /\ e = Exception ("Error processing PDF: " +:+ str e0))).
Proof.
  unfold extract_document_content. cbv zeta.
  destruct (fs !! file_path) as [contents|]; [|intros [= <-]; by eauto].
  destruct (bytes_eqb (take 5 contents) pdf_header) eqn:Hhead; simpl negb; cbv iota.
  - destruct (pdfplumber_open env contents) as [e0|pdf] eqn:Hpdf; [|discriminate].
    intros [= <-]. split; [by eauto|]. right. right. by eauto.
  - intros [= <-]. split; [by eauto|]. right. left. exists contents.
    split; [done|].
    destruct (bytes_startswith pdf_header contents) eqn:Hs; [|done].
    apply header_of_startswith in Hs. congruence.
Qed.

Lemma extract_failure_wrapped_witness :
  extract_document_content env_reader_down stored_pdf "uploads/a.pdf"
    = inl (Exception "Error processing PDF: No /Root object") /\
  exists msg,
    Exception "Error processing PDF: No /Root object"
    = Exception ("Error processing PDF: " +:+ msg).
Proof.
  split; [reflexivity|].
  apply (extract_failure_wrapped env_reader_down stored_pdf "uploads/a.pdf").
  reflexivity.
Defined.

End Extraction.

(** ** Ingestion *)

Section Ingestion.
Import UniversalDocumentService.

Lemma page_texts_textless (pages : list Page) :
  Forall (fun p => extract_text p = None \/ extract_text p = Some EmptyString)
         pages ->
  page_texts pages = [].
Proof.
  induction 1 as [|p pages [Hp|Hp] _ IH]; [done|..];
    unfold page_texts in *; csimpl; by rewrite Hp, IH.
Qed.

Lemma process_run (env : Env) (fs : gmap string (list Byte.byte))
    (db : Session) (file_path filename : string) (file_size : float)
    (category : option string) (tags : option (list string))
    (uploaded_by : option string) (generate_ai_summary : bool) (x : Extracted) :
  extract_document_content env fs file_path = inr x ->
  exists d,
    process_and_save_document env fs db file_path filename file_size category
      tags uploaded_by generate_ai_summary
    = (with_documents (<[fresh (dom (documents db)) := d]> (documents db)) db,
       inr d) /\
    UniversalDocument.id d = fresh (dom (documents db)) /\
    UniversalDocument.filename d = filename /\
    UniversalDocument.file_path d = file_path /\
    UniversalDocument.file_size d = Some file_size /\
    UniversalDocument.full_text d = Some (x_full_text x) /\
    UniversalDocument.search_index d
      = Some (filename +:+ " " +:+ slice_to 5000%N (x_full_text x)) /\
    UniversalDocument.processed d = Some true.
Proof.
  intros Hx. unfold process_and_save_document. rewrite Hx. cbv zeta.
  destruct (generate_ai_summary && _).
  - unfold enrich. destruct (GeminiService.init env) as [e|gemini].
    + eexists. split; [reflexivity|]. repeat split; reflexivity.
    + eexists. split.
      { simpl. unfold with_documents. simpl. by rewrite insert_insert_eq. }
      repeat split; reflexivity.
  - eexists. split; [reflexivity|]. repeat split; reflexivity.
Qed.

Lemma fresh_id_unused (db : Session) :
  documents db !! fresh (dom (documents db)) = None.
Proof. apply not_elem_of_dom, is_fresh. Qed.

(** X7.  Ingestion never changes or loses a stored row, a member or a
    collection.  When it fails, the session is left as it was and the
    error is the one of the reading; when it succeeds, the new document
    is stored under an id that was not in use, and nothing else in the
    table changes. *)
Theorem ingestion_keeps_rows (env : Env) (fs : gmap string (list Byte.byte))
    (db : Session) (file_path filename : string) (file_size : float)
    (category : option string) (tags : option (list string))
    (uploaded_by : option string) (generate_ai_summary : bool) :
  let run := process_and_save_document env fs db file_path filename file_size
               category tags uploaded_by generate_ai_summary in
  keeps_rows db run.1 /\
  (keyed db -> keyed run.1) /\
  (forall e, run.2 = inl e ->
     run.1 = db /\ extract_document_content env fs file_path = inl e) /\
  (forall d, run.2 = inr d ->
     documents db !! UniversalDocument.id d = None
     /\ documents run.1 !! UniversalDocument.id d = Some d
     /\ forall k, k <> UniversalDocument.id d ->
          documents run.1 !! k = documents db !! k).
Proof.
  intros run. subst run.
  destruct (extract_document_content env fs file_path) as [e|x] eqn:Hx.
  - unfold process_and_save_document. rewrite Hx. simpl. split_and!.
    + by split_and!.
    + done.
    + by intros ? [= <-].
    + by intros ? [=].
  - destruct (process_run env fs db file_path filename file_size category tags
                uploaded_by generate_ai_summary x Hx)
      as (d & -> & Hid & _). unfold keeps_rows, keyed. simpl.
    pose proof (fresh_id_unused db) as Hfresh.
    split; [|split; [|split]].
    + split; [done|]. split; [done|]. intros k d0 Hk.
      rewrite lookup_insert_ne; [done|]. intros <-. congruence.
    + intros Hkeyed k d0. rewrite lookup_insert.
      case_decide as Hk; [intros [= <-]; congruence|]. apply Hkeyed.
    + intros ? [=].
    + intros ? [= <-]. rewrite Hid.
      split; [done|]. split; [apply lookup_insert_eq|].
      intros k Hk. by rewrite lookup_insert_ne.
Qed.

(** X8.  A PDF that opens but has no text on any page (a scan) is
    ingested all the same: the document is stored as processed, with its
    page count, an empty text, an empty summary and no keywords, and the
    gateway is not consulted even when an AI summary was asked for. *)
Theorem textless_pdf_is_ingested (env : Env) (fs : gmap string (list Byte.byte))
    (db : Session) (file_path filename : string) (file_size : float)
    (contents : list Byte.byte) (pdf : Pdf) (generate_ai_summary : bool) :
  fs !! file_path = Some contents ->
  bytes_startswith pdf_header contents = true ->
  pdfplumber_open env contents = inr pdf ->
  Forall (fun p => extract_text p = None \/ extract_text p = Some EmptyString)
         (pages pdf) ->
  exists db' d,
    process_and_save_document env fs db file_path filename file_size None None
      None generate_ai_summary = (db', inr d) /\
    UniversalDocument.page_count d = Some (Z.of_nat (length (pages pdf))) /\
    UniversalDocument.full_text d = Some EmptyString /\
    UniversalDocument.summary d = Some EmptyString /\
    UniversalDocument.keywords d = Some [] /\
    UniversalDocument.processed d = Some true /\
    UniversalDocument.ai_summary d = None /\
    UniversalDocument.ai_insights d = None.
Proof.
  intros Hfile Hhead%header_of_startswith Hpdf Hpages.
  unfold process_and_save_document, extract_document_content. cbv zeta.
  rewrite Hfile, Hhead, Hpdf. simpl negb. cbv iota.
  rewrite (page_texts_textless _ Hpages). simpl.
  rewrite andb_false_r. eexists _, _. split; [reflexivity|]. by repeat split.
Qed.

Lemma textless_pdf_is_ingested_witness :
  pdfplumber_open env_scanned pdf_header = inr scanned_pdf /\
  exists db' d,
    process_and_save_document env_scanned stored_pdf empty_db "uploads/a.pdf"
      "a.pdf" 5%Q None None None true = (db', inr d) /\
    UniversalDocument.page_count d = Some 2%Z /\
    UniversalDocument.ai_summary d = None.
Proof.
  split; [reflexivity|].
  destruct (textless_pdf_is_ingested env_scanned stored_pdf empty_db
              "uploads/a.pdf" "a.pdf" 5%Q pdf_header scanned_pdf true)
    as (db' & d & Hrun & Hpages & _ & _ & _ & _ & Hai & _).
  - reflexivity.
  - reflexivity.
  - reflexivity.
  - constructor; [by left|]. constructor; [by right|]. constructor.
  - exists db', d. by split_and!.
Defined.

End Ingestion.

(** ** The documents table and the collections *)

Section Store.
Import UniversalDocumentService.

Lemma elem_of_rows {A} (table : gmap Z A) (x : A) :
  x ∈ rows table <-> exists k, table !! k = Some x.
Proof.
  unfold rows. rewrite list_elem_of_fmap. split.
  - intros ([k y] & -> & Hin). exists k. by apply elem_of_map_to_list.
  - intros [k Hk]. exists (k, x). split; [done|]. by apply elem_of_map_to_list.
Qed.

Lemma length_rows {A} (table : gmap Z A) : length (rows table) = size table.
Proof. unfold rows. by rewrite length_fmap, length_map_to_list. Qed.

Lemma NoDup_rows (db : Session) : keyed db -> NoDup (rows (documents db)).
Proof.
  intros Hkeyed. unfold rows. apply NoDup_fmap_2_strong; [|apply NoDup_map_to_list].
  intros [k d] [k' d'] Hin Hin' Heq. simpl in Heq. subst d'.
  apply elem_of_map_to_list in Hin, Hin'.
  apply Hkeyed in Hin, Hin'. congruence.
Qed.

Lemma elem_of_Lfilter {A} (f : A -> bool) (l : list A) (x : A) :
  x ∈ List.filter f l <-> x ∈ l /\ f x = true.
Proof. by rewrite !list_elem_of_In, filter_In. Qed.

Lemma NoDup_Lfilter {A} (f : A -> bool) (l : list A) :
  NoDup l -> NoDup (List.filter f l).
Proof.
  induction 1 as [|x l Hx _ IH]; simpl; [constructor|].
  destruct (f x); [|done]. constructor; [|done].
  rewrite elem_of_Lfilter. tauto.
Qed.

Lemma delete_document_tables (db : Session) (document_id : Z) :
  documents (delete_document db document_id).1
    = delete document_id (documents db)
  /\ members (delete_document db document_id).1 = members db
  /\ collections (delete_document db document_id).1 = collections db.
Proof.
  unfold delete_document, get_document_by_id.
  destruct (documents db !! document_id) as [d|] eqn:Hd; simpl; [done|].
  split; [|done]. symmetry. by apply delete_id.
Qed.

Lemma keyed_delete (db db' : Session) (document_id : Z) :
  documents db' = delete document_id (documents db) -> keyed db -> keyed db'.
Proof.
  intros Hdocs Hkeyed k d. rewrite Hdocs, lookup_delete.
  case_decide; [done|]. apply Hkeyed.
Qed.

Lemma elem_of_collection_documents (db : Session) (collection_id : Z)
    (c : DocumentCollection.t) (d : UniversalDocument.t) :
  collections db !! collection_id = Some c ->
  keyed db ->
  d ∈ get_documents_in_collection db collection_id <->
  UniversalDocument.id d ∈ default [] (DocumentCollection.document_ids c)
  /\ documents db !! UniversalDocument.id d = Some d.
Proof.
  intros Hc Hkeyed. unfold get_documents_in_collection. rewrite Hc.
  destruct (DocumentCollection.document_ids c) as [[|i ids]|]; simpl.
  - split; [by intros ?%elem_of_nil|by intros [?%elem_of_nil _]].
  - rewrite elem_of_Lfilter, elem_of_rows, bool_decide_eq_true.
    split.
    + intros [[k Hk] Hid]. split; [done|]. by rewrite (Hkeyed k d Hk).
    + intros [Hid Hd]. split; [by eauto|done].
  - split; [by intros ?%elem_of_nil|by intros [?%elem_of_nil _]].
Qed.

(** X9.  Deleting a document reports success exactly when the id was
    stored; afterwards the id is not stored, every other row, the members
    and the collections are as before, and a second deletion of the same
    id reports failure. *)
Theorem delete_document_effect (db : Session) (document_id : Z) :
  let run := delete_document db document_id in
  (run.2 = true <-> is_Some (documents db !! document_id)) /\
  documents run.1 !! document_id = None /\
  (forall j, j <> document_id -> documents run.1 !! j = documents db !! j) /\
  members run.1 = members db /\ collections run.1 = collections db /\
  (delete_document run.1 document_id).2 = false /\
  (keyed db -> keyed run.1).
Proof.
  unfold delete_document, get_document_by_id, keyed.
  destruct (documents db !! document_id) as [d|] eqn:Hd; simpl.
  - rewrite lookup_delete_eq.
    split; [split; [by eauto|done]|]. split; [done|].
    split; [intros j Hj; by rewrite lookup_delete_ne|].
    do 3 (split; [done|]).
    intros Hkeyed k d0. rewrite lookup_delete.
    case_decide; [done|]. apply Hkeyed.
  - rewrite Hd. split; [split; [done|by intros [? ?]]|]. by repeat split.
Qed.

Lemma keyed_db_draft_on_shelf : keyed db_draft_on_shelf.
Proof.
  intros k d Hk. simpl in Hk. apply lookup_singleton_Some in Hk as [<- <-].
  reflexivity.
Qed.

(** X10.  The documents of a collection are the stored documents whose id
    is among the ids of the collection, each of them once: an id listed
    twice gives the document once, and an id that belongs to no stored
    document gives nothing. *)
Theorem collection_documents (db : Session) (collection_id : Z)
    (c : DocumentCollection.t) :
  collections db !! collection_id = Some c ->
  keyed db ->
  NoDup (get_documents_in_collection db collection_id) /\
  forall d, d ∈ get_documents_in_collection db collection_id <->
            UniversalDocument.id d
              ∈ default [] (DocumentCollection.document_ids c)
            /\ documents db !! UniversalDocument.id d = Some d.
Proof.
  intros Hc Hkeyed. split.
  - unfold get_documents_in_collection. rewrite Hc.
    destruct (DocumentCollection.document_ids c) as [[|i ids]|];
      [constructor| |constructor].
    by apply NoDup_Lfilter, NoDup_rows.
  - intros d. by apply elem_of_collection_documents.
Qed.

Lemma collection_documents_witness :
  collections db_draft_on_shelf !! 1%Z
    = Some (DocumentCollection.set_document_ids (Some [7; 9]%Z) (Some at_noon)
              shelf) /\
  draft ∈ get_documents_in_collection db_draft_on_shelf 1.
Proof.
  split; [reflexivity|].
  apply (collection_documents db_draft_on_shelf 1 _ eq_refl
           keyed_db_draft_on_shelf).
  split; [left|reflexivity].
Defined.

(** X11.  Deleting a document does not touch the collections: the
    collection keeps the id in its list, and its documents afterwards are
    the ones it had before without the deleted one. *)
Theorem deleted_document_stays_listed (db : Session)
    (collection_id document_id : Z) (c : DocumentCollection.t) :
  collections db !! collection_id = Some c ->
  keyed db ->
  let db' := (delete_document db document_id).1 in
  collections db' !! collection_id = Some c /\
  forall d, d ∈ get_documents_in_collection db' collection_id <->
            d ∈ get_documents_in_collection db collection_id
            /\ UniversalDocument.id d <> document_id.
Proof.
  intros Hc Hkeyed db'.
  destruct (delete_document_tables db document_id) as (Hdocs & _ & Hcoll).
  fold db' in Hdocs, Hcoll.
  assert (collections db' !! collection_id = Some c) as Hc'
    by (by rewrite Hcoll).
  split; [done|]. intros d.
  rewrite (elem_of_collection_documents db' collection_id c d Hc'
             (keyed_delete db db' document_id Hdocs Hkeyed)).
  rewrite (elem_of_collection_documents db collection_id c d Hc Hkeyed).
  rewrite Hdocs.
  destruct (decide (UniversalDocument.id d = document_id)) as [Heq|Hne].
  - rewrite Heq, lookup_delete_eq. split; [by intros [_ ?]|by intros [_ ?]].
  - rewrite lookup_delete_ne by done. tauto.
Qed.

Lemma deleted_document_stays_listed_witness :
  collections db_draft_on_shelf !! 1%Z
    = Some (DocumentCollection.set_document_ids (Some [7; 9]%Z) (Some at_noon)
              shelf) /\
  collections (delete_document db_draft_on_shelf 7).1 !! 1%Z
    = Some (DocumentCollection.set_document_ids (Some [7; 9]%Z) (Some at_noon)
              shelf).
Proof.
  split; [reflexivity|].
  apply (deleted_document_stays_listed db_draft_on_shelf 1 7 _ eq_refl
           keyed_db_draft_on_shelf).
Defined.

End Store.

Section CollectionsAndStats.
Import UniversalDocumentService.

(** X12.  A new collection gets an id that was not in use, the other
    collections stay, and it keeps the ids it is given as they are,
    repetitions included, so its document count is the length of the
    list; adding ids to it afterwards drops the repetitions, and the count
    becomes the number of distinct ids. *)
Theorem create_keeps_duplicates_add_drops_them (order : SetOrder) (env : Env)
    (db : Session) (name description : string) (ids new_ids : list Z) :
  let created := create_collection env db name description (Some ids) in
  let c := created.2 in
  collections db !! DocumentCollection.id c = None /\
  collections created.1 !! DocumentCollection.id c = Some c /\
  (forall k c0, collections db !! k = Some c0 ->
                collections created.1 !! k = Some c0) /\
  DocumentCollection.document_ids c = Some ids /\
  DocumentCollection.to_dict c !! "document_count"
    = Some (JInt (Z.of_nat (length ids))) /\
  exists db2 c2,
    add_documents_to_collection env created.1 (DocumentCollection.id c) new_ids
      = (db2, Some c2) /\
    DocumentCollection.to_dict c2 !! "document_count"
      = Some (JInt (Z.of_nat (length (remove_dups (ids ++ new_ids))))).
Proof.
  intros created c. subst c created. unfold create_collection. cbv zeta. simpl.
  assert (collections db !! fresh (dom (collections db)) = None) as Hfresh
    by apply not_elem_of_dom, is_fresh.
  assert (match ids with [] => [] | i :: l => i :: l end = ids) as Hids
    by (by destruct ids).
  rewrite Hids. split_and!.
  - done.
  - apply lookup_insert_eq.
  - intros k c0 Hk. rewrite lookup_insert_ne; [done|]. intros <-. congruence.
  - done.
  - reflexivity.
  - unfold add_documents_to_collection. simpl. rewrite lookup_insert_eq.
    eexists _, _. split; [reflexivity|].
    change (Some (JInt (Z.of_nat (length (list_of_set (ids ++ new_ids)))))
            = Some (JInt (Z.of_nat (length (remove_dups (ids ++ new_ids)))))).
    by rewrite list_of_set_perm.
Qed.

Lemma sum_counts_bump (w : string) (l : list (string * nat)) :
  sum_counts (bump w l) = S (sum_counts l).
Proof.
  unfold sum_counts. induction l as [|[k v] l IH]; simpl; [done|].
  destruct (String.eqb k w); simpl; [lia|]. rewrite IH. lia.
Qed.

Lemma sum_counts_tally {A} (f : A -> string) (l : list A)
    (acc : list (string * nat)) :
  sum_counts (fold_left (fun counts x => bump (f x) counts) l acc)
  = sum_counts acc + length l.
Proof.
  revert acc. induction l as [|x l IH]; intros acc; simpl; [lia|].
  rewrite IH, sum_counts_bump. lia.
Qed.

Lemma bump_keys_NoDup (w : string) (l : list (string * nat)) :
  NoDup l.*1 -> NoDup (bump w l).*1.
Proof.
  assert (forall l : list (string * nat), forall k, k ∈ (bump w l).*1 -> k = w \/ k ∈ l.*1) as Hin.
  { clear l. induction l as [|[k v] l IH]; intros k0; simpl.
    - intros ->%list_elem_of_singleton. by left.
    - destruct (String.eqb_spec k w) as [->|Hne]; csimpl.
      + intros Hk. by right.
      + intros [->|Hk]%elem_of_cons; [right; left|].
        destruct (IH _ Hk); [by left|right; by right]. }
  induction l as [|[k v] l IH]; csimpl; intros Hnd.
  - apply NoDup_singleton.
  - apply NoDup_cons in Hnd as [Hk Hnd].
    destruct (String.eqb_spec k w) as [->|Hne]; csimpl.
    + by constructor.
    + constructor; [|by apply IH]. intros [->|Hk']%Hin; done.
Qed.

Lemma tally_keys_NoDup {A} (f : A -> string) (l : list A)
    (acc : list (string * nat)) :
  NoDup acc.*1 ->
  NoDup (fold_left (fun counts x => bump (f x) counts) l acc).*1.
Proof.
  revert acc. induction l as [|x l IH]; intros acc Hacc; simpl; [done|].
  by apply IH, bump_keys_NoDup.
Qed.

(** X13.  In the statistics the total is the number of stored documents,
    the counts by type list every type once and add up to the total (a
    document with an empty type counts as UNKNOWN), and the processed and
    unprocessed counts add up to the total, neither being negative. *)
Theorem stats_add_up (db : Session) :
  let stats := get_document_stats db in
  total_documents stats = size (documents db) /\
  sum_counts (documents_by_type stats) = total_documents stats /\
  NoDup (documents_by_type stats).*1 /\
  processed_documents stats <= total_documents stats /\
  (Z.of_nat (processed_documents stats) + unprocessed_documents stats
   = Z.of_nat (total_documents stats))%Z /\
  (0 <= unprocessed_documents stats)%Z.
Proof.
  unfold get_document_stats. cbv zeta. simpl.
  assert (length (List.filter
            (fun d => bool_decide (UniversalDocument.processed d = Some true))
            (rows (documents db))) <= length (rows (documents db))) as Hle
    by apply filter_length_le.
  split_and!.
  - apply length_rows.
  - by rewrite sum_counts_tally.
  - apply tally_keys_NoDup. constructor.
  - done.
  - lia.
  - lia.
Qed.

End CollectionsAndStats.

(** ** Listing the documents *)

Section Listing.
Import UniversalDocumentService.
Context `{Engine}.

Lemma filter_if_spec {A} (b : bool) (f : A -> bool) (l : list A) :
  (NoDup l -> NoDup (if b then List.filter f l else l)) /\
  forall x, x ∈ (if b then List.filter f l else l) ->
            x ∈ l /\ (b = true -> f x = true).
Proof.
  destruct b.
  - split; [apply NoDup_Lfilter|]. intros x Hx%elem_of_Lfilter. tauto.
  - split; [done|]. intros x Hx. by split.
Qed.

Lemma elem_of_take_drop {A} (n m : nat) (l : list A) (x : A) :
  x ∈ take n (drop m l) -> x ∈ l.
Proof.
  intros Hx. eapply elem_of_sublist; [exact Hx|].
  etrans; [apply sublist_take|apply sublist_drop].
Qed.

(** X14.  A listing has at most [limit] documents, none of them twice,
    every one a stored document that satisfies each filter that was given
    (a filter that is absent or empty selects nothing out); without
    filters and without skipping, a listing has [limit] documents or all
    of them, whichever is less. *)
Theorem listing_bounded_and_filtered (db : Session) (skip limit : nat)
    (document_type category search_query : option string) :
  keyed db ->
  let result :=
    get_all_documents db skip limit document_type category search_query in
  length result <= limit /\
  NoDup result /\
  (forall d, d ∈ result ->
     documents db !! UniversalDocument.id d = Some d
     /\ (truthy document_type = true ->
         Some (UniversalDocument.document_type d) = document_type)
     /\ (truthy category = true -> UniversalDocument.category d = category)
     /\ (truthy search_query = true ->
         column_contains (UniversalDocument.search_index d)
           (default EmptyString search_query) = true)) /\
  length (get_all_documents db 0 limit None None None)
    = limit `min` size (documents db).
Proof.
  intros Hkeyed result. subst result. unfold get_all_documents. cbv zeta.
  set (q0 := rows (documents db)).
  set (q1 := if truthy document_type then List.filter _ q0 else q0).
  set (q2 := if truthy category then List.filter _ q1 else q1).
  set (q3 := if truthy search_query then List.filter _ q2 else q2).
  destruct (filter_if_spec (truthy document_type)
              (fun d => bool_decide
                 (Some (UniversalDocument.document_type d) = document_type)) q0)
    as [Hnd1 Hin1].
  destruct (filter_if_spec (truthy category)
              (fun d => bool_decide (UniversalDocument.category d = category)) q1)
    as [Hnd2 Hin2].
  destruct (filter_if_spec (truthy search_query)
              (fun d => column_contains (UniversalDocument.search_index d)
                          (default EmptyString search_query)) q2)
    as [Hnd3 Hin3].
  fold q1 in Hnd1, Hin1. fold q2 in Hnd2, Hin2. fold q3 in Hnd3, Hin3.
  assert (NoDup q0) as Hnd0 by (by apply NoDup_rows).
  split_and!.
  - rewrite length_take. lia.
  - apply (sublist_NoDup _ (order_by_uploaded_at_desc q3)).
    + rewrite order_by_uploaded_at_desc_perm. by apply Hnd3, Hnd2, Hnd1.
    + etrans; [apply sublist_take|apply sublist_drop].
  - intros d Hd%elem_of_take_drop.
    rewrite order_by_uploaded_at_desc_perm in Hd.
    apply Hin3 in Hd as [Hd H3]. apply Hin2 in Hd as [Hd H2].
    apply Hin1 in Hd as [Hd H1].
    apply elem_of_rows in Hd as [k Hk].
    split_and!.
    + by rewrite (Hkeyed k d Hk).
    + intros Ht. apply H1 in Ht. by apply bool_decide_eq_true in Ht.
    + intros Ht. apply H2 in Ht. by apply bool_decide_eq_true in Ht.
    + done.
  - change (length (take limit (drop 0 (order_by_uploaded_at_desc q0)))
            = limit `min` size (documents db)).
    rewrite drop_0, length_take, order_by_uploaded_at_desc_perm.
    unfold q0. by rewrite length_rows.
Qed.

End Listing.

Lemma keyed_db_draft : keyed db_draft.
Proof.
  intros k d Hk. simpl in Hk. apply lookup_singleton_Some in Hk as [<- <-].
  reflexivity.
Qed.

Lemma listing_bounded_and_filtered_witness :
  (forall d,
     d ∈ @UniversalDocumentService.get_all_documents newest_first db_draft 0 10
           (Some "HIPMI_PO") None None ->
     documents db_draft !! UniversalDocument.id d = Some d) /\
  length (@UniversalDocumentService.get_all_documents newest_first db_draft 0
            10 None None None) = 10 `min` size (documents db_draft).
Proof.
  destruct (@listing_bounded_and_filtered newest_first db_draft 0 10
              (Some "HIPMI_PO") None None keyed_db_draft)
    as (_ & _ & Hin & Hlen).
  split; [|exact Hlen]. intros d Hd. by apply Hin.
Defined.

(** ** The upload and delete routes *)

Section UploadRun.
Import UniversalDocumentService UniversalDocuments.

Variables (env : Env) (w : World) (filename : string).
Variable contents : list Byte.byte.
Variables (category tags : option string) (generate_ai_summary : bool).

Hypothesis name_ok : endswith ".pdf" (lower filename) = true.
Hypothesis size_ok : 1024 <= length contents.
Hypothesis header_ok : bytes_startswith pdf_header contents = true.

Let file_path := "uploads/" +:+ filename.
Let fs' := <[file_path := contents]> (fs w).

Lemma upload_body_valid :
  upload_body env w filename contents category tags generate_ai_summary
  = let '(db', result) :=
      process_and_save_document env fs' (db w) file_path filename
        (inject_Z (Z.of_nat (length contents))) category
        (Some (if truthy tags then strip <$> split_comma (default EmptyString tags)
               else []))
        None generate_ai_summary in
    ({| fs := fs'; db := db' |}, result).
Proof.
  unfold upload_body. cbv zeta.
  rewrite (proj2 (Nat.ltb_ge _ _) size_ok), header_ok. reflexivity.
Qed.

Lemma stored_file_extracts :
  extract_document_content env fs' file_path
  = match pdfplumber_open env contents with
    | inl e => inl (Exception ("Error processing PDF: " +:+ str e))
    | inr pdf =>
        match extract_document_content env fs' file_path with
        | inr x => inr x
        | inl e => inl e
        end
    end
  /\ (forall pdf, pdfplumber_open env contents = inr pdf ->
        exists x, extract_document_content env fs' file_path = inr x).
Proof.
  unfold extract_document_content, fs'. cbv zeta.
  rewrite lookup_insert_eq, (header_of_startswith _ header_ok). simpl negb. cbv iota.
  destruct (pdfplumber_open env contents) as [e|pdf]; split; try done.
  intros ? [= <-]. by eexists.
Qed.

Lemma upload_parse_failure (e0 : exn) :
  pdfplumber_open env contents = inl e0 ->
  upload_any_document env w (Some filename) contents category tags
    generate_ai_summary
  = ({| fs := fs'; db := db w |},
     inl (HTTPException 500
            ("Error processing document: Error processing PDF: " +:+ str e0))).
Proof.
  intros Hpdf. unfold upload_any_document. rewrite name_ok. simpl negb. cbv iota.
  rewrite upload_body_valid. unfold process_and_save_document.
  rewrite (proj1 stored_file_extracts), Hpdf. reflexivity.
Qed.

Lemma upload_accepted (pdf : Pdf) :
  pdfplumber_open env contents = inr pdf ->
  exists d,
    upload_any_document env w (Some filename) contents category tags
      generate_ai_summary
    = ({| fs := fs';
          db := with_documents
                  (<[fresh (dom (documents (db w))) := d]> (documents (db w)))
                  (db w) |}, inr d) /\
    UniversalDocument.id d = fresh (dom (documents (db w))) /\
    UniversalDocument.filename d = filename /\
    UniversalDocument.file_path d = file_path /\
    UniversalDocument.file_size d
      = Some (inject_Z (Z.of_nat (length contents))) /\
    UniversalDocument.processed d = Some true.
Proof.
  intros Hpdf. destruct (proj2 stored_file_extracts pdf Hpdf) as [x Hx].
  unfold upload_any_document. rewrite name_ok. simpl negb. cbv iota.
  rewrite upload_body_valid.
  destruct (process_run env fs' (db w) file_path filename
              (inject_Z (Z.of_nat (length contents))) category
              (Some (if truthy tags
                     then strip <$> split_comma (default EmptyString tags)
                     else []))
              None generate_ai_summary x Hx)
    as (d & -> & Hid & Hname & Hpath & Hsize & _ & _ & Hproc).
  exists d. by repeat split.
Qed.

Lemma upload_stored (pdf : Pdf) :
  pdfplumber_open env contents = inr pdf ->
  exists w' d,
    upload_any_document env w (Some filename) contents category tags
      generate_ai_summary = (w', inr d) /\
    fs w' = <[file_path := contents]> (fs w) /\
    documents (db w) !! UniversalDocument.id d = None /\
    documents (db w') !! UniversalDocument.id d = Some d /\
    keeps_rows (db w) (db w') /\
    UniversalDocument.file_path d = file_path /\
    UniversalDocument.file_size d
      = Some (inject_Z (Z.of_nat (length contents))) /\
    UniversalDocument.processed d = Some true.
Proof.
  intros Hpdf.
  destruct (upload_accepted pdf Hpdf) as (d & -> & Hid & _ & Hpath & Hsize & Hproc).
  pose proof (fresh_id_unused (db w)) as Hfresh.
  eexists _, d. split; [reflexivity|]. simpl. rewrite Hid.
  split; [done|]. split; [done|]. split; [apply lookup_insert_eq|].
  split; [|done].
  split; [done|]. split; [done|]. intros k d0 Hk. simpl.
  rewrite lookup_insert_ne; [done|]. intros <-. congruence.
Qed.

End UploadRun.

Section Upload2.
Import UniversalDocumentService UniversalDocuments.

Lemma valid_upload_example : valid_upload "a.pdf" kilobyte_pdf.
Proof.
  split; [reflexivity|]. split; [reflexivity|]. split; [|reflexivity].
  apply Nat.leb_le. reflexivity.
Qed.

(** X15.  The upload route answers 400 exactly when the extension check
    fails, and then nothing is written; once the name is accepted, every
    error of the route is a 500 whose detail starts with "Error processing
    document: ". *)
Theorem upload_status (env : Env) (w : World) (filename : option string)
    (contents : list Byte.byte) (category tags : option string)
    (generate_ai_summary : bool) :
  let run := upload_any_document env w filename contents category tags
               generate_ai_summary in
  (accepted_name filename = false ->
   run = (w, inl (HTTPException 400 "Only PDF files are allowed"))) /\
  (accepted_name filename = true ->
   forall e, run.2 = inl e ->
     exists msg, e = HTTPException 500 ("Error processing document: " +:+ msg)).
Proof.
  unfold upload_any_document, accepted_name.
  destruct filename as [f|]; [|by split].
  destruct (endswith ".pdf" (lower f)); simpl negb; cbv iota; split; try done.
  intros _ e.
  destruct (upload_body env w f contents category tags generate_ai_summary)
    as [w' [e0|d]]; simpl; [|done].
  intros [= <-]. by eexists.
Qed.

Lemma upload_status_witness :
  accepted_name (Some "notes.txt") = false /\
  upload_any_document env_gateway_down {| fs := ∅; db := empty_db |}
    (Some "notes.txt") kilobyte_pdf None None false
  = ({| fs := ∅; db := empty_db |},
     inl (HTTPException 400 "Only PDF files are allowed")).
Proof.
  split; [reflexivity|].
  apply (upload_status env_gateway_down {| fs := ∅; db := empty_db |}
           (Some "notes.txt") kilobyte_pdf None None false).
  reflexivity.
Defined.

(** X16.  When a valid upload cannot be parsed by the PDF reader, the
    route answers 500 with the reader's message and no document is
    created, but the file has already been written and stays on disk. *)
Theorem failed_parse_leaves_the_file (env : Env) (w : World)
    (filename : string) (contents : list Byte.byte)
    (category tags : option string) (generate_ai_summary : bool) (e0 : exn) :
  valid_upload filename contents ->
  pdfplumber_open env contents = inl e0 ->
  upload_any_document env w (Some filename) contents category tags
    generate_ai_summary
  = ({| fs := <["uploads/" +:+ filename := contents]> (fs w); db := db w |},
     inl (HTTPException 500
            ("Error processing document: Error processing PDF: " +:+ str e0))).
Proof.
  intros (Hname & _ & Hlen & Hhead). by apply upload_parse_failure.
Qed.

Lemma failed_parse_leaves_the_file_witness :
  valid_upload "a.pdf" kilobyte_pdf /\
  fs (upload_any_document env_reader_down {| fs := ∅; db := empty_db |}
        (Some "a.pdf") kilobyte_pdf None None false).1 !! "uploads/a.pdf"
  = Some kilobyte_pdf.
Proof.
  split; [exact valid_upload_example|].
  rewrite (failed_parse_leaves_the_file env_reader_down
             {| fs := ∅; db := empty_db |} "a.pdf" kilobyte_pdf None None false
             (Exception "No /Root object") valid_upload_example eq_refl).
  apply lookup_insert_eq.
Defined.

(** X17.  A valid upload that the PDF reader can open succeeds: the file
    is written under the upload directory, the document is stored under
    an id that was not in use, with that path, the size of the upload and
    the processed flag, and no stored row, member or collection is
    changed. *)
Theorem accepted_upload_is_stored (env : Env) (w : World)
    (filename : string) (contents : list Byte.byte)
    (category tags : option string) (generate_ai_summary : bool) (pdf : Pdf) :
  valid_upload filename contents ->
  pdfplumber_open env contents = inr pdf ->
  exists w' d,
    upload_any_document env w (Some filename) contents category tags
      generate_ai_summary = (w', inr d) /\
    fs w' = <["uploads/" +:+ filename := contents]> (fs w) /\
    documents (db w) !! UniversalDocument.id d = None /\
    documents (db w') !! UniversalDocument.id d = Some d /\
    keeps_rows (db w) (db w') /\
    UniversalDocument.file_path d = "uploads/" +:+ filename /\
    UniversalDocument.file_size d
      = Some (inject_Z (Z.of_nat (length contents))) /\
    UniversalDocument.processed d = Some true.
Proof.
  intros (Hname & _ & Hlen & Hhead) Hpdf. by eapply upload_stored.
Qed.

Lemma accepted_upload_is_stored_witness :
  valid_upload "a.pdf" kilobyte_pdf /\
  exists w' d,
    upload_any_document env_gateway_down {| fs := ∅; db := empty_db |}
      (Some "a.pdf") kilobyte_pdf None None false = (w', inr d) /\
    UniversalDocument.file_path d = "uploads/a.pdf".
Proof.
  split; [exact valid_upload_example|].
  destruct (accepted_upload_is_stored env_gateway_down
              {| fs := ∅; db := empty_db |} "a.pdf" kilobyte_pdf None None
              false one_page_pdf valid_upload_example eq_refl)
    as (w' & d & Hrun & _ & _ & _ & _ & Hpath & _).
  exists w', d. by split.
Defined.

(** X18.  Uploading two valid files under the same name gives two stored
    documents with different ids and the same file path, and the file on
    disk holds the bytes of the second upload: the first document's file
    has been overwritten. *)
Theorem same_name_twice (env : Env) (w : World) (filename : string)
    (first second : list Byte.byte) (pdf1 pdf2 : Pdf) :
  valid_upload filename first ->
  valid_upload filename second ->
  pdfplumber_open env first = inr pdf1 ->
  pdfplumber_open env second = inr pdf2 ->
  exists w1 d1 w2 d2,
    upload_any_document env w (Some filename) first None None false
      = (w1, inr d1) /\
    upload_any_document env w1 (Some filename) second None None false
      = (w2, inr d2) /\
    fs w2 !! ("uploads/" +:+ filename) = Some second /\
    UniversalDocument.id d1 <> UniversalDocument.id d2 /\
    documents (db w2) !! UniversalDocument.id d1 = Some d1 /\
    documents (db w2) !! UniversalDocument.id d2 = Some d2 /\
    UniversalDocument.file_path d1 = UniversalDocument.file_path d2.
Proof.
  intros (Hname & _ & Hlen1 & Hhead1) (_ & _ & Hlen2 & Hhead2) Hpdf1 Hpdf2.
  destruct (upload_stored env w filename first None None false
              Hname Hlen1 Hhead1 pdf1 Hpdf1)
    as (w1 & d1 & Hrun1 & Hfs1 & Hnew1 & Hin1 & Hkeep1 & Hpath1 & _).
  destruct (upload_stored env w1 filename second None None false
              Hname Hlen2 Hhead2 pdf2 Hpdf2)
    as (w2 & d2 & Hrun2 & Hfs2 & Hnew2 & Hin2 & (_ & _ & Hkeep2) & Hpath2 & _).
  exists w1, d1, w2, d2. split_and!; try done.
  - rewrite Hfs2. apply lookup_insert_eq.
  - intros Heq. rewrite <-Heq in Hnew2. congruence.
  - by apply Hkeep2.
  - by rewrite Hpath1, Hpath2.
Qed.

Lemma same_name_twice_witness :
  valid_upload "a.pdf" kilobyte_pdf /\
  valid_upload "a.pdf" (kilobyte_pdf ++ [Byte.x0a]) /\
  exists w1 d1 w2 d2,
    upload_any_document env_gateway_down {| fs := ∅; db := empty_db |}
      (Some "a.pdf") kilobyte_pdf None None false = (w1, inr d1) /\
    upload_any_document env_gateway_down w1 (Some "a.pdf")
      (kilobyte_pdf ++ [Byte.x0a]) None None false = (w2, inr d2) /\
    fs w2 !! "uploads/a.pdf" = Some (kilobyte_pdf ++ [Byte.x0a]).
Proof.
  assert (valid_upload "a.pdf" (kilobyte_pdf ++ [Byte.x0a])) as Hsecond.
  { split; [reflexivity|]. split; [reflexivity|]. split; [|reflexivity].
    apply Nat.leb_le. reflexivity. }
  split; [exact valid_upload_example|]. split; [exact Hsecond|].
  destruct (same_name_twice env_gateway_down {| fs := ∅; db := empty_db |}
              "a.pdf" kilobyte_pdf (kilobyte_pdf ++ [Byte.x0a]) one_page_pdf
              one_page_pdf valid_upload_example Hsecond eq_refl eq_refl)
    as (w1 & d1 & w2 & d2 & Hrun1 & Hrun2 & Hfile & _).
  exists w1, d1, w2, d2. by split_and!.
Defined.

(** X19.  Deleting an uploaded document through the delete route removes
    its row and leaves its file on disk; deleting it again answers 404. *)
Theorem delete_leaves_the_file (env : Env) (w : World) (filename : string)
    (contents : list Byte.byte) (category tags : option string)
    (generate_ai_summary : bool) (pdf : Pdf) :
  valid_upload filename contents ->
  pdfplumber_open env contents = inr pdf ->
  exists w1 d w2,
    upload_any_document env w (Some filename) contents category tags
      generate_ai_summary = (w1, inr d) /\
    delete_document w1 (UniversalDocument.id d) = (w2, inr tt) /\
    documents (db w2) !! UniversalDocument.id d = None /\
    fs w2 !! ("uploads/" +:+ filename) = Some contents /\
    delete_document w2 (UniversalDocument.id d)
      = (w2, inl (HTTPException 404 "Document not found")).
Proof.
  intros (Hname & _ & Hlen & Hhead) Hpdf.
  destruct (upload_stored env w filename contents category tags
              generate_ai_summary Hname Hlen Hhead pdf Hpdf)
    as (w1 & d & Hrun & Hfs & _ & Hin & _).
  exists w1, d. unfold delete_document, UniversalDocumentService.delete_document,
    get_document_by_id. rewrite Hin. simpl.
  eexists. split; [done|]. split; [reflexivity|]. simpl.
  rewrite lookup_delete_eq, Hfs, lookup_insert_eq. by repeat split.
Qed.

Lemma delete_leaves_the_file_witness :
  valid_upload "a.pdf" kilobyte_pdf /\
  exists w1 d w2,
    upload_any_document env_gateway_down {| fs := ∅; db := empty_db |}
      (Some "a.pdf") kilobyte_pdf None None false = (w1, inr d) /\
    delete_document w1 (UniversalDocument.id d) = (w2, inr tt) /\
    fs w2 !! "uploads/a.pdf" = Some kilobyte_pdf.
Proof.
  split; [exact valid_upload_example|].
  destruct (delete_leaves_the_file env_gateway_down
              {| fs := ∅; db := empty_db |} "a.pdf" kilobyte_pdf None None
              false one_page_pdf valid_upload_example eq_refl)
    as (w1 & d & w2 & Hrun & Hdel & _ & Hfile & _).
  exists w1, d, w2. by split_and!.
Defined.

End Upload2.

(** ** The gateway *)

Section Gateway.

Lemma init_inr (env : Env) (gemini : GeminiService.t) :
  GeminiService.init env = inr gemini ->
  GeminiService.api_key gemini = GEMINI_API_KEY env
  /\ GeminiService.client gemini = truthy (GEMINI_API_KEY env).
Proof.
  unfold GeminiService.init.
  destruct (GEMINI_API_KEY env) as [[|c k]|] eqn:Hkey.
  - by intros [= <-].
  - destruct (genai_Client env (String c k)); [done|]. by intros [= <-].
  - by intros [= <-].
Qed.

(** X20.  A service that was constructed has a client exactly when it
    has a key, so its three operations never report a missing client:
    without a key each returns the text "API Key not configured" and does
    not call the gateway; with a key each returns the text of the gateway,
    or, when the call raises or comes back empty, a text that starts with
    "Gemini API call failed: " (after "Error: " for the summary and the
    answer, under the key "error" for the key information).  None of the
    three raises. *)
Theorem constructed_service_answers (env : Env) (gemini : GeminiService.t)
    (text question context : string) (max_length : Z) :
  GeminiService.init env = inr gemini ->
  let reply prompt :=
    match generate_content env prompt with
    | inr (Some answer) => inr answer
    | inr None =>
        inl "Gemini API call failed: Gemini API returned empty response"
    | inl e => inl ("Gemini API call failed: " +:+ str e)
    end in
  GeminiService.client gemini = truthy (GeminiService.api_key gemini) /\
  GeminiService.summarize_text gemini env text max_length
    = (if truthy (GeminiService.api_key gemini)
       then match reply (GeminiService.summarize_prompt text max_length) with
            | inr answer => answer
            | inl msg => "Error: " +:+ msg
            end
       else "API Key not configured") /\
  GeminiService.answer_question gemini env question context
    = (if truthy (GeminiService.api_key gemini)
       then match reply (GeminiService.answer_prompt question context) with
            | inr answer => answer
            | inl msg => "Error: " +:+ msg
            end
       else "API Key not configured") /\
  GeminiService.extract_key_info gemini env text
    = (if truthy (GeminiService.api_key gemini)
       then match reply (GeminiService.key_info_prompt text) with
            | inr answer => ("info", answer)
            | inl msg => ("error", msg)
            end
       else ("error", "API Key not configured")).
Proof.
  intros [Hkey Hclient]%init_inr reply. rewrite <-Hkey in Hclient.
  split; [done|].
  unfold GeminiService.summarize_text, GeminiService.answer_question,
    GeminiService.extract_key_info, GeminiService._call_api, reply.
  rewrite Hclient.
  destruct (truthy (GeminiService.api_key gemini)); simpl; [|done].
  split_and!.
  - by destruct (generate_content env _) as [e|[t|]].
  - by destruct (generate_content env _) as [e|[t|]].
  - by destruct (generate_content env _) as [e|[t|]].
Qed.

Lemma constructed_service_answers_witness :
  GeminiService.init env_gateway_down
    = inr {| GeminiService.api_key := Some "key";
             GeminiService.client := true |} /\
  GeminiService.extract_key_info
    {| GeminiService.api_key := Some "key"; GeminiService.client := true |}
    env_gateway_down "Anggaran Dasar"
  = ("error", "Gemini API call failed: timeout").
Proof.
  split; [reflexivity|].
  destruct (constructed_service_answers env_gateway_down
              {| GeminiService.api_key := Some "key";
                 GeminiService.client := true |}
              "Anggaran Dasar" "Apa asas HIPMI?" "Anggaran Dasar" 200 eq_refl)
    as (_ & _ & _ & Hinfo).
  exact Hinfo.
Defined.

End Gateway.

(** ** The role count of handler 1 *)

Section Like.

Lemma like_percent (p s : string) :
  like (String "%" p) s
  = like p s || match s with
                | EmptyString => false
                | String _ s' => like (String "%" p) s'
                end.
Proof. by destruct s. Qed.

Lemma like_trailing_percent (s : string) : like "%" s = true.
Proof. induction s as [|c s IH]; [done|]. rewrite like_percent. by rewrite IH. Qed.

Lemma like_literal_prefix (x s : string) :
  wildcard_free x = true ->
  like (x +:+ "%") s = startswith x s.
Proof.
  revert s. induction x as [|a x IH]; intros s Hx.
  - simpl String.append. rewrite like_trailing_percent. by destruct s.
  - unfold wildcard_free in Hx. simpl in Hx.
    apply andb_true_iff in Hx as [Ha Hx]. apply negb_true_iff in Ha.
    apply orb_false_iff in Ha as [Ha1 Ha2].
    simpl. fold (code a). rewrite Ha1. destruct s as [|b s]; [done|].
    fold (code a). rewrite Ha2. simpl. rewrite (IH s Hx).
    by destruct (Ascii.eqb a b).
Qed.

(** Between two percent signs, a pattern without wildcards is a plain
    substring test. *)
Lemma like_contains (x s : string) :
  wildcard_free x = true ->
  like ("%" +:+ x +:+ "%") s = contains x s.
Proof.
  intros Hx. change ("%" +:+ x +:+ "%") with (String "%" (x +:+ "%")).
  induction s as [|c s IH].
  - rewrite like_percent, like_literal_prefix by done. by destruct x.
  - rewrite like_percent, like_literal_prefix, IH by done. reflexivity.
Qed.

Lemma wildcard_free_lower (s : string) :
  wildcard_free (lower s) = wildcard_free s.
Proof.
  unfold wildcard_free. induction s as [|c s IH]; simpl; [done|].
  rewrite IH. f_equal. by destruct c as [[] [] [] [] [] [] [] []].
Qed.

Lemma lower_like_contains (column : option string) (needle : string) :
  wildcard_free needle = true ->
  Sql.lower_like column needle
  = match column with
    | Some v => contains (lower needle) (lower v)
    | None => false
    end.
Proof.
  intros H. unfold Sql.lower_like. destruct column as [v|]; [|done].
  apply like_contains. by rewrite wildcard_free_lower.
Qed.

Lemma lower_like_percent (column : option string) :
  Sql.lower_like column "%" = bool_decide (is_Some column).
Proof.
  unfold Sql.lower_like. destruct column as [v|]; [|done].
  change ("%" +:+ lower "%" +:+ "%") with (String "%" (String "%" "%")).
  rewrite bool_decide_eq_true_2 by eauto.
  induction (lower v) as [|c s IH]; [done|].
  rewrite like_percent, like_percent, like_trailing_percent. done.
Qed.

End Like.

Section Handlers.
Import Chat.

(** X21.  When handler 1 is triggered and the query quotes a text, the
    handler always answers, with the number of members whose role matches
    the quoted text as a [LIKE] pattern: for a text without percent sign
    and underscore that is the number of members whose role contains it,
    case ignored; for the text "%" it is the number of all members that
    have a role. *)
Theorem quoted_role_is_a_pattern (q : string) (db : Session) (role : string) :
  trigger_1 q = true ->
  search_quoted q = Some role ->
  exists text count,
    handle_jabatan_query q db
    = Some {| type := "specific_query"; answer := text;
              data := JDict [("jabatan", JStr role); ("count", JNat count)] |}
    /\ (wildcard_free role = true ->
        count = length (List.filter
                  (fun m => match Member.jabatan m with
                            | Some j => contains (lower role) (lower j)
                            | None => false
                            end) (members db)))
    /\ (role = "%" ->
        count = length (List.filter
                  (fun m => bool_decide (is_Some (Member.jabatan m)))
                  (members db))).
Proof.
  intros Ht Hq. unfold handle_jabatan_query. fold (trigger_1 q).
  rewrite Ht, Hq. simpl negb. cbv iota. unfold count_rows.
  eexists _, _. split; [reflexivity|]. split.
  - intros Hfree.
    by rewrite (filter_ext _ _ (fun m => lower_like_contains (Member.jabatan m) role Hfree)).
  - intros ->.
    by rewrite (filter_ext _ _ (fun m => lower_like_percent (Member.jabatan m))).
Qed.

Lemma quoted_role_is_a_pattern_witness :
  trigger_1 "berapa pengurus dengan jabatan 'ketua'" = true /\
  exists text,
    handle_jabatan_query "berapa pengurus dengan jabatan 'ketua'" db_budi
    = Some {| type := "specific_query"; answer := text;
              data := JDict [("jabatan", JStr "ketua"); ("count", JNat 1)] |}.
Proof.
  split; [reflexivity|].
  destruct (quoted_role_is_a_pattern "berapa pengurus dengan jabatan 'ketua'"
              db_budi "ketua" eq_refl eq_refl)
    as (text & count & Hrun & Hcount & _).
  exists text. rewrite Hrun, (Hcount eq_refl). reflexivity.
Defined.

Lemma router_reads_members (query : string) (db db' : Session) :
  members db = members db' ->
  detect_specific_query query db = detect_specific_query query db'.
Proof.
  intros H. unfold detect_specific_query, handlers, first_result,
    handle_jabatan_query, handle_bidang_usaha_query, bidang_count,
    handle_kta_query, handle_gender_query, handle_detail_pengurus_query,
    handle_kontak_query, handle_perusahaan_query, handle_total_karyawan_query,
    count_rows, first_by_name.
  by rewrite H.
Qed.

Lemma wa_in_karyawan (q : string) :
  contains "karyawan" q = true -> contains "wa" q = true.
Proof. apply (contains_infix "karya" "wa" "n"). Qed.

Ltac reply_shape :=
  repeat match goal with
         | |- context [match ?x with _ => _ end] => destruct x
         end;
  intros r H; try discriminate; injection H as <-; simpl; eauto.

Lemma key_1 q db r :
  handle_jabatan_query q db = Some r ->
  reply_key r = Some "jabatan" \/ reply_key r = Some "jabatan_counts".
Proof. revert r. unfold handle_jabatan_query, reply_key. reply_shape. Qed.

Lemma key_2 q db r :
  handle_bidang_usaha_query q db = Some r -> reply_key r = Some "bidang_usaha".
Proof.
  revert r. unfold handle_bidang_usaha_query, bidang_count, reply_key.
  reply_shape.
Qed.

Lemma key_3 q query db r :
  handle_kta_query q query db = Some r ->
  reply_key r = Some "status_kta" \/ reply_key r = Some "status_counts".
Proof. revert r. unfold handle_kta_query, reply_key. reply_shape. Qed.

Lemma key_4 q db r :
  handle_gender_query q db = Some r -> reply_key r = Some "male".
Proof. revert r. unfold handle_gender_query, reply_key. reply_shape. Qed.

Lemma key_5 q db r :
  handle_detail_pengurus_query q db = Some r -> reply_key r = Some "name".
Proof. revert r. unfold handle_detail_pengurus_query, reply_key. reply_shape. Qed.

(** X22.  A question about the total number of employees that quotes a
    text matching a member's name is never answered with the total,
    although handler 8 would answer it: "karyawan" contains "wa", the
    trigger of the contact handler, which comes earlier and answers with
    that member's contact unless a handler before it has answered. *)
Theorem quoted_name_shadows_total (query : string) (db : Session)
    (name : string) (member : Member.t) :
  contains "total" (lower query) = true ->
  contains "karyawan" (lower query) = true ->
  search_quoted (lower query) = Some name ->
  first_by_name name db = Some member ->
  is_Some (handle_total_karyawan_query (lower query) db) /\
  exists r, detect_specific_query query db = Some r
            /\ reply_key r <> Some "total_karyawan".
Proof.
  intros Htotal Hk Hq Hm. split.
  { unfold handle_total_karyawan_query. rewrite Htotal, Hk. by eauto. }
  assert (exists r6, handle_kontak_query (lower query) db = Some r6
                     /\ reply_key r6 = Some "name") as (r6 & H6 & Hkey6).
  { unfold handle_kontak_query. rewrite (wa_in_karyawan _ Hk), Hq, Hm.
    rewrite !orb_true_r. simpl. by eexists. }
  unfold detect_specific_query, handlers, first_result.
  destruct (handle_jabatan_query _ db) as [r|] eqn:H1.
  { exists r. split; [done|]. by destruct (key_1 _ _ _ H1) as [-> | ->]. }
  destruct (handle_bidang_usaha_query _ db) as [r|] eqn:H2.
  { exists r. split; [done|]. by rewrite (key_2 _ _ _ H2). }
  destruct (handle_kta_query _ query db) as [r|] eqn:H3.
  { exists r. split; [done|]. by destruct (key_3 _ _ _ _ H3) as [-> | ->]. }
  destruct (handle_gender_query _ db) as [r|] eqn:H4.
  { exists r. split; [done|]. by rewrite (key_4 _ _ _ H4). }
  destruct (handle_detail_pengurus_query _ db) as [r|] eqn:H5.
  { exists r. split; [done|]. by rewrite (key_5 _ _ _ H5). }
  rewrite H6. exists r6. split; [done|]. by rewrite Hkey6.
Qed.

Lemma quoted_name_shadows_total_witness :
  first_by_name "budi" db_budi = Some budi /\
  exists r,
    detect_specific_query "Total karyawan 'Budi'" db_budi = Some r
    /\ reply_key r = Some "name".
Proof.
  split; [reflexivity|].
  destruct (quoted_name_shadows_total "Total karyawan 'Budi'" db_budi "budi"
              budi eq_refl eq_refl eq_refl eq_refl)
    as (_ & r & Hrun & _).
  exists r. split; [exact Hrun|].
  assert (Some r = detect_specific_query "Total karyawan 'Budi'" db_budi)
    as Hr by (by rewrite Hrun).
  vm_compute in Hr. injection Hr as ->. reflexivity.
Defined.

End Handlers.

(** ** The chat route and its context *)

Section ChatRoute.
Import Chat.

Lemma startswith_prefix (p s : string) : startswith p (p +:+ s) = true.
Proof. induction p as [|a p IH]; simpl; [done|]. by rewrite Ascii.eqb_refl. Qed.

Lemma startswith_append (p a b : string) :
  startswith p a = true -> startswith p (a +:+ b) = true.
Proof.
  revert a. induction p as [|x p IH]; intros a H; [done|].
  destruct a as [|y a]; simpl in *; [done|].
  destruct (Ascii.eqb x y); [by apply IH|done].
Qed.

Lemma startswith_join (p sep a : string) (parts : list string) :
  startswith p a = true -> startswith p (join sep (a :: parts)) = true.
Proof.
  intros H. destruct parts as [|b parts]; [done|].
  change (startswith p (a +:+ sep +:+ join sep (b :: parts)) = true).
  by apply startswith_append.
Qed.

Lemma startswith_slice_to (p s : string) (n : N) :
  startswith p s = true -> (N.of_nat (String.length p) <= n)%N ->
  startswith p (slice_to n s) = true.
Proof.
  revert s n. induction p as [|x p IH]; intros s n H Hn; [done|].
  destruct s as [|y s]; simpl in *; [done|].
  destruct (N.eqb_spec n 0) as [->|Hn0]; [lia|]. simpl.
  destruct (Ascii.eqb x y); [|done]. apply IH; [done|lia].
Qed.

(** X23.  The context built for a general question has at most 25,024
    characters: it is cut at 25,000 and a marker of 24 characters is
    added.  It always starts with the heading of the statistics, which
    the cut cannot reach, and the two counts returned with it are the
    number of members and the number of stored documents. *)
Theorem context_is_bounded `{Engine} (db : Session) :
  let result := build_ai_context db in
  (N.of_nat (String.length result.1.1) <= 25024)%N /\
  startswith "=== DATA PENGURUS HIPMI ===" result.1.1 = true /\
  result.1.2 = length (members db) /\
  result.2 = size (documents db).
Proof.
  unfold build_ai_context. cbv zeta.
  set (parts := omap context_part _).
  set (context := join _ (_ :: parts)).
  assert (startswith "=== DATA PENGURUS HIPMI ===" context = true) as Hhead.
  { apply startswith_join. unfold analytics_context. cbv zeta.
    apply startswith_prefix. }
  cbn [fst snd]. split_and!.
  - destruct (25000 <? N.of_nat (String.length context))%N eqn:Hcut.
    + rewrite length_append, length_slice_to.
      change (String.length (nl +:+ nl +:+ "[Context truncated...]")) with 24.
      lia.
    + apply N.ltb_ge in Hcut. lia.
  - destruct (25000 <? N.of_nat (String.length context))%N; [|done].
    by apply startswith_append, startswith_slice_to.
  - done.
  - apply length_rows.
Qed.

(** X24.  A question that a handler answers gets that answer with status
    success, whatever the gateway, the clock, the database engine, the
    context sent with the request and the documents are: it is answered
    even when the gateway cannot be constructed, and only the members are
    read. *)
Theorem specific_answers_bypass_the_gateway (engine engine' : Engine)
    (env env' : Env) (request request' : ChatQuerySchema) (db db' : Session)
    (r : reply) :
  detect_specific_query (query request) db = Some r ->
  query request' = query request ->
  members db' = members db ->
  @chat_query engine env request db
  = inr [ ("status", JStr "success");
          ("query", JStr (query request));
          ("response", JStr (answer r));
          ("source", JStr "Direct Database Query");
          ("query_type", JStr "specific");
          ("data", data r) ]
  /\ @chat_query engine' env' request' db' = @chat_query engine env request db.
Proof.
  intros Hr Hquery Hmembers.
  assert (detect_specific_query (query request') db' = Some r) as Hr'.
  { by rewrite Hquery, (router_reads_members _ db' db Hmembers). }
  unfold chat_query. rewrite Hr, Hr', Hquery. by split.
Qed.

Lemma specific_answers_bypass_the_gateway_witness :
  exists r,
    detect_specific_query "Total karyawan semua perusahaan?" db_budi = Some r /\
    @chat_query newest_first env_no_client
      {| query := "Total karyawan semua perusahaan?"; context := None |} db_budi
    = inr [ ("status", JStr "success");
            ("query", JStr "Total karyawan semua perusahaan?");
            ("response", JStr (answer r));
            ("source", JStr "Direct Database Query");
            ("query_type", JStr "specific");
            ("data", data r) ].
Proof.
  eexists. split; [vm_compute; reflexivity|].
  apply (specific_answers_bypass_the_gateway newest_first newest_first
           env_no_client env_no_client
           {| query := "Total karyawan semua perusahaan?"; context := None |}
           {| query := "Total karyawan semua perusahaan?"; context := None |}
           db_budi db_budi); reflexivity.
Defined.

(** X25.  A question that no handler answers fails, with status 500,
    only when the gateway cannot be constructed.  Otherwise the route
    answers with status success even when the gateway call fails: the
    response is then the text of the error ("API Key not configured"
    without a key, "Error: Gemini API call failed: ..." when the call
    raises or comes back empty).  A context sent with the request is used
    as it is, and the two counts are then 0; without one, the context and
    the counts are those of the context builder. *)
Theorem general_questions_survive_gateway_failures `{Engine} (env : Env)
    (request : ChatQuerySchema) (db : Session) :
  detect_specific_query (query request) db = None ->
  let used :=
    if truthy (context request)
    then (default EmptyString (context request), 0, 0)
    else build_ai_context db in
  (forall e, GeminiService.init env = inl e ->
     chat_query env request db
     = inl (HTTPException 500 ("Chat query failed: " +:+ str e))) /\
  (forall gemini, GeminiService.init env = inr gemini ->
     chat_query env request db
     = inr [ ("status", JStr "success");
             ("query", JStr (query request));
             ("response",
               JStr (if truthy (GEMINI_API_KEY env) then
                       match generate_content env
                               (GeminiService.answer_prompt
                                  (enhanced_query (query request)) used.1.1)
                       with
                       | inr (Some answer) => answer
                       | inr None =>
                           "Error: Gemini API call failed: Gemini API returned empty response"
                       | inl e => "Error: Gemini API call failed: " +:+ str e
                       end
                     else "API Key not configured"));
             ("source", JStr "HIPMI Knowledge Base + AI Analytics");
             ("query_type", JStr "general");
             ("members_count", JNat used.1.2);
             ("documents_count", JNat used.2);
             ("context_size", JNat (String.length used.1.1)) ]).
Proof.
  intros Hnone used. unfold chat_query. rewrite Hnone. fold used.
  destruct used as [[context_used members_count] docs_count]. cbn [fst snd].
  split.
  - by intros e ->.
  - intros gemini Hinit. rewrite Hinit.
    apply init_inr in Hinit as [Hkey Hclient].
    unfold GeminiService.answer_question, GeminiService._call_api.
    rewrite Hkey, Hclient.
    destruct (truthy (GEMINI_API_KEY env)); simpl; [|done].
    by destruct (generate_content env _) as [e|[t|]].
Qed.

Lemma general_questions_survive_gateway_failures_witness :
  detect_specific_query "Apa asas HIPMI?" db_budi = None /\
  @chat_query newest_first env_gateway_down
    {| query := "Apa asas HIPMI?"; context := Some "Asas HIPMI: Pancasila" |}
    db_budi
  = inr [ ("status", JStr "success");
          ("query", JStr "Apa asas HIPMI?");
          ("response", JStr "Error: Gemini API call failed: timeout");
          ("source", JStr "HIPMI Knowledge Base + AI Analytics");
          ("query_type", JStr "general");
          ("members_count", JNat 0);
          ("documents_count", JNat 0);
          ("context_size", JNat 21) ].
Proof.
  split; [reflexivity|].
  apply (proj2 (@general_questions_survive_gateway_failures newest_first
                  env_gateway_down
                  {| query := "Apa asas HIPMI?";
                     context := Some "Asas HIPMI: Pancasila" |}
                  db_budi eq_refl)
               {| GeminiService.api_key := Some "key";
                  GeminiService.client := true |}).
  reflexivity.
Defined.

End ChatRoute.

(** ** What the router answers *)

Section Triggers.
Import Chat.

Ltac reply_type :=
  repeat match goal with
         | |- context [match ?x with _ => _ end] => destruct x
         end;
  intros r H; try discriminate; injection H as <-; reflexivity.

Lemma type_1 q db r :
  handle_jabatan_query q db = Some r -> type r = "specific_query".
Proof. revert r. unfold handle_jabatan_query. reply_type. Qed.

Lemma type_2 q db r :
  handle_bidang_usaha_query q db = Some r -> type r = "specific_query".
Proof. revert r. unfold handle_bidang_usaha_query, bidang_count. reply_type. Qed.

Lemma type_3 q query db r :
  handle_kta_query q query db = Some r -> type r = "specific_query".
Proof. revert r. unfold handle_kta_query. reply_type. Qed.

Lemma type_4 q db r :
  handle_gender_query q db = Some r -> type r = "specific_query".
Proof. revert r. unfold handle_gender_query. reply_type. Qed.

Lemma type_5 q db r :
  handle_detail_pengurus_query q db = Some r -> type r = "specific_query".
Proof. revert r. unfold handle_detail_pengurus_query. reply_type. Qed.

Lemma type_6 q db r :
  handle_kontak_query q db = Some r -> type r = "specific_query".
Proof. revert r. unfold handle_kontak_query. reply_type. Qed.

Lemma type_7 q db r :
  handle_perusahaan_query q db = Some r -> type r = "specific_query".
Proof. revert r. unfold handle_perusahaan_query. reply_type. Qed.

Lemma type_8 q db r :
  handle_total_karyawan_query q db = Some r -> type r = "specific_query".
Proof. revert r. unfold handle_total_karyawan_query. reply_type. Qed.

Lemma no_trigger_no_answer (query : string) (db : Session) :
  any_in trigger_words (lower query) = false ->
  detect_specific_query query db = None.
Proof.
  unfold any_in, trigger_words. cbn [existsb]. intros E.
  repeat (apply orb_false_iff in E as [? E]).
  unfold detect_specific_query, handlers, first_result,
    handle_jabatan_query, handle_bidang_usaha_query, handle_kta_query,
    handle_gender_query, handle_detail_pengurus_query, handle_kontak_query,
    handle_perusahaan_query, handle_total_karyawan_query.
  repeat match goal with
         | Hc : contains _ _ = false |- _ => rewrite Hc; clear Hc
         end.
  reflexivity.
Qed.

(** X27.  The router answers only a query whose lower-cased text contains
    one of sixteen trigger words; any other query goes on to the gateway.
    Every answer of the router has the type "specific_query". *)
Theorem answers_need_a_trigger (query : string) (db : Session) (r : reply) :
  detect_specific_query query db = Some r ->
  any_in trigger_words (lower query) = true /\ type r = "specific_query".
Proof.
  intros Hr. split.
  - destruct (any_in trigger_words (lower query)) eqn:E; [done|].
    rewrite (no_trigger_no_answer query db E) in Hr. discriminate.
  - revert Hr. unfold detect_specific_query, handlers, first_result.
    destruct (handle_jabatan_query _ db) as [r1|] eqn:H1.
    { intros [= <-]. by eapply type_1. }
    destruct (handle_bidang_usaha_query _ db) as [r2|] eqn:H2.
    { intros [= <-]. by eapply type_2. }
    destruct (handle_kta_query _ query db) as [r3|] eqn:H3.
    { intros [= <-]. by eapply type_3. }
    destruct (handle_gender_query _ db) as [r4|] eqn:H4.
    { intros [= <-]. by eapply type_4. }
    destruct (handle_detail_pengurus_query _ db) as [r5|] eqn:H5.
    { intros [= <-]. by eapply type_5. }
    destruct (handle_kontak_query _ db) as [r6|] eqn:H6.
    { intros [= <-]. by eapply type_6. }
    destruct (handle_perusahaan_query _ db) as [r7|] eqn:H7.
    { intros [= <-]. by eapply type_7. }
    destruct (handle_total_karyawan_query _ db) as [r8|] eqn:H8; [|done].
    intros [= <-]. by eapply type_8.
Qed.

Lemma answers_need_a_trigger_witness :
  exists r,
    detect_specific_query "Total karyawan semua perusahaan?" db_budi = Some r /\
    any_in trigger_words (lower "Total karyawan semua perusahaan?") = true.
Proof.
  eexists. split; [vm_compute; reflexivity|].
  eapply (answers_need_a_trigger "Total karyawan semua perusahaan?" db_budi).
  vm_compute. reflexivity.
Defined.

End Triggers.

(** ** Listing by type *)

Section ByType.
Import UniversalDocumentService.
Context `{Engine}.

(** X26.  The listing by type returns the stored documents of exactly that
    type, in the order of the engine and without a limit.  For a type that
    is not empty it is the general listing with that type as its filter
    and a limit as large as the table; the general listing with the empty
    type as its filter applies no filter at all. *)
Theorem by_type_is_a_filtered_listing (db : Session) (t : string)
    (skip limit : nat) :
  (forall d, d ∈ get_documents_by_type db t <->
             (exists k, documents db !! k = Some d)
             /\ UniversalDocument.document_type d = t) /\
  (t <> EmptyString ->
   get_all_documents db 0 (size (documents db)) (Some t) None None
   = get_documents_by_type db t) /\
  get_all_documents db skip limit (Some EmptyString) None None
  = get_all_documents db skip limit None None None.
Proof.
  split_and!.
  - intros d. unfold get_documents_by_type.
    rewrite order_by_uploaded_at_desc_perm, elem_of_Lfilter, elem_of_rows.
    by rewrite eqb_decide, bool_decide_eq_true.
  - intros Ht. unfold get_all_documents, get_documents_by_type. cbv zeta.
    assert (truthy (Some t) = true) as -> by (by destruct t).
    change (truthy None) with false. cbv iota.
    rewrite drop_0.
    rewrite (filter_ext _ (fun d => String.eqb (UniversalDocument.document_type d) t)).
    + apply take_ge. rewrite order_by_uploaded_at_desc_perm.
      rewrite <-(length_rows (documents db)). apply filter_length_le.
    + intros d. rewrite eqb_decide. apply bool_decide_ext.
      split; [by intros [= ->]|by intros ->].
  - reflexivity.
Qed.

End ByType.
